(** * Session manager of chrome-devtools-mcp: page registry, focus
    discipline and accessibility-snapshot identifiers.

    A shallow embedding of [McpContext] and [McpPage] (the session-state
    layer between the tool handlers and the browser driver), followed by
    the properties the specification states about them.

    Conventions of the embedding.
    - A driver [Page] is a JavaScript object compared by identity; here it
      is a handle together with its (immutable) browsing context.
    - The driver is a record [Browser]: what the session manager can
      observe of it (live pages, closed flags, timeouts, the focus
      emulation flag) is state, the write-only emulation primitives are
      appended to a command log.
    - A method of [McpContext] is a function from the state to a result
      and the state it leaves behind; a JavaScript [throw] is the result
      [Throw e], and the mutations made before it stay visible.
    - JavaScript [Map]s whose iteration order is observable are
      association lists in insertion order; the others are [gmap]s.
    - JavaScript numbers are [nat] for counters and identifiers and [Q]
      for timeouts and throttling rates.
    - Fields of the source that no operation below reads (dialog capture,
      the paired DevTools window, the network and console collectors,
      trace and screen-recorder data, the extension registry) are left
      out of the records. *)

From Stdlib Require Import QArith Ascii.
From stdpp Require Import gmap strings list fin_maps pretty.

Close Scope Q_scope.
Local Open Scope string_scope.

(** ** Driver-side data *)

Definition BrowserContext := nat.

Record Page := mkPage {
  page_handle : nat;
  browserContext : BrowserContext;
}.

#[global] Instance Page_eq_dec : EqDecision Page.
Proof. solve_decision. Defined.

#[global] Instance Page_countable : Countable Page :=
  inj_countable' (λ p, (page_handle p, browserContext p))
                 (λ t, mkPage t.1 t.2)
                 (λ p, match p with mkPage _ _ => eq_refl end).

Definition ElementHandle := nat.

Record GeolocationOptions := {
  latitude : Q;
  longitude : Q;
}.

(** puppeteer's [Viewport]; the four optional fields are filled with
    defaults by [emulate]. *)
Record Viewport := {
  vp_width : Q;
  vp_height : Q;
  vp_deviceScaleFactor : option Q;
  vp_isMobile : option bool;
  vp_hasTouch : option bool;
  vp_isLandscape : option bool;
}.

Inductive ColorScheme := dark | light.

(** Argument of [page.emulateNetworkConditions]. *)
Inductive NetworkArg :=
  | NetNull
  | NetOffline
  | NetPredefined (label : string).

(** The write-only driver primitives used by [emulate]. *)
Inductive DriverCall :=
  | EmulateNetworkConditions (c : NetworkArg)
  | EmulateCPUThrottling (rate : Q)
  | SetGeolocation (g : GeolocationOptions)
  | SetUserAgent (ua : option string)
  | EmulatePrefersColorScheme (v : string)
  | SetViewport (v : option Viewport).

(** What the session manager reads back from a live page. *)
Record PageState := {
  ps_closed : bool;
  ps_devtools : bool;
  ps_defaultTimeout : Q;
  ps_navigationTimeout : Q;
  ps_focusEmulation : bool;
}.

Definition initialPageState : PageState :=
  {| ps_closed := false; ps_devtools := false;
     ps_defaultTimeout := 30000%Q; ps_navigationTimeout := 30000%Q;
     ps_focusEmulation := false |}.

Record DevToolsData := {
  cdpRequestId : option string;
  cdpBackendNodeId : option nat;
}.

Record Browser := {
  b_pages : list Page;
  b_contexts : list (BrowserContext * bool);
  b_defaultContext : BrowserContext;
  b_state : gmap Page PageState;
  b_log : list (Page * DriverCall);
  b_next : nat;
  b_foreground : option Page;
  b_predefinedNetworkConditions : list string;
  b_elementHandles : gmap string ElementHandle;
}.

Definition pageState (b : Browser) (p : Page) : PageState :=
  default initialPageState (b_state b !! p).

Definition isClosed (b : Browser) (p : Page) : bool := ps_closed (pageState b p).

Definition with_state (b : Browser) (f : gmap Page PageState → gmap Page PageState) : Browser :=
  {| b_pages := b_pages b; b_contexts := b_contexts b;
     b_defaultContext := b_defaultContext b; b_state := f (b_state b);
     b_log := b_log b; b_next := b_next b; b_foreground := b_foreground b;
     b_predefinedNetworkConditions := b_predefinedNetworkConditions b;
     b_elementHandles := b_elementHandles b |}.

Definition updatePage (b : Browser) (p : Page) (f : PageState → PageState) : Browser :=
  with_state b (λ m, <[p := f (pageState b p)]> m).

Definition setDefaultTimeout (t : Q) (ps : PageState) : PageState :=
  {| ps_closed := ps_closed ps; ps_devtools := ps_devtools ps;
     ps_defaultTimeout := t; ps_navigationTimeout := ps_navigationTimeout ps;
     ps_focusEmulation := ps_focusEmulation ps |}.

Definition setDefaultNavigationTimeout (t : Q) (ps : PageState) : PageState :=
  {| ps_closed := ps_closed ps; ps_devtools := ps_devtools ps;
     ps_defaultTimeout := ps_defaultTimeout ps; ps_navigationTimeout := t;
     ps_focusEmulation := ps_focusEmulation ps |}.

Definition setFocusEmulation (v : bool) (ps : PageState) : PageState :=
  {| ps_closed := ps_closed ps; ps_devtools := ps_devtools ps;
     ps_defaultTimeout := ps_defaultTimeout ps;
     ps_navigationTimeout := ps_navigationTimeout ps;
     ps_focusEmulation := v |}.

Definition setClosed (ps : PageState) : PageState :=
  {| ps_closed := true; ps_devtools := ps_devtools ps;
     ps_defaultTimeout := ps_defaultTimeout ps;
     ps_navigationTimeout := ps_navigationTimeout ps;
     ps_focusEmulation := ps_focusEmulation ps |}.

(** [page.emulateFocusedPage(v)] is issued detached and its failure is only
    logged: on a closed page it has no effect. *)
Definition emulateFocusedPage (b : Browser) (p : Page) (v : bool) : Browser :=
  if isClosed b p then b else updatePage b p (setFocusEmulation v).

Definition driverCall (b : Browser) (p : Page) (c : DriverCall) : Browser :=
  {| b_pages := b_pages b; b_contexts := b_contexts b;
     b_defaultContext := b_defaultContext b; b_state := b_state b;
     b_log := b_log b ++ [(p, c)]; b_next := b_next b;
     b_foreground := b_foreground b;
     b_predefinedNetworkConditions := b_predefinedNetworkConditions b;
     b_elementHandles := b_elementHandles b |}.

(** [page.close()]: the page leaves the list of live pages and reports
    [isClosed()]. *)
Definition closeDriverPage (b : Browser) (p : Page) : Browser :=
  {| b_pages := filter (λ q, q ≠ p) (b_pages b); b_contexts := b_contexts b;
     b_defaultContext := b_defaultContext b;
     b_state := <[p := setClosed (pageState b p)]> (b_state b);
     b_log := b_log b; b_next := b_next b;
     b_foreground := b_foreground b;
     b_predefinedNetworkConditions := b_predefinedNetworkConditions b;
     b_elementHandles := b_elementHandles b |}.

(** [browser.createBrowserContext()]: a fresh, open context. *)
Definition createBrowserContext (b : Browser) : BrowserContext * Browser :=
  (b_next b,
   {| b_pages := b_pages b; b_contexts := b_contexts b ++ [(b_next b, false)];
      b_defaultContext := b_defaultContext b; b_state := b_state b;
      b_log := b_log b; b_next := S (b_next b);
      b_foreground := b_foreground b;
      b_predefinedNetworkConditions := b_predefinedNetworkConditions b;
      b_elementHandles := b_elementHandles b |}).

(** [ctx.newPage()] and [browser.newPage({background})]: a fresh live page
    in the given context. The driver brings it to the foreground unless
    [background] is set. *)
Definition createDriverPage (b : Browser) (ctx : BrowserContext) (background : bool)
  : Page * Browser :=
  let p := mkPage (b_next b) ctx in
  (p,
   {| b_pages := b_pages b ++ [p]; b_contexts := b_contexts b;
      b_defaultContext := b_defaultContext b;
      b_state := <[p := initialPageState]> (b_state b);
      b_log := b_log b; b_next := S (b_next b);
      b_foreground := if background then b_foreground b else Some p;
      b_predefinedNetworkConditions := b_predefinedNetworkConditions b;
      b_elementHandles := b_elementHandles b |}).

(** ** Accessibility nodes and snapshots *)

(** puppeteer's [SerializedAXNode], with the fields the indexer reads. The
    induction principles over the two trees are stated further down. *)
#[local] Unset Elimination Schemes.

Inductive SerializedAXNode := mkAX {
  ax_role : string;
  ax_name : option string;
  ax_value : option string;
  ax_loaderId : option string;
  ax_backendNodeId : option nat;
  ax_children : option (list SerializedAXNode);
}.

Inductive TextSnapshotNode := mkNode {
  node_id : string;
  node_role : string;
  node_name : option string;
  node_value : option string;
  node_loaderId : option string;
  node_backendNodeId : option nat;
  node_children : list TextSnapshotNode;
}.

#[local] Set Elimination Schemes.

Record TextSnapshot := {
  root : TextSnapshotNode;
  idToNode : gmap string TextSnapshotNode;
  snapshotId : string;
  selectedElementUid : option string;
  hasSelectedElement : bool;
  verbose : bool;
}.

Record EmulationSettings := {
  es_networkConditions : option string;
  es_cpuThrottlingRate : option Q;
  es_geolocation : option GeolocationOptions;
  es_userAgent : option string;
  es_colorScheme : option ColorScheme;
  es_viewport : option Viewport;
}.

Definition emptySettings : EmulationSettings :=
  {| es_networkConditions := None; es_cpuThrottlingRate := None;
     es_geolocation := None; es_userAgent := None;
     es_colorScheme := None; es_viewport := None |}.

(** ** McpPage *)

Record McpPage := {
  mp_id : nat;
  textSnapshot : option TextSnapshot;
  uniqueBackendNodeIdToMcpId : gmap string string;
  emulationSettings : EmulationSettings;
  isolatedContextName : option string;
}.

Definition newMcpPage (id : nat) : McpPage :=
  {| mp_id := id; textSnapshot := None; uniqueBackendNodeIdToMcpId := ∅;
     emulationSettings := emptySettings; isolatedContextName := None |}.

Definition networkConditions (mp : McpPage) : option string :=
  es_networkConditions (emulationSettings mp).

Definition cpuThrottlingRate (mp : McpPage) : Q :=
  default 1%Q (es_cpuThrottlingRate (emulationSettings mp)).

(** ** McpContext: state, errors, and the state-and-exception monad *)

Record McpContextOptions := {
  experimentalDevToolsDebugging : bool;
  experimentalIncludeAllPages : bool;
  performanceCrux : bool;
}.

Record McpContext := {
  browser : Browser;
  opts : McpContextOptions;
  isolatedContexts : list (string * BrowserContext);
  nextIsolatedContextId : nat;
  pages : list Page;
  mcpPages : list (Page * McpPage);
  selectedPage : option Page;
  focusedPagePerContext : gmap BrowserContext Page;
  requestPage : option Page;
  nextPageId : nat;
  nextSnapshotId : nat;
}.

(** Every [new Error(...)] of the modelled methods, with the values that
    are interpolated into its message. An identifier printed through
    [?.id] or [?? '?'] is an [option]. *)
Inductive McpError :=
  | LastPageError                      (* CLOSE_PAGE_ERROR *)
  | NotFoundError                      (* 'No page found' *)
  | NoPageSelected                     (* 'No page selected' *)
  | SelectedPageClosed                 (* 'The selected page has been closed. ...' *)
  | NoMcpPageFound                     (* 'No McpPage found for the given page.' *)
  | FocusViolationError (target focused : option nat)
                                       (* 'Page T is not the active page ...' *)
  | UidFocusViolationError (uid : string) (target : nat) (selected : option nat)
                                       (* 'Element uid U belongs to page T, but ...' *)
  | NoSnapshotForPage (page : option nat)
                                       (* 'No snapshot found for page P. ...' *)
  | UidNotOnPage (uid : string) (page : nat)
                                       (* 'Element uid U not found on page P.' *)
  | NoSnapshotError                    (* 'No snapshot found. ...' *)
  | UnknownUidError                    (* 'No such element found in any snapshot.' *)
  | StaleElementError (uid : string).  (* 'Element with uid U no longer exists ...' *)

Inductive Result (A : Type) :=
  | Ok (a : A)
  | Throw (e : McpError).
Arguments Ok {A} a.
Arguments Throw {A} e.

Definition M (A : Type) : Type := McpContext → Result A * McpContext.

Definition ret {A} (a : A) : M A := λ s, (Ok a, s).
Definition throw {A} (e : McpError) : M A := λ s, (Throw e, s).
Definition bind {A B} (m : M A) (k : A → M B) : M B :=
  λ s, match m s with
       | (Ok a, s') => k a s'
       | (Throw e, s') => (Throw e, s')
       end.
Definition get : M McpContext := λ s, (Ok s, s).
Definition put (s : McpContext) : M unit := λ _, (Ok tt, s).
Definition modify (f : McpContext → McpContext) : M unit := λ s, (Ok tt, f s).

Notation "'let*' x ':=' m 'in' k" := (bind m (λ x, k))
  (at level 10, x name, m at level 100, k at level 200).
Notation "m ';;;' k" := (bind m (λ _, k))
  (at level 100, k at level 200, right associativity).

(** Field updates. *)
Definition set_browser (b : Browser) (s : McpContext) : McpContext :=
  {| browser := b; opts := opts s; isolatedContexts := isolatedContexts s;
     nextIsolatedContextId := nextIsolatedContextId s; pages := pages s;
     mcpPages := mcpPages s; selectedPage := selectedPage s;
     focusedPagePerContext := focusedPagePerContext s;
     requestPage := requestPage s; nextPageId := nextPageId s;
     nextSnapshotId := nextSnapshotId s |}.

Definition set_isolatedContexts (l : list (string * BrowserContext)) (n : nat)
    (s : McpContext) : McpContext :=
  {| browser := browser s; opts := opts s; isolatedContexts := l;
     nextIsolatedContextId := n; pages := pages s;
     mcpPages := mcpPages s; selectedPage := selectedPage s;
     focusedPagePerContext := focusedPagePerContext s;
     requestPage := requestPage s; nextPageId := nextPageId s;
     nextSnapshotId := nextSnapshotId s |}.

Definition set_pages (l : list Page) (s : McpContext) : McpContext :=
  {| browser := browser s; opts := opts s; isolatedContexts := isolatedContexts s;
     nextIsolatedContextId := nextIsolatedContextId s; pages := l;
     mcpPages := mcpPages s; selectedPage := selectedPage s;
     focusedPagePerContext := focusedPagePerContext s;
     requestPage := requestPage s; nextPageId := nextPageId s;
     nextSnapshotId := nextSnapshotId s |}.

Definition set_mcpPages (l : list (Page * McpPage)) (s : McpContext) : McpContext :=
  {| browser := browser s; opts := opts s; isolatedContexts := isolatedContexts s;
     nextIsolatedContextId := nextIsolatedContextId s; pages := pages s;
     mcpPages := l; selectedPage := selectedPage s;
     focusedPagePerContext := focusedPagePerContext s;
     requestPage := requestPage s; nextPageId := nextPageId s;
     nextSnapshotId := nextSnapshotId s |}.

Definition set_selectedPage (p : option Page) (s : McpContext) : McpContext :=
  {| browser := browser s; opts := opts s; isolatedContexts := isolatedContexts s;
     nextIsolatedContextId := nextIsolatedContextId s; pages := pages s;
     mcpPages := mcpPages s; selectedPage := p;
     focusedPagePerContext := focusedPagePerContext s;
     requestPage := requestPage s; nextPageId := nextPageId s;
     nextSnapshotId := nextSnapshotId s |}.

Definition set_focusedPagePerContext (m : gmap BrowserContext Page) (s : McpContext)
  : McpContext :=
  {| browser := browser s; opts := opts s; isolatedContexts := isolatedContexts s;
     nextIsolatedContextId := nextIsolatedContextId s; pages := pages s;
     mcpPages := mcpPages s; selectedPage := selectedPage s;
     focusedPagePerContext := m;
     requestPage := requestPage s; nextPageId := nextPageId s;
     nextSnapshotId := nextSnapshotId s |}.

Definition set_requestPage (p : option Page) (s : McpContext) : McpContext :=
  {| browser := browser s; opts := opts s; isolatedContexts := isolatedContexts s;
     nextIsolatedContextId := nextIsolatedContextId s; pages := pages s;
     mcpPages := mcpPages s; selectedPage := selectedPage s;
     focusedPagePerContext := focusedPagePerContext s;
     requestPage := p; nextPageId := nextPageId s;
     nextSnapshotId := nextSnapshotId s |}.

Definition set_nextPageId (n : nat) (s : McpContext) : McpContext :=
  {| browser := browser s; opts := opts s; isolatedContexts := isolatedContexts s;
     nextIsolatedContextId := nextIsolatedContextId s; pages := pages s;
     mcpPages := mcpPages s; selectedPage := selectedPage s;
     focusedPagePerContext := focusedPagePerContext s;
     requestPage := requestPage s; nextPageId := n;
     nextSnapshotId := nextSnapshotId s |}.

Definition set_nextSnapshotId (n : nat) (s : McpContext) : McpContext :=
  {| browser := browser s; opts := opts s; isolatedContexts := isolatedContexts s;
     nextIsolatedContextId := nextIsolatedContextId s; pages := pages s;
     mcpPages := mcpPages s; selectedPage := selectedPage s;
     focusedPagePerContext := focusedPagePerContext s;
     requestPage := requestPage s; nextPageId := nextPageId s;
     nextSnapshotId := n |}.

(** Insertion-ordered [Map]: [get], [set] (in place when the key exists,
    appended otherwise) and [delete]. *)
Section OrderedMap.
Context {K V : Type} `{EqDecision K}.

Fixpoint omap_get (k : K) (l : list (K * V)) : option V :=
  match l with
  | [] => None
  | (k', v) :: l' => if decide (k' = k) then Some v else omap_get k l'
  end.

Fixpoint omap_set (k : K) (v : V) (l : list (K * V)) : list (K * V) :=
  match l with
  | [] => [(k, v)]
  | (k', v') :: l' =>
      if decide (k' = k) then (k, v) :: l' else (k', v') :: omap_set k v l'
  end.

Definition omap_delete (k : K) (l : list (K * V)) : list (K * V) :=
  filter (λ e, e.1 ≠ k) l.
End OrderedMap.

(** ** Constants *)

Definition DEFAULT_TIMEOUT : Q := 5000%Q.
Definition NAVIGATION_TIMEOUT : Q := 10000%Q.

Definition CLOSE_PAGE_ERROR : string :=
  "The last open page cannot be closed. It is fine to keep it open.".

(** The [switch] compares the label with each [case] in turn. *)
Definition getNetworkMultiplierFromString (condition : option string) : Q :=
  if decide (condition = Some "Fast 4G") then 1%Q
  else if decide (condition = Some "Slow 4G") then 2.5%Q
  else if decide (condition = Some "Fast 3G") then 5%Q
  else if decide (condition = Some "Slow 3G") then 10%Q
  else 1%Q.

(** ** Page resolution *)

Definition setRequestPage (page : option Page) : M unit :=
  modify (set_requestPage page).

Definition getSelectedPage : M Page := λ s,
  match selectedPage s with
  | None => (Throw NoPageSelected, s)
  | Some page =>
      if isClosed (browser s) page then (Throw SelectedPageClosed, s)
      else (Ok page, s)
  end.

Definition resolveTargetPage : M Page := λ s,
  match requestPage s with
  | Some page => (Ok page, s)
  | None => getSelectedPage s
  end.

Definition getPageId (s : McpContext) (page : Page) : option nat :=
  mp_id <$> omap_get page (mcpPages s).

Definition getPageById (pageId : nat) : M Page := λ s,
  match List.find (λ p, bool_decide (getPageId s p = Some pageId)) (pages s) with
  | Some page => (Ok page, s)
  | None => (Throw NotFoundError, s)
  end.

Definition resolvePageById (pageId : option nat) : M Page :=
  match pageId with
  | None => getSelectedPage
  | Some i => getPageById i
  end.

Definition getMcpPage (page : Page) : M McpPage := λ s,
  match omap_get page (mcpPages s) with
  | Some mcpPage => (Ok mcpPage, s)
  | None => (Throw NoMcpPageFound, s)
  end.

Definition getSelectedMcpPage : M McpPage :=
  let* page := getSelectedPage in getMcpPage page.

Definition isPageSelected (s : McpContext) (page : Page) : bool :=
  bool_decide (selectedPage s = Some page).

Definition getNetworkConditions : M (option string) :=
  let* page := resolveTargetPage in
  let* mcpPage := getMcpPage page in
  ret (networkConditions mcpPage).

Definition getCpuThrottlingRate : M Q :=
  let* page := resolveTargetPage in
  let* mcpPage := getMcpPage page in
  ret (cpuThrottlingRate mcpPage).

(** ** Focus discipline *)

Definition assertPageIsFocused (page : Page) : M unit := λ s,
  let ctx := browserContext page in
  match focusedPagePerContext s !! ctx with
  | Some focused =>
      if decide (focused ≠ page) then
        (Throw (FocusViolationError (getPageId s page) (getPageId s focused)), s)
      else (Ok tt, s)
  | None => (Ok tt, s)
  end.

Definition updateSelectedPageTimeouts : M unit :=
  let* page := getSelectedPage in
  let* cpuMultiplier := getCpuThrottlingRate in
  modify (λ s, set_browser
    (updatePage (browser s) page
       (setDefaultTimeout (DEFAULT_TIMEOUT * cpuMultiplier)%Q)) s) ;;;
  let* conditions := getNetworkConditions in
  let networkMultiplier := getNetworkMultiplierFromString conditions in
  modify (λ s, set_browser
    (updatePage (browser s) page
       (setDefaultNavigationTimeout (NAVIGATION_TIMEOUT * networkMultiplier)%Q)) s).

Definition selectPage (newPage : Page) : M unit :=
  let ctx := browserContext newPage in
  let* s := get in
  let oldFocused := focusedPagePerContext s !! ctx in
  match oldFocused with
  | Some old =>
      if decide (old ≠ newPage) then
        if isClosed (browser s) old then ret tt
        else modify (λ s, set_browser (emulateFocusedPage (browser s) old false) s)
      else ret tt
  | None => ret tt
  end ;;;
  modify (λ s, set_focusedPagePerContext (<[ctx := newPage]> (focusedPagePerContext s)) s) ;;;
  modify (set_selectedPage (Some newPage)) ;;;
  updateSelectedPageTimeouts ;;;
  modify (λ s, set_browser (emulateFocusedPage (browser s) newPage true) s).

(** ** closePage *)

Definition closePage (pageId : nat) : M unit :=
  let* s := get in
  if decide (length (pages s) = 1) then throw LastPageError
  else
    let* page := getPageById pageId in
    modify (λ s, match omap_get page (mcpPages s) with
                 | Some _ => set_mcpPages (omap_delete page (mcpPages s)) s
                 | None => s
                 end) ;;;
    let ctx := browserContext page in
    modify (λ s, if decide (focusedPagePerContext s !! ctx = Some page)
                 then set_focusedPagePerContext (delete ctx (focusedPagePerContext s)) s
                 else s) ;;;
    modify (λ s, set_browser (closeDriverPage (browser s) page) s).

(** ** Element lookup by uid *)

Definition backendKey (loaderId : option string) (backendNodeId : option nat) : string :=
  default "undefined" loaderId +:+ "_" +:+
  match backendNodeId with Some n => pretty n | None => "undefined" end.

(** [node.elementHandle()] is answered by the driver; a missing entry
    stands for a [null] handle or a driver error, both of which the
    method turns into the same error. *)
Definition resolveElementHandle (node : TextSnapshotNode) (uid : string)
  : M ElementHandle := λ s,
  match b_elementHandles (browser s)
          !! backendKey (node_loaderId node) (node_backendNodeId node) with
  | Some handle => (Ok handle, s)
  | None => (Throw (StaleElementError uid), s)
  end.

(** The [for] loop of the cross-page search, over the entries of
    [#mcpPages] in insertion order. *)
Fixpoint searchAllPages (uid : string) (entries : list (Page * McpPage))
    (anySnapshot : bool) : M ElementHandle :=
  match entries with
  | [] => if anySnapshot then throw UnknownUidError else throw NoSnapshotError
  | (searchPage, mcpPage) :: rest =>
      match textSnapshot mcpPage with
      | None => searchAllPages uid rest anySnapshot
      | Some snapshot =>
          match idToNode snapshot !! uid with
          | Some node =>
              let ctx := browserContext searchPage in
              let* s := get in
              let contextSelectedPage := focusedPagePerContext s !! ctx in
              if decide (contextSelectedPage ≠ Some searchPage) then
                let targetId := mp_id mcpPage in
                let* selectedId :=
                  match contextSelectedPage with
                  | Some p => ret (getPageId s p)
                  | None => let* mp := getSelectedMcpPage in ret (Some (mp_id mp))
                  end in
                throw (UidFocusViolationError uid targetId selectedId)
              else
                (if decide (selectedPage s ≠ Some searchPage)
                 then modify (set_selectedPage (Some searchPage))
                 else ret tt) ;;;
                resolveElementHandle node uid
          | None => searchAllPages uid rest true
          end
      end
  end.

Definition getElementByUid (uid : string) (page : option Page) : M ElementHandle :=
  match page with
  | Some page =>
      let* s := get in
      match omap_get page (mcpPages s) with
      | None => throw (NoSnapshotForPage None)
      | Some mcpPage =>
          match textSnapshot mcpPage with
          | None => throw (NoSnapshotForPage (Some (mp_id mcpPage)))
          | Some snapshot =>
              match idToNode snapshot !! uid with
              | None => throw (UidNotOnPage uid (mp_id mcpPage))
              | Some node => resolveElementHandle node uid
              end
          end
      end
  | None =>
      let* s := get in
      searchAllPages uid (mcpPages s) false
  end.

(** ** Emulation *)

Inductive ColorSchemeOption := cs_dark | cs_light | cs_auto.

(** The argument of [emulate]: [None] is an absent field ([undefined]),
    [Some None] an explicit [null]. *)
Record EmulateOptions := {
  eo_networkConditions : option (option string);
  eo_cpuThrottlingRate : option (option Q);
  eo_geolocation : option (option GeolocationOptions);
  eo_userAgent : option (option string);
  eo_colorScheme : option (option ColorSchemeOption);
  eo_viewport : option (option Viewport);
}.

Definition set_emulationSettings (e : EmulationSettings) (mp : McpPage) : McpPage :=
  {| mp_id := mp_id mp; textSnapshot := textSnapshot mp;
     uniqueBackendNodeIdToMcpId := uniqueBackendNodeIdToMcpId mp;
     emulationSettings := e; isolatedContextName := isolatedContextName mp |}.

Definition set_isolatedContextName (n : option string) (mp : McpPage) : McpPage :=
  {| mp_id := mp_id mp; textSnapshot := textSnapshot mp;
     uniqueBackendNodeIdToMcpId := uniqueBackendNodeIdToMcpId mp;
     emulationSettings := emulationSettings mp; isolatedContextName := n |}.

Definition set_snapshot (t : option TextSnapshot) (m : gmap string string)
    (mp : McpPage) : McpPage :=
  {| mp_id := mp_id mp; textSnapshot := t;
     uniqueBackendNodeIdToMcpId := m;
     emulationSettings := emulationSettings mp;
     isolatedContextName := isolatedContextName mp |}.

Definition send (page : Page) (c : DriverCall) : M unit :=
  modify (λ s, set_browser (driverCall (browser s) page c) s).

Definition withDefaults (v : Viewport) : Viewport :=
  {| vp_width := vp_width v; vp_height := vp_height v;
     vp_deviceScaleFactor := Some (default 1%Q (vp_deviceScaleFactor v));
     vp_isMobile := Some (default false (vp_isMobile v));
     vp_hasTouch := Some (default false (vp_hasTouch v));
     vp_isLandscape := Some (default false (vp_isLandscape v)) |}.

Definition emulateNetwork (page : Page) (o : option (option string))
    (e : EmulationSettings) : M EmulationSettings :=
  match o with
  | None => ret e
  | Some c =>
      let cleared :=
        {| es_networkConditions := None;
           es_cpuThrottlingRate := es_cpuThrottlingRate e;
           es_geolocation := es_geolocation e; es_userAgent := es_userAgent e;
           es_colorScheme := es_colorScheme e; es_viewport := es_viewport e |} in
      let stored (l : string) :=
        {| es_networkConditions := Some l;
           es_cpuThrottlingRate := es_cpuThrottlingRate e;
           es_geolocation := es_geolocation e; es_userAgent := es_userAgent e;
           es_colorScheme := es_colorScheme e; es_viewport := es_viewport e |} in
      match c with
      | None => send page (EmulateNetworkConditions NetNull) ;;; ret cleared
      | Some l =>
          if decide (l = "No emulation") then
            send page (EmulateNetworkConditions NetNull) ;;; ret cleared
          else if decide (l = "Offline") then
            send page (EmulateNetworkConditions NetOffline) ;;; ret (stored "Offline")
          else
            let* s := get in
            if decide (l ∈ b_predefinedNetworkConditions (browser s)) then
              send page (EmulateNetworkConditions (NetPredefined l)) ;;; ret (stored l)
            else ret e
      end
  end.

Definition emulateCpu (page : Page) (o : option (option Q))
    (e : EmulationSettings) : M EmulationSettings :=
  match o with
  | None => ret e
  | Some r =>
      send page (EmulateCPUThrottling (default 1%Q r)) ;;;
      ret {| es_networkConditions := es_networkConditions e;
             es_cpuThrottlingRate := r;
             es_geolocation := es_geolocation e; es_userAgent := es_userAgent e;
             es_colorScheme := es_colorScheme e; es_viewport := es_viewport e |}
  end.

Definition emulateGeolocation (page : Page) (o : option (option GeolocationOptions))
    (e : EmulationSettings) : M EmulationSettings :=
  match o with
  | None => ret e
  | Some g =>
      send page (SetGeolocation
                   (default {| latitude := 0%Q; longitude := 0%Q |} g)) ;;;
      ret {| es_networkConditions := es_networkConditions e;
             es_cpuThrottlingRate := es_cpuThrottlingRate e;
             es_geolocation := g; es_userAgent := es_userAgent e;
             es_colorScheme := es_colorScheme e; es_viewport := es_viewport e |}
  end.

Definition emulateUserAgent (page : Page) (o : option (option string))
    (e : EmulationSettings) : M EmulationSettings :=
  match o with
  | None => ret e
  | Some ua =>
      send page (SetUserAgent ua) ;;;
      ret {| es_networkConditions := es_networkConditions e;
             es_cpuThrottlingRate := es_cpuThrottlingRate e;
             es_geolocation := es_geolocation e; es_userAgent := ua;
             es_colorScheme := es_colorScheme e; es_viewport := es_viewport e |}
  end.

Definition emulateColorScheme (page : Page) (o : option (option ColorSchemeOption))
    (e : EmulationSettings) : M EmulationSettings :=
  match o with
  | None => ret e
  | Some c =>
      let stored (v : option ColorScheme) :=
        {| es_networkConditions := es_networkConditions e;
           es_cpuThrottlingRate := es_cpuThrottlingRate e;
           es_geolocation := es_geolocation e; es_userAgent := es_userAgent e;
           es_colorScheme := v; es_viewport := es_viewport e |} in
      match c with
      | None | Some cs_auto =>
          send page (EmulatePrefersColorScheme EmptyString) ;;; ret (stored None)
      | Some cs_dark =>
          send page (EmulatePrefersColorScheme "dark") ;;; ret (stored (Some dark))
      | Some cs_light =>
          send page (EmulatePrefersColorScheme "light") ;;; ret (stored (Some light))
      end
  end.

Definition emulateViewport (page : Page) (o : option (option Viewport))
    (e : EmulationSettings) : M EmulationSettings :=
  match o with
  | None => ret e
  | Some v =>
      let viewport := withDefaults <$> v in
      send page (SetViewport viewport) ;;;
      ret {| es_networkConditions := es_networkConditions e;
             es_cpuThrottlingRate := es_cpuThrottlingRate e;
             es_geolocation := es_geolocation e; es_userAgent := es_userAgent e;
             es_colorScheme := es_colorScheme e; es_viewport := viewport |}
  end.

Definition timeoutsNeedUpdate (options : EmulateOptions) : bool :=
  bool_decide (eo_networkConditions options ≠ None) ||
  bool_decide (eo_cpuThrottlingRate options ≠ None).

(** The awaited driver primitives are taken to succeed. *)
Definition emulate (options : EmulateOptions) (targetPage : option Page) : M unit :=
  let* page := match targetPage with Some p => ret p | None => getSelectedPage end in
  let* mcpPage := getMcpPage page in
  let newSettings := emulationSettings mcpPage in
  let* newSettings := emulateNetwork page (eo_networkConditions options) newSettings in
  let* newSettings := emulateCpu page (eo_cpuThrottlingRate options) newSettings in
  let* newSettings := emulateGeolocation page (eo_geolocation options) newSettings in
  let* newSettings := emulateUserAgent page (eo_userAgent options) newSettings in
  let* newSettings := emulateColorScheme page (eo_colorScheme options) newSettings in
  let* newSettings := emulateViewport page (eo_viewport options) newSettings in
  modify (λ s, set_mcpPages
    (omap_set page (set_emulationSettings newSettings mcpPage) (mcpPages s)) s) ;;;
  if timeoutsNeedUpdate options then updateSelectedPageTimeouts else ret tt.

Definition restoreEmulation (targetPage : option Page) : M unit :=
  let* page := match targetPage with Some p => ret p | None => getSelectedPage end in
  let* mcpPage := getMcpPage page in
  let e := emulationSettings mcpPage in
  emulate {| eo_networkConditions := Some <$> es_networkConditions e;
             eo_cpuThrottlingRate := Some <$> es_cpuThrottlingRate e;
             eo_geolocation := Some <$> es_geolocation e;
             eo_userAgent := Some <$> es_userAgent e;
             eo_colorScheme :=
               (λ c, Some match c with dark => cs_dark | light => cs_light end)
                 <$> es_colorScheme e;
             eo_viewport := Some <$> es_viewport e |} targetPage.

(** ** Registry refresh and page creation *)

(** The discovery loop of [#getAllPages] over [browser.browserContexts()]:
    [known] is the set of contexts named before the loop started. *)
Fixpoint discoverContexts (defaultCtx : BrowserContext) (known : list BrowserContext)
    (ctxs : list (BrowserContext * bool))
    (named : list (string * BrowserContext)) (next : nat)
    (contextToName : gmap BrowserContext string)
  : list (string * BrowserContext) * nat * gmap BrowserContext string :=
  match ctxs with
  | [] => (named, next, contextToName)
  | (ctx, closed) :: rest =>
      if decide (ctx ≠ defaultCtx ∧ closed = false ∧ ctx ∉ known) then
        let name := "isolated-context-" +:+ pretty next in
        discoverContexts defaultCtx known rest
          (omap_set name ctx named) (S next) (<[ctx := name]> contextToName)
      else discoverContexts defaultCtx known rest named next contextToName
  end.

Definition getAllPages : M (list Page * gmap Page string) := λ s,
  let defaultCtx := b_defaultContext (browser s) in
  let allPages := b_pages (browser s) in
  let contextToName :=
    foldl (λ m e, <[e.2 := e.1]> m) (∅ : gmap BrowserContext string)
          (isolatedContexts s) in
  let knownContexts := (isolatedContexts s).*2 in
  let '(named, next, contextToName) :=
    discoverContexts defaultCtx knownContexts (b_contexts (browser s))
      (isolatedContexts s) (nextIsolatedContextId s) contextToName in
  let isolatedContextNames :=
    foldl (λ m page,
             match contextToName !! browserContext page with
             | Some name => if decide (name = EmptyString) then m else <[page := name]> m
             | None => m
             end) (∅ : gmap Page string) allPages in
  (Ok (allPages, isolatedContextNames), set_isolatedContexts named next s).

(** Only the [devToolsPage] fields, which are not part of this model, depend
    on what the paired-window detection finds; its call of [#getAllPages]
    is kept. *)
Definition detectOpenDevToolsWindows : M unit :=
  let* _ := getAllPages in ret tt.

Definition registerPage (names : gmap Page string) (page : Page) : M unit := λ s,
  match omap_get page (mcpPages s) with
  | Some mcpPage =>
      (Ok tt,
       set_mcpPages
         (omap_set page (set_isolatedContextName (names !! page) mcpPage) (mcpPages s)) s)
  | None =>
      let mcpPage := newMcpPage (nextPageId s) in
      (Ok tt,
       set_mcpPages
         (omap_set page (set_isolatedContextName (names !! page) mcpPage) (mcpPages s))
         (set_nextPageId (S (nextPageId s)) s))
  end.

Fixpoint forEach {A} (f : A → M unit) (l : list A) : M unit :=
  match l with
  | [] => ret tt
  | a :: l' => f a ;;; forEach f l'
  end.

Definition createPagesSnapshot : M (list Page) :=
  let* r := getAllPages in
  let allPages := r.1 in
  let isolatedContextNames := r.2 in
  forEach (registerPage isolatedContextNames) allPages ;;;
  modify (λ s, set_mcpPages
    (filter (λ e, e.1 ∈ allPages) (mcpPages s)) s) ;;;
  modify (λ s, set_focusedPagePerContext
    (filter (λ e, e.2 ∈ allPages) (focusedPagePerContext s)) s) ;;;
  modify (λ s, set_pages
    (filter (λ page, experimentalDevToolsDebugging (opts s) = true
                     ∨ ps_devtools (pageState (browser s) page) = false)
            allPages) s) ;;;
  let* s := get in
  match pages s with
  | first :: _ =>
      match selectedPage s with
      | Some sel => if decide (sel ∈ pages s) then ret tt else selectPage first
      | None => selectPage first
      end
  | [] => ret tt
  end ;;;
  detectOpenDevToolsWindows ;;;
  let* s := get in
  ret (pages s).

(** The network and console collectors, which [newPage] informs of the new
    page after selecting it, are not part of this model. *)
Definition newPage (background : option bool) (isolatedContextName : option string)
  : M Page :=
  let* page :=
    match isolatedContextName with
    | Some name =>
        let* s := get in
        let* ctx :=
          match omap_get name (isolatedContexts s) with
          | Some ctx => ret ctx
          | None =>
              let r := createBrowserContext (browser s) in
              put (set_isolatedContexts
                     (omap_set name r.1 (isolatedContexts s))
                     (nextIsolatedContextId s)
                     (set_browser r.2 s)) ;;;
              ret r.1
          end in
        let* s := get in
        let r := createDriverPage (browser s) ctx false in
        put (set_browser r.2 s) ;;;
        ret r.1
    | None =>
        let* s := get in
        let r := createDriverPage (browser s) (b_defaultContext (browser s))
                   (default false background) in
        put (set_browser r.2 s) ;;;
        ret r.1
    end in
  createPagesSnapshot ;;;
  selectPage page ;;;
  ret page.

(** ** Snapshot indexer *)

(** The variables the closure [assignIds] captures and mutates. *)
Record AssignState := {
  as_sticky : gmap string string;          (* uniqueBackendNodeIdToMcpId *)
  as_idCounter : nat;
  as_idToNode : gmap string TextSnapshotNode;
  as_seenUniqueIds : gset string;
}.

Definition mintId (snapshotId idCounter : nat) : string :=
  pretty snapshotId +:+ "_" +:+ pretty idCounter.

Definition uniqueBackendId (node : SerializedAXNode) : string :=
  backendKey (ax_loaderId node) (ax_backendNodeId node).

(** JavaScript truthiness of an optional string. *)
Definition truthy (o : option string) : bool :=
  match o with
  | Some t => negb (bool_decide (t = EmptyString))
  | None => false
  end.

Fixpoint assignIds (snapshotId : nat) (node : SerializedAXNode) (s : AssignState)
  : TextSnapshotNode * AssignState :=
  let key := uniqueBackendId node in
  let '(id, sticky, idCounter) :=
    match as_sticky s !! key with
    | Some id => (id, as_sticky s, as_idCounter s)
    | None =>
        let id := mintId snapshotId (as_idCounter s) in
        (id, <[key := id]> (as_sticky s), S (as_idCounter s))
    end in
  let s1 := {| as_sticky := sticky; as_idCounter := idCounter;
               as_idToNode := as_idToNode s;
               as_seenUniqueIds := {[key]} ∪ as_seenUniqueIds s |} in
  let '(children, s2) :=
    match ax_children node with
    | Some cs =>
        (fix mapChildren (cs : list SerializedAXNode) (s : AssignState)
           : list TextSnapshotNode * AssignState :=
           match cs with
           | [] => ([], s)
           | child :: cs' =>
               let '(c, s') := assignIds snapshotId child s in
               let '(r, s'') := mapChildren cs' s' in
               (c :: r, s'')
           end) cs s1
    | None => ([], s1)
    end in
  let value :=
    if decide (ax_role node = "option") then
      if truthy (ax_name node) then ax_name node else ax_value node
    else ax_value node in
  let nodeWithId :=
    {| node_id := id; node_role := ax_role node; node_name := ax_name node;
       node_value := value; node_loaderId := ax_loaderId node;
       node_backendNodeId := ax_backendNodeId node;
       node_children := children |} in
  (nodeWithId,
   {| as_sticky := as_sticky s2; as_idCounter := as_idCounter s2;
      as_idToNode := <[id := nodeWithId]> (as_idToNode s2);
      as_seenUniqueIds := as_seenUniqueIds s2 |}).

Definition mapChildren (snapshotId : nat) :=
  fix mapChildren (cs : list SerializedAXNode) (s : AssignState)
    : list TextSnapshotNode * AssignState :=
    match cs with
    | [] => ([], s)
    | child :: cs' =>
        let '(c, s') := assignIds snapshotId child s in
        let '(r, s'') := mapChildren cs' s' in
        (c :: r, s'')
    end.

(** The stack loop of [resolveCdpElementId] on one snapshot. The stack is
    popped from its end and the children are pushed in order, so a node is
    examined before its children and the children from the last to the
    first, each with its whole subtree. *)
Fixpoint findBackendNode (cdpBackendNodeId : nat) (current : TextSnapshotNode)
  : option string :=
  if decide (node_backendNodeId current = Some cdpBackendNodeId) then
    Some (node_id current)
  else
    (fix children (cs : list TextSnapshotNode) : option string :=
       match cs with
       | [] => None
       | c :: cs' =>
           match children cs' with
           | Some id => Some id
           | None => findBackendNode cdpBackendNodeId c
           end
       end) (node_children current).

Definition resolveCdpElementId (s : McpContext) (cdpBackendNodeId : nat)
    (page : option Page) : option string :=
  if decide (cdpBackendNodeId = 0) then None
  else
    let snapshots :=
      match page with
      | Some p => option_list (omap_get p (mcpPages s) ≫= textSnapshot)
      | None => omap (λ e, textSnapshot e.2) (mcpPages s)
      end in
    (fix each (l : list TextSnapshot) : option string :=
       match l with
       | [] => None
       | snapshot :: l' =>
           match findBackendNode cdpBackendNodeId (root snapshot) with
           | Some id => Some id
           | None => each l'
           end
       end) snapshots.

(** [createTextSnapshot]. The two answers of the driver that the method
    awaits are arguments: [rootNode] is the result of
    [page.accessibility.snapshot], [fetched] the result of
    [getDevToolsData], used when the caller passes no [devtoolsData]. *)
Definition createTextSnapshot (verbose : bool) (devtoolsData : option DevToolsData)
    (targetPage : option Page)
    (rootNode : option SerializedAXNode) (fetched : DevToolsData) : M unit :=
  let* page := match targetPage with Some p => ret p | None => getSelectedPage end in
  let* mcpPage := getMcpPage page in
  match rootNode with
  | None => ret tt
  | Some rootNode =>
      let* s := get in
      let snapshotId := nextSnapshotId s in
      put (set_nextSnapshotId (S snapshotId) s) ;;;
      let '(rootNodeWithId, a) :=
        assignIds snapshotId rootNode
          {| as_sticky := uniqueBackendNodeIdToMcpId mcpPage; as_idCounter := 0;
             as_idToNode := ∅; as_seenUniqueIds := ∅ |} in
      let snapshot (sel : option string) (has : bool) :=
        {| root := rootNodeWithId; idToNode := as_idToNode a;
           snapshotId := pretty snapshotId;
           selectedElementUid := sel; hasSelectedElement := has;
           verbose := verbose |} in
      let store (t : TextSnapshot) (m : gmap string string) :=
        modify (λ s, set_mcpPages
          (omap_set page (set_snapshot (Some t) m mcpPage) (mcpPages s)) s) in
      store (snapshot None false) (as_sticky a) ;;;
      let data := default fetched devtoolsData in
      let* s := get in
      let final :=
        match cdpBackendNodeId data with
        | Some n =>
            if decide (n = 0) then snapshot None false
            else snapshot (resolveCdpElementId s n (Some page)) true
        | None => snapshot None false
        end in
      store final
        (filter (λ e, e.1 ∈ as_seenUniqueIds a) (as_sticky a))
  end.

Definition getTextSnapshot (s : McpContext) (targetPage : option Page)
  : option TextSnapshot :=
  match (match targetPage with Some p => Some p | None => selectedPage s end) with
  | Some page => omap_get page (mcpPages s) ≫= textSnapshot
  | None => None
  end.

(** [McpPage.getAXNodeByUid]: what a uid resolves to on one page. *)
Definition getAXNodeByUid (mp : McpPage) (uid : string) : option TextSnapshotNode :=
  textSnapshot mp ≫= λ t, idToNode t !! uid.

(** ** Error messages *)

Definition dquote : Ascii.ascii := Ascii.ascii_of_nat 34.

Definition showId (missing : string) (i : option nat) : string :=
  match i with Some n => pretty n | None => missing end.

Definition message (e : McpError) : string :=
  match e with
  | LastPageError => CLOSE_PAGE_ERROR
  | NotFoundError => "No page found"
  | NoPageSelected => "No page selected"
  | SelectedPageClosed =>
      "The selected page has been closed. Call list_pages to see open pages."
  | NoMcpPageFound => "No McpPage found for the given page."
  | FocusViolationError target focused =>
      "Page " +:+ showId "?" target +:+
      " is not the active page in its browser context (page " +:+
      showId "?" focused +:+ " is). Call select_page with pageId " +:+
      showId "?" target +:+ " first."
  | UidFocusViolationError uid target selected =>
      "Element uid " +:+ String dquote uid +:+ String dquote
      (" belongs to page " +:+ pretty target +:+ ", but page " +:+
       showId "undefined" selected +:+
       " is currently selected. Call select_page with pageId " +:+
       pretty target +:+ " first.")
  | NoSnapshotForPage page =>
      "No snapshot found for page " +:+ showId "?" page +:+
      ". Use take_snapshot to capture one."
  | UidNotOnPage uid page =>
      "Element uid " +:+ String dquote uid +:+ String dquote
      (" not found on page " +:+ pretty page +:+ ".")
  | NoSnapshotError => "No snapshot found. Use take_snapshot to capture one."
  | UnknownUidError => "No such element found in any snapshot."
  | StaleElementError uid =>
      "Element with uid " +:+ uid +:+ " no longer exists on the page."
  end.

(** ** Construction: [McpContext.from] *)

Definition emptyContext (b : Browser) (o : McpContextOptions) : McpContext :=
  {| browser := b; opts := o; isolatedContexts := []; nextIsolatedContextId := 1;
     pages := []; mcpPages := []; selectedPage := None;
     focusedPagePerContext := ∅; requestPage := None;
     nextPageId := 1; nextSnapshotId := 1 |}.

(** [from] runs [#init], whose first step is [createPagesSnapshot]; the
    remaining steps initialise the collectors. *)
Definition from (b : Browser) (o : McpContextOptions) : Result (list Page) * McpContext :=
  createPagesSnapshot (emptyContext b o).

(** ** Sample sessions

    Concrete runs of the model, used to exercise the statements below. *)

Definition page0 : Page := mkPage 0 0.

Definition sampleBrowser : Browser :=
  {| b_pages := [page0]; b_contexts := [(0, false)]; b_defaultContext := 0;
     b_state := ∅; b_log := []; b_next := 1; b_foreground := Some page0;
     b_predefinedNetworkConditions := ["Slow 3G"; "Fast 3G"; "Slow 4G"; "Fast 4G"];
     b_elementHandles := ∅ |}.

Definition sampleOptions : McpContextOptions :=
  {| experimentalDevToolsDebugging := false;
     experimentalIncludeAllPages := false; performanceCrux := false |}.

Definition noDevToolsData : DevToolsData :=
  {| cdpRequestId := None; cdpBackendNodeId := None |}.

(** A session on a browser with the single page [page0]. *)
Definition session0 : McpContext := (from sampleBrowser sampleOptions).2.

(** A list box with two options; the second option carries a value of its
    own. *)
Definition sampleTree : SerializedAXNode :=
  mkAX "listbox" (Some "Fruit") None (Some "L") (Some 7)
    (Some [mkAX "option" (Some "Apple") None (Some "L") (Some 8) None;
           mkAX "option" (Some "Pear") (Some "p") (Some "L") (Some 9) None]).

(** The same list box after the second option has disappeared and a new
    one has been added. *)
Definition sampleTree' : SerializedAXNode :=
  mkAX "listbox" (Some "Fruit") None (Some "L") (Some 7)
    (Some [mkAX "option" (Some "Plum") None (Some "L") (Some 10) None;
           mkAX "option" (Some "Apple") None (Some "L") (Some 8) None]).

(** [sessionA1]: a page [pageA1] is opened in the isolated context [ctx-a]
    and captured; [sessionA2]: a second page [pageA2] is opened in the same
    context; [sessionA2closed]: that second page is closed again. *)
Definition pageA1 : Page := mkPage 2 1.
Definition pageA2 : Page := mkPage 3 1.

Definition sessionA1 : McpContext :=
  (createTextSnapshot false None None (Some sampleTree) noDevToolsData
     (newPage (Some false) (Some "ctx-a") session0).2).2.

Definition sessionA2 : McpContext :=
  (newPage (Some false) (Some "ctx-a") sessionA1).2.

Definition sessionA2closed : McpContext := (closePage 3 sessionA2).2.

(** [sessionTwo]: a second page [page1] is opened in the default context
    and becomes the selected page. *)
Definition page1 : Page := mkPage 1 0.

Definition sessionTwo : McpContext := (newPage None None session0).2.

Definition cpuOnly (rate : Q) : EmulateOptions :=
  {| eo_networkConditions := None; eo_cpuThrottlingRate := Some (Some rate);
     eo_geolocation := None; eo_userAgent := None;
     eo_colorScheme := None; eo_viewport := None |}.

(** ** Vocabulary of the monad *)

Ltac munfold :=
  unfold bind, modify, ret, throw, get, put in *.

(** Closed goals about the sample sessions are settled by evaluation. *)
Ltac evaluate :=
  vm_compute; first [reflexivity | discriminate | (intros; discriminate)].

(** A computation is [driverOnly] when it leaves every field of the
    session but [browser] as it was. *)
Definition driverOnly {A} (m : M A) : Prop :=
  ∀ s, ∃ b, (m s).2 = set_browser b s.

(** Pre- and postconditions for computations in [M]; the postcondition
    also speaks about the state a [Throw] leaves behind. *)
Definition hoare {A} (P : McpContext → Prop) (m : M A)
    (Q : Result A → McpContext → Prop) : Prop :=
  ∀ s, P s → Q (m s).1 (m s).2.

(** ** Vocabulary of the cross-page search *)

(** No page record holds a snapshot. *)
Definition noSnapshots (l : list (Page * McpPage)) : Prop :=
  Forall (λ e, textSnapshot e.2 = None) l.

(** No snapshot of the listed page records resolves [uid]. *)
Definition uidAbsent (uid : string) (l : list (Page * McpPage)) : Prop :=
  Forall (λ e, getAXNodeByUid e.2 uid = None) l.

(** [page], with record [mcpPage], is the first entry of the registry whose
    snapshot resolves [uid], and it resolves it to [node]. *)
Definition firstMatch (uid : string) (l : list (Page * McpPage))
    (page : Page) (mcpPage : McpPage) (node : TextSnapshotNode) : Prop :=
  ∃ l1 l2, l = (l1 ++ (page, mcpPage) :: l2)%list
           ∧ uidAbsent uid l1
           ∧ getAXNodeByUid mcpPage uid = Some node.

(** ** Vocabulary of the driver log *)

Definition appendLog (b : Browser) (l : list (Page * DriverCall)) : Browser :=
  {| b_pages := b_pages b; b_contexts := b_contexts b;
     b_defaultContext := b_defaultContext b; b_state := b_state b;
     b_log := b_log b ++ l; b_next := b_next b;
     b_foreground := b_foreground b;
     b_predefinedNetworkConditions := b_predefinedNetworkConditions b;
     b_elementHandles := b_elementHandles b |}.

(** A computation that always returns and whose only effect is to send
    commands to the driver. *)
Definition sends {A} (m : M A) : Prop :=
  ∀ s, ∃ a l, m s = (Ok a, set_browser (appendLog (browser s) l) s).

(** ** Vocabulary of the snapshot indexer *)

(** The nodes of a captured tree and of a snapshot, parents before
    children. *)
Fixpoint flattenAX (node : SerializedAXNode) : list SerializedAXNode :=
  node ::
  match ax_children node with
  | Some cs => flat_map flattenAX cs
  | None => []
  end.

Fixpoint nodesOf (node : TextSnapshotNode) : list TextSnapshotNode :=
  node :: flat_map nodesOf (node_children node).

(** The unique backend key of a snapshot node: the fields it is computed
    from are copied from the captured node. *)
Definition nodeKey (node : TextSnapshotNode) : string :=
  backendKey (node_loaderId node) (node_backendNodeId node).

(** The value the indexer gives to a captured node. *)
Definition snapshotValue (node : SerializedAXNode) : option string :=
  if decide (ax_role node = "option") then
    if truthy (ax_name node) then ax_name node else ax_value node
  else ax_value node.

(** A snapshot node mirrors a captured node. *)
Definition mirrors (node : SerializedAXNode) (n : TextSnapshotNode) : Prop :=
  node_role n = ax_role node
  ∧ node_name n = ax_name node
  ∧ node_loaderId n = ax_loaderId node
  ∧ node_backendNodeId n = ax_backendNodeId node
  ∧ node_value n = snapshotValue node.

(** The state in which [createTextSnapshot] starts [assignIds]. *)
Definition initialAssignState (sticky : gmap string string) : AssignState :=
  {| as_sticky := sticky; as_idCounter := 0;
     as_idToNode := ∅; as_seenUniqueIds := ∅ |}.

(** The sticky map of a registered page. *)
Definition stickyMap (s : McpContext) (page : Page) : option (gmap string string) :=
  uniqueBackendNodeIdToMcpId <$> omap_get page (mcpPages s).

(** The sticky map after the clean-up loop. *)
Definition collect (a : AssignState) : gmap string string :=
  filter (λ e, e.1 ∈ as_seenUniqueIds a) (as_sticky a).

(** Every identifier of the sticky map was minted by a capture numbered
    below [snapshotId], or by capture [snapshotId] with an ordinal below
    [idCounter]; and no identifier is held by two keys. *)
Definition mintedBefore (snapshotId idCounter : nat) (m : gmap string string) : Prop :=
  (∀ k v, m !! k = Some v →
     ∃ sid c, v = mintId sid c ∧ (sid < snapshotId ∨ sid = snapshotId ∧ c < idCounter))
  ∧ (∀ k1 k2 v, m !! k1 = Some v → m !! k2 = Some v → k1 = k2).

(** The invariant of the session: the sticky map of every page record
    holds distinct identifiers minted by earlier captures. *)
Definition stickyInv (s : McpContext) : Prop :=
  ∀ page mp, (page, mp) ∈ mcpPages s →
    mintedBefore (nextSnapshotId s) 0 (uniqueBackendNodeIdToMcpId mp).

(** The step of [assignIds] that looks the key up in the sticky map or
    mints an identifier. *)
Definition assignKey (snapshotId : nat) (key : string) (s : AssignState)
  : string * AssignState :=
  match as_sticky s !! key with
  | Some id =>
      (id, {| as_sticky := as_sticky s; as_idCounter := as_idCounter s;
              as_idToNode := as_idToNode s;
              as_seenUniqueIds := {[key]} ∪ as_seenUniqueIds s |})
  | None =>
      let id := mintId snapshotId (as_idCounter s) in
      (id, {| as_sticky := <[key := id]> (as_sticky s);
              as_idCounter := S (as_idCounter s);
              as_idToNode := as_idToNode s;
              as_seenUniqueIds := {[key]} ∪ as_seenUniqueIds s |})
  end.

Definition recordNode (n : TextSnapshotNode) (s : AssignState) : AssignState :=
  {| as_sticky := as_sticky s; as_idCounter := as_idCounter s;
     as_idToNode := <[node_id n := n]> (as_idToNode s);
     as_seenUniqueIds := as_seenUniqueIds s |}.

(** [assignPost sid a ns a']: running the indexer from state [a] produced
    the nodes [ns] and the state [a']. *)
Definition assignPost (sid : nat) (a : AssignState) (ns : list TextSnapshotNode)
    (a' : AssignState) : Prop :=
  (∀ k v, as_sticky a !! k = Some v → as_sticky a' !! k = Some v)
  ∧ (∀ m, m ∈ ns → as_sticky a' !! nodeKey m = Some (node_id m))
  ∧ (∀ k, k ∈ as_seenUniqueIds a' ↔
          k ∈ as_seenUniqueIds a ∨ ∃ m, m ∈ ns ∧ nodeKey m = k)
  ∧ (∀ i, is_Some (as_idToNode a' !! i) ↔
          is_Some (as_idToNode a !! i) ∨ ∃ m, m ∈ ns ∧ node_id m = i)
  ∧ (as_idCounter a ≤ as_idCounter a')%nat
  ∧ (mintedBefore sid (as_idCounter a) (as_sticky a) →
     mintedBefore sid (as_idCounter a') (as_sticky a')).

(** A string without the separator of minted identifiers. *)
Fixpoint underscoreFree (s : string) : Prop :=
  match s with
  | EmptyString => True
  | String c s' => c ≠ "_"%char ∧ underscoreFree s'
  end.

(** ** Reachable sessions *)

(** The calls a tool handler can make, and [DriverEvent] for whatever
    happens on the driver's side in between (pages opening, closing or
    navigating on their own). *)
Inductive Call :=
  | CallNewPage (background : option bool) (isolatedContextName : option string)
  | CallClosePage (pageId : nat)
  | CallSelectPage (page : Page)
  | CallSetRequestPage (page : option Page)
  | CallEmulate (options : EmulateOptions) (targetPage : option Page)
  | CallRestoreEmulation (targetPage : option Page)
  | CallGetElementByUid (uid : string) (page : option Page)
  | CallCreatePagesSnapshot
  | CallCreateTextSnapshot (verbose : bool) (devtoolsData : option DevToolsData)
      (targetPage : option Page) (rootNode : option SerializedAXNode)
      (fetched : DevToolsData)
  | DriverEvent (b : Browser).

Definition run (c : Call) (s : McpContext) : McpContext :=
  match c with
  | CallNewPage background name => (newPage background name s).2
  | CallClosePage pageId => (closePage pageId s).2
  | CallSelectPage page => (selectPage page s).2
  | CallSetRequestPage page => (setRequestPage page s).2
  | CallEmulate options targetPage => (emulate options targetPage s).2
  | CallRestoreEmulation targetPage => (restoreEmulation targetPage s).2
  | CallGetElementByUid uid page => (getElementByUid uid page s).2
  | CallCreatePagesSnapshot => (createPagesSnapshot s).2
  | CallCreateTextSnapshot verbose devtoolsData targetPage rootNode fetched =>
      (createTextSnapshot verbose devtoolsData targetPage rootNode fetched s).2
  | DriverEvent b => set_browser b s
  end.

Inductive reachable : McpContext → Prop :=
  | reachable_from (b : Browser) (o : McpContextOptions) :
      reachable (from b o).2
  | reachable_run (c : Call) (s : McpContext) :
      reachable s → reachable (run c s).

(** [session0] after a capture of [page0]. *)
Definition session0captured : McpContext :=
  run (CallCreateTextSnapshot false None (Some page0) (Some sampleTree)
         noDevToolsData) session0.

(** ** Vocabulary of the invariant proof *)

(** A computation that leaves the page records and the snapshot counter
    alone. *)
Definition keepsRecords {A} (m : M A) : Prop :=
  ∀ s, mcpPages (m s).2 = mcpPages s ∧ nextSnapshotId (m s).2 = nextSnapshotId s.

(** Every page record of [s'] has an empty sticky map or the sticky map of
    a record of [s], and the snapshot counter has not gone back. *)
Definition recordsFrom (s s' : McpContext) : Prop :=
  (nextSnapshotId s ≤ nextSnapshotId s')%nat
  ∧ ∀ page mp', (page, mp') ∈ mcpPages s' →
      uniqueBackendNodeIdToMcpId mp' = ∅
      ∨ ∃ q mp, (q, mp) ∈ mcpPages s
                ∧ uniqueBackendNodeIdToMcpId mp' = uniqueBackendNodeIdToMcpId mp.

Definition tame {A} (m : M A) : Prop := ∀ s, recordsFrom s (m s).2.

(** ** Vocabulary of the page-creation proof *)

(** The handles of the live pages were allocated below the counter from
    which the driver takes the next one. *)
Definition freshHandles (b : Browser) : Prop :=
  ∀ p, p ∈ b_pages b → (page_handle p < b_next b)%nat.

(** Two driver states that agree on everything but timeouts and the
    command log. *)
Definition sameFlags (b b' : Browser) : Prop :=
  b_defaultContext b' = b_defaultContext b
  ∧ b_pages b' = b_pages b
  ∧ b_foreground b' = b_foreground b
  ∧ ∀ p, isClosed b' p = isClosed b p
         ∧ ps_focusEmulation (pageState b' p) = ps_focusEmulation (pageState b p).

(** Two driver states with the same pages, the same foreground page and
    the same closed flags. *)
Definition sameShape (b b' : Browser) : Prop :=
  b_defaultContext b' = b_defaultContext b
  ∧ b_pages b' = b_pages b
  ∧ b_foreground b' = b_foreground b
  ∧ ∀ p, isClosed b' p = isClosed b p.

(** Partial correctness: what holds of the result and state when the
    computation returns. *)
Definition hoareOk {A} (P : McpContext → Prop) (m : M A)
    (Q : A → McpContext → Prop) : Prop :=
  ∀ s a s', P s → m s = (Ok a, s') → Q a s'.

(** A computation that leaves the driver and the focus map alone. *)
Definition keepsFocus {A} (m : M A) : Prop :=
  ∀ s, browser (m s).2 = browser s
       ∧ focusedPagePerContext (m s).2 = focusedPagePerContext s.

(** The state of the focus discipline that [newPage] maintains for a page
    [F] of the default context [dflt] until it selects the new page: [F]
    is open, and the focused page of the default context is [F] or the
    focus emulation of [F] is off. *)
Definition defocusPending (dflt : BrowserContext) (F : Page) (s : McpContext) : Prop :=
  b_defaultContext (browser s) = dflt
  ∧ isClosed (browser s) F = false
  ∧ ∃ X, focusedPagePerContext s !! dflt = Some X
         ∧ (X = F ∨ ps_focusEmulation (pageState (browser s) F) = false).

(** ** Further methods of [McpPage] and [McpContext] *)

(** [McpPage.getElementByUid]: the lookup on one page record. *)
Definition McpPage_getElementByUid (mcpPage : McpPage) (uid : string)
  : M ElementHandle :=
  match textSnapshot mcpPage with
  | None => throw (NoSnapshotForPage (Some (mp_id mcpPage)))
  | Some snapshot =>
      match idToNode snapshot !! uid with
      | None => throw (UidNotOnPage uid (mp_id mcpPage))
      | Some node => resolveElementHandle node uid
      end
  end.

(** [McpContext.getAXNodeByUid]: the linear scan over the values of
    [#mcpPages], in insertion order. *)
Fixpoint scanAXNodeByUid (uid : string) (entries : list (Page * McpPage))
  : option TextSnapshotNode :=
  match entries with
  | [] => None
  | (_, mcpPage) :: rest =>
      match getAXNodeByUid mcpPage uid with
      | Some node => Some node
      | None => scanAXNodeByUid uid rest
      end
  end.

Definition McpContext_getAXNodeByUid (s : McpContext) (uid : string)
  : option TextSnapshotNode :=
  scanAXNodeByUid uid (mcpPages s).

(** ** Extension service workers

    [createExtensionServiceWorkersSnapshot] reads and writes three fields
    of [McpContext] that no other method touches; they form a record of
    their own here. A [Target] is a driver object compared by identity;
    [browser.targets()] is the list of what the driver reports for each
    of them. *)

Definition Target := nat.

Record TargetInfo := {
  target : Target;
  target_type : string;
  target_url : string;
}.

Record ExtensionServiceWorker := {
  esw_url : string;
  esw_target : Target;
  esw_id : option string;
}.

Record WorkerRegistry := {
  extensionServiceWorkers : list ExtensionServiceWorker;
  extensionServiceWorkerMap : gmap Target string;
  nextExtensionServiceWorkerId : nat;
}.

Definition emptyWorkerRegistry : WorkerRegistry :=
  {| extensionServiceWorkers := []; extensionServiceWorkerMap := ∅;
     nextExtensionServiceWorkerId := 1 |}.

(** [String.prototype.includes]. *)
Fixpoint includes (needle s : string) : bool :=
  String.prefix needle s ||
  match s with
  | EmptyString => false
  | String _ s' => includes needle s'
  end.

Definition isExtensionServiceWorker (t : TargetInfo) : bool :=
  bool_decide (target_type t = "service_worker")
  && includes "chrome-extension://" (target_url t).

(** The loop that gives an id to the service workers that have none. *)
Fixpoint assignWorkerIds (serviceWorkers : list TargetInfo)
    (map : gmap Target string) (next : nat) : gmap Target string * nat :=
  match serviceWorkers with
  | [] => (map, next)
  | serviceWorker :: rest =>
      match map !! target serviceWorker with
      | Some _ => assignWorkerIds rest map next
      | None =>
          assignWorkerIds rest
            (<[target serviceWorker := "sw-" +:+ pretty next]> map) (S next)
      end
  end.

Definition createExtensionServiceWorkersSnapshot (allTargets : list TargetInfo)
    (r : WorkerRegistry) : list ExtensionServiceWorker * WorkerRegistry :=
  let serviceWorkers :=
    filter (λ t, isExtensionServiceWorker t = true) allTargets in
  let a := assignWorkerIds serviceWorkers (extensionServiceWorkerMap r)
             (nextExtensionServiceWorkerId r) in
  let workers :=
    (λ serviceWorker,
       {| esw_target := target serviceWorker;
          esw_id := a.1 !! target serviceWorker;
          esw_url := target_url serviceWorker |}) <$> serviceWorkers in
  (workers,
   {| extensionServiceWorkers := workers; extensionServiceWorkerMap := a.1;
      nextExtensionServiceWorkerId := a.2 |}).

Definition getExtensionServiceWorkers (r : WorkerRegistry)
  : list ExtensionServiceWorker :=
  extensionServiceWorkers r.

Definition getExtensionServiceWorkerId (r : WorkerRegistry)
    (extensionServiceWorker : ExtensionServiceWorker) : option string :=
  extensionServiceWorkerMap r !! esw_target extensionServiceWorker.

(** The registries that snapshots produce, starting from the one of a
    new [McpContext]. *)
Inductive workersReachable : WorkerRegistry → Prop :=
  | workersReachable_init : workersReachable emptyWorkerRegistry
  | workersReachable_snapshot (allTargets : list TargetInfo) (r : WorkerRegistry) :
      workersReachable r →
      workersReachable (createExtensionServiceWorkersSnapshot allTargets r).2.

(** Two targets as the driver may report them: an extension service
    worker and a page. *)
Definition sampleTargets : list TargetInfo :=
  [ {| target := 7; target_type := "service_worker";
       target_url := "chrome-extension://abcdef/background.js" |};
    {| target := 8; target_type := "page";
       target_url := "https://example.com/" |} ].

(** ** The timeout of [wait_for]

    [timeoutSchema] passes the [timeout] parameter through a transform
    before the handler of [wait_for] hands it to [waitForTextOnPage];
    there it replaces the timeout of the locator only if it is truthy.
    The parameter is an optional integer. *)

Definition timeoutTransform (value : option Z) : option Z :=
  if match value with
     | Some v => negb (v =? 0)%Z && (v <=? 0)%Z
     | None => false
     end
  then None else value.

(** The timeout the locator of [waitForTextOnPage] waits with, given the
    one it has by default. *)
Definition waitForTextTimeout (timeout : option Z) (locatorTimeout : Z) : Z :=
  match timeout with
  | Some t => if (t =? 0)%Z then locatorTimeout else t
  | None => locatorTimeout
  end.

(** ** Vocabulary of the frame properties *)

(** A computation that leaves the observation [f] of the session as it
    was, whatever it returns. *)
Definition leaves {A B} (f : McpContext → B) (m : M A) : Prop :=
  ∀ s, f (m s).2 = f s.

(** The part of the session that selecting a page does not concern:
    everything but the driver, the selected pointer and the focus map. *)
Definition registry (s : McpContext) :=
  (opts s, isolatedContexts s, nextIsolatedContextId s, pages s, mcpPages s,
   requestPage s, nextPageId s, nextSnapshotId s).

(** What [#getAllPages] does not touch: everything but the table of named
    contexts and its counter. *)
Definition exceptContextNames (s : McpContext) :=
  (browser s, opts s, pages s, mcpPages s, selectedPage s,
   focusedPagePerContext s, requestPage s, nextPageId s, nextSnapshotId s).

(** What registering a page does not touch: everything but the page
    records and the page-id counter. *)
Definition exceptPageRecords (s : McpContext) :=
  (browser s, opts s, isolatedContexts s, nextIsolatedContextId s, pages s,
   selectedPage s, focusedPagePerContext s, requestPage s, nextSnapshotId s).

(** The part of the driver that only opening and closing pages and
    contexts change: everything but the per-page state and the command
    log. *)
Definition driverShape (b : Browser) :=
  (b_pages b, b_contexts b, b_defaultContext b, b_next b, b_foreground b,
   b_predefinedNetworkConditions b, b_elementHandles b).

(** The filter of [createPagesSnapshot] that hides DevTools windows. *)
Definition visiblePages (s : McpContext) (allPages : list Page) : list Page :=
  filter (λ page, experimentalDevToolsDebugging (opts s) = true
                  ∨ ps_devtools (pageState (browser s) page) = false) allPages.

(** The session after the registration and pruning loops of
    [createPagesSnapshot], before a page is selected: [s1] is the session
    after the registration loop. *)
Definition pruned (s1 : McpContext) (allPages : list Page) : McpContext :=
  set_pages (visiblePages s1 allPages)
    (set_focusedPagePerContext
       (filter (λ e, e.2 ∈ allPages) (focusedPagePerContext s1))
       (set_mcpPages (filter (λ e, e.1 ∈ allPages) (mcpPages s1)) s1)).

(** The selection step of [createPagesSnapshot]. *)
Definition selectFallback (s : McpContext) : M unit :=
  match pages s with
  | first :: _ =>
      match selectedPage s with
      | Some sel => if decide (sel ∈ pages s) then ret tt else selectPage first
      | None => selectPage first
      end
  | [] => ret tt
  end.

(** A computation that only reads the session. *)
Definition readOnly {A} (m : M A) : Prop := ∀ s, (m s).2 = s.

(** ** Vocabulary of the indexer proofs *)

(** The snapshot node [assignIds] builds for a captured node once its
    identifier and its children are known. *)
Definition nodeWithId (id : string) (node : SerializedAXNode)
    (children : list TextSnapshotNode) : TextSnapshotNode :=
  {| node_id := id; node_role := ax_role node; node_name := ax_name node;
     node_value := snapshotValue node; node_loaderId := ax_loaderId node;
     node_backendNodeId := ax_backendNodeId node; node_children := children |}.

(** Where the entries of the index and of the sticky map come from when
    the indexer is run from state [a]: an index entry was there before or
    is one of the nodes [ns] under its own identifier, and a sticky entry
    was there before or was minted by this run for a key that had none;
    no sticky entry is dropped or overwritten. *)
Definition assignTrace (sid : nat) (a : AssignState) (ns : list TextSnapshotNode)
    (a' : AssignState) : Prop :=
  (∀ i n, as_idToNode a' !! i = Some n →
     as_idToNode a !! i = Some n ∨ (n ∈ ns ∧ node_id n = i))
  ∧ (∀ k v, as_sticky a' !! k = Some v →
       as_sticky a !! k = Some v
       ∨ (as_sticky a !! k = None
          ∧ ∃ c, (as_idCounter a ≤ c < as_idCounter a')%nat ∧ v = mintId sid c))
  ∧ (∀ k v, as_sticky a !! k = Some v → as_sticky a' !! k = Some v)
  ∧ (as_idCounter a ≤ as_idCounter a')%nat.

(** ** Vocabulary of the registry invariants *)

(** A property of the page records and of the two counters that number
    pages and captures, read off a session. *)
Definition holds (I : list (Page * McpPage) → nat → nat → Prop) (s : McpContext)
  : Prop :=
  I (mcpPages s) (nextPageId s) (nextSnapshotId s).

(** A computation that keeps [P], whether it returns or throws. *)
Definition preserves {A} (P : McpContext → Prop) (m : M A) : Prop :=
  ∀ s, P s → P (m s).2.

(** Page ids: no page has two records, every id was handed out by the
    counter (which starts at 1), and no id is carried by the records of
    two pages. *)
Definition pageIdsInv (l : list (Page * McpPage)) (nextPageId nextSnapshotId : nat)
  : Prop :=
  NoDup l.*1
  ∧ (1 ≤ nextPageId)%nat
  ∧ (∀ p mp, (p, mp) ∈ l → (1 ≤ mp_id mp < nextPageId)%nat)
  ∧ (∀ p1 mp1 p2 mp2, (p1, mp1) ∈ l → (p2, mp2) ∈ l →
       mp_id mp1 = mp_id mp2 → p1 = p2).

(** Snapshots: the nodes of a stored snapshot carry the identifiers the
    sticky map of the page holds for their keys, the index of the snapshot
    holds exactly these nodes under their identifiers, and the sticky maps
    of two different pages share no identifier. *)
Definition snapshotInv (l : list (Page * McpPage)) (nextPageId nextSnapshotId : nat)
  : Prop :=
  (∀ p mp t, (p, mp) ∈ l → textSnapshot mp = Some t →
     (∀ n, n ∈ nodesOf (root t) →
        uniqueBackendNodeIdToMcpId mp !! nodeKey n = Some (node_id n))
     ∧ (∀ uid n, idToNode t !! uid = Some n →
          n ∈ nodesOf (root t) ∧ node_id n = uid)
     ∧ (∀ n, n ∈ nodesOf (root t) → is_Some (idToNode t !! node_id n)))
  ∧ (∀ p1 mp1 p2 mp2 k1 k2 v, (p1, mp1) ∈ l → (p2, mp2) ∈ l → p1 ≠ p2 →
       uniqueBackendNodeIdToMcpId mp1 !! k1 = Some v →
       uniqueBackendNodeIdToMcpId mp2 !! k2 = Some v → False).

(** Two records of the same page with the same id. *)
Definition sameId (mp mp' : McpPage) : Prop := mp_id mp' = mp_id mp.

(** Two records with the same snapshot and the same sticky map. *)
Definition sameSnapshot (mp mp' : McpPage) : Prop :=
  textSnapshot mp' = textSnapshot mp
  ∧ uniqueBackendNodeIdToMcpId mp' = uniqueBackendNodeIdToMcpId mp.

(** What [uid] resolves to on the page [p]: [getAXNodeByUid] on its
    record. *)
Definition resolveOnPage (s : McpContext) (p : Page) (uid : string)
  : option TextSnapshotNode :=
  omap_get p (mcpPages s) ≫= λ mp, getAXNodeByUid mp uid.

(** The snapshot that [session0captured] holds for [page0]. *)
Definition snapshot0 : TextSnapshot :=
  default {| root := mkNode EmptyString EmptyString None None None None [];
             idToNode := ∅; snapshotId := EmptyString;
             selectedElementUid := None; hasSelectedElement := false;
             verbose := false |}
          (getTextSnapshot session0captured (Some page0)).

(** ** Vocabulary of the emulation proofs *)

(** The emulation settings stored for a page. *)
Definition settingsOf (s : McpContext) (page : Page) : option EmulationSettings :=
  emulationSettings <$> omap_get page (mcpPages s).

(** A step of [emulate], run in [s], returned the settings [e] and only
    sent commands to the driver. *)
Definition ranTo (s : McpContext) (r : Result EmulationSettings * McpContext)
    (e : EmulationSettings) : Prop :=
  ∃ l, r = (Ok e, set_browser (appendLog (browser s) l) s).

(** Settings as [emulate] writes them: the network label is not the one
    that stands for no emulation, and the viewport has its four optional
    fields filled in. *)
Definition normalized (e : EmulationSettings) : Prop :=
  es_networkConditions e ≠ Some "No emulation"
  ∧ ∀ v, es_viewport e = Some v → withDefaults v = v.

(** The settings [emulate] stores when it is given [options] for a page
    whose settings are [e]: each step of [emulate] rewrites one field. *)
Definition emulated (presets : list string) (options : EmulateOptions)
    (e : EmulationSettings) : EmulationSettings :=
  {| es_networkConditions :=
       match eo_networkConditions options with
       | None => es_networkConditions e
       | Some None => None
       | Some (Some l) =>
           if decide (l = "No emulation") then None
           else if decide (l = "Offline") then Some "Offline"
           else if decide (l ∈ presets) then Some l
           else es_networkConditions e
       end;
     es_cpuThrottlingRate :=
       match eo_cpuThrottlingRate options with
       | None => es_cpuThrottlingRate e
       | Some r => r
       end;
     es_geolocation :=
       match eo_geolocation options with None => es_geolocation e | Some g => g end;
     es_userAgent :=
       match eo_userAgent options with None => es_userAgent e | Some ua => ua end;
     es_colorScheme :=
       match eo_colorScheme options with
       | None => es_colorScheme e
       | Some (Some cs_dark) => Some dark
       | Some (Some cs_light) => Some light
       | Some (Some cs_auto) | Some None => None
       end;
     es_viewport :=
       match eo_viewport options with
       | None => es_viewport e
       | Some v => withDefaults <$> v
       end |}.

(** [sessionTwo] after the CPU of its selected page has been throttled,
    and the settings this stores. *)
Definition sessionThrottled : McpContext := (emulate (cpuOnly 4) None sessionTwo).2.

Definition cpuSettings (rate : Q) : EmulationSettings :=
  {| es_networkConditions := None; es_cpuThrottlingRate := Some rate;
     es_geolocation := None; es_userAgent := None;
     es_colorScheme := None; es_viewport := None |}.

(** ** Vocabulary of page creation *)

(** The first step of [newPage]: the page it opens and the session in
    which it then refreshes the registry. *)
Definition openPage (background : option bool) (isolatedContextName : option string)
    (s : McpContext) : Page * McpContext :=
  match isolatedContextName with
  | Some name =>
      match omap_get name (isolatedContexts s) with
      | Some ctx =>
          let r := createDriverPage (browser s) ctx false in
          (r.1, set_browser r.2 s)
      | None =>
          let c := createBrowserContext (browser s) in
          let r := createDriverPage c.2 c.1 false in
          (r.1,
           set_browser r.2
             (set_isolatedContexts (omap_set name c.1 (isolatedContexts s))
                (nextIsolatedContextId s) (set_browser c.2 s)))
      end
  | None =>
      let r := createDriverPage (browser s) (b_defaultContext (browser s))
                 (default false background) in
      (r.1, set_browser r.2 s)
  end.

(** The name [#getAllPages] gives to the [k]-th context it discovers. *)
Definition generatedName (k : nat) : string := "isolated-context-" +:+ pretty k.

(** ** Vocabulary of context discovery *)

(** The reverse lookup [#getAllPages] builds from the named contexts, and
    the labels it derives for the pages. *)
Definition contextNames (named : list (string * BrowserContext))
    (start : gmap BrowserContext string) : gmap BrowserContext string :=
  foldl (λ m e, <[e.2 := e.1]> m) start named.

Definition pageLabels (contextToName : gmap BrowserContext string)
    (allPages : list Page) : gmap Page string :=
  foldl (λ m page,
           match contextToName !! browserContext page with
           | Some name => if decide (name = EmptyString) then m else <[page := name]> m
           | None => m
           end) (∅ : gmap Page string) allPages.

(** The entries the discovery loop adds, in order: one for each context
    of the driver that is not the default context, is open and has no
    name, numbered from [next]. *)
Fixpoint discovered (defaultCtx : BrowserContext) (known : list BrowserContext)
    (ctxs : list (BrowserContext * bool)) (next : nat)
  : list (string * BrowserContext) :=
  match ctxs with
  | [] => []
  | (ctx, closed) :: rest =>
      if decide (ctx ≠ defaultCtx ∧ closed = false ∧ ctx ∉ known) then
        (generatedName next, ctx) :: discovered defaultCtx known rest (S next)
      else discovered defaultCtx known rest next
  end.

(** No context is stored under a generated name that the counter has not
    reached: the names given by callers stay clear of the names that
    discovery will generate. *)
Definition namesBelow (s : McpContext) : Prop :=
  ∀ n ctx k, (n, ctx) ∈ isolatedContexts s → n = generatedName k →
             (k < nextIsolatedContextId s)%nat.

(** Every open context of the driver other than the default one has a
    name. *)
Definition settled (s : McpContext) : Prop :=
  ∀ ctx closed, (ctx, closed) ∈ b_contexts (browser s) →
    ¬ (ctx ≠ b_defaultContext (browser s) ∧ closed = false
       ∧ ctx ∉ (isolatedContexts s).*2).

(** Whether the driver reports a page as a DevTools window. *)
Definition devtoolsFlag (page : Page) (s : McpContext) : bool :=
  ps_devtools (pageState (browser s) page).

(** A session in which the registry agrees with the driver: what
    [createPagesSnapshot] establishes when it returns. *)
Definition refreshed (s : McpContext) : Prop :=
  let live := b_pages (browser s) in
  settled s
  ∧ (∀ p, p ∈ live →
       ∃ mp, omap_get p (mcpPages s) = Some mp
             ∧ isolatedContextName mp
               = pageLabels (contextNames (isolatedContexts s) ∅) live !! p)
  ∧ (∀ e, e ∈ mcpPages s → e.1 ∈ live)
  ∧ (∀ ctx p, focusedPagePerContext s !! ctx = Some p → p ∈ live)
  ∧ pages s = visiblePages s live
  ∧ (pages s ≠ [] → ∃ sel, selectedPage s = Some sel ∧ sel ∈ pages s).

(** A driver with an incognito context the server did not create, holding
    one page. *)
Definition incognitoBrowser : Browser :=
  {| b_pages := [page0; mkPage 7 5]; b_contexts := [(0, false); (5, false)];
     b_defaultContext := 0; b_state := ∅; b_log := []; b_next := 8;
     b_foreground := Some page0;
     b_predefinedNetworkConditions := ["Slow 3G"; "Fast 3G"; "Slow 4G"; "Fast 4G"];
     b_elementHandles := ∅ |}.

Definition sessionIncognito : McpContext := emptyContext incognitoBrowser sampleOptions.

(** * Properties *)

(** ** Last-page guard of [closePage] *)

Lemma closePage_guard (s : McpContext) (pageId : nat) :
  length (pages s) = 1 → closePage pageId s = (Throw LastPageError, s).
Proof.
  intros Hlen. unfold closePage. munfold.
  destruct (decide (length (pages s) = 1)); [reflexivity | contradiction].
Qed.

(** C3. Last-page invariant: when the registry holds exactly one page,
    [closePage] on that page throws the last-page error (whose message is
    [CLOSE_PAGE_ERROR]) and returns the state as it was: the page is
    still open and the registry, the page records, the focus map and the
    selected pointer are unchanged. *)
Theorem closePage_last_page (s : McpContext) (p : Page) (pageId : nat) :
  pages s = [p] →
  getPageId s p = Some pageId →
  closePage pageId s = (Throw LastPageError, s)
  ∧ message LastPageError = CLOSE_PAGE_ERROR
  ∧ isClosed (browser (closePage pageId s).2) p = isClosed (browser s) p
  ∧ pages (closePage pageId s).2 = [p]
  ∧ mcpPages (closePage pageId s).2 = mcpPages s
  ∧ focusedPagePerContext (closePage pageId s).2 = focusedPagePerContext s
  ∧ selectedPage (closePage pageId s).2 = selectedPage s.
Proof.
  intros Hp _.
  assert (closePage pageId s = (Throw LastPageError, s)) as ->.
  { apply closePage_guard. by rewrite Hp. }
  by repeat split.
Qed.

Lemma closePage_last_page_witness :
  closePage 1 session0 = (Throw LastPageError, session0)
  ∧ isClosed (browser (closePage 1 session0).2) page0 = false.
Proof.
  destruct (closePage_last_page session0 page0 1) as (H & _ & Hc & _).
  - evaluate.
  - evaluate.
  - split; [exact H|]. rewrite Hc. evaluate.
Defined.

(** C10. With exactly one registered page the last-page check comes
    before the page id is resolved: [closePage] throws the last-page error
    for every id, also one that names no page; it never reports
    [NotFoundError], and no state is changed before the throw. *)
Theorem closePage_last_page_any_id (s : McpContext) (pageId : nat) :
  length (pages s) = 1 →
  closePage pageId s = (Throw LastPageError, s)
  ∧ (closePage pageId s).1 ≠ Throw NotFoundError.
Proof.
  intros Hlen. rewrite (closePage_guard s pageId Hlen). by split.
Qed.

(** The id 42 names no page of [session0]. *)
Lemma closePage_last_page_any_id_witness :
  (getPageById 42 session0).1 = Throw NotFoundError
  ∧ closePage 42 session0 = (Throw LastPageError, session0).
Proof.
  split; [evaluate|].
  apply (closePage_last_page_any_id session0 42). evaluate.
Defined.

(** ** Focus assertion *)

(** Refutation of C6 as stated. In [sessionA2closed] the context of
    [pageA1] has no focus-map entry, so [pageA1] is not the entry of its
    context, and yet [assertPageIsFocused] succeeds. *)
Lemma assertPageIsFocused_no_entry_counterexample :
  focusedPagePerContext sessionA2closed !! browserContext pageA1 ≠ Some pageA1
  ∧ assertPageIsFocused pageA1 sessionA2closed = (Ok tt, sessionA2closed).
Proof. split; [evaluate | reflexivity]. Qed.

(** C6, amended. [assertPageIsFocused] throws exactly when the focus map
    has an entry for the page's context and that entry is another page;
    the error then names the page's id and the id of the focused page, and
    the state is not changed. When the context has no entry the call
    succeeds. *)
Theorem assertPageIsFocused_throws_iff (s : McpContext) (page : Page) :
  ((∃ e, (assertPageIsFocused page s).1 = Throw e)
   ↔ ∃ focused, focusedPagePerContext s !! browserContext page = Some focused
                ∧ focused ≠ page)
  ∧ (∀ focused, focusedPagePerContext s !! browserContext page = Some focused →
       focused ≠ page →
       assertPageIsFocused page s
       = (Throw (FocusViolationError (getPageId s page) (getPageId s focused)), s))
  ∧ (focusedPagePerContext s !! browserContext page = None →
       assertPageIsFocused page s = (Ok tt, s))
  ∧ (assertPageIsFocused page s).2 = s.
Proof.
  unfold assertPageIsFocused.
  destruct (focusedPagePerContext s !! browserContext page) as [f|] eqn:Hf.
  - destruct (decide (f ≠ page)) as [Hne|Heq]; simpl.
    + repeat split; eauto.
      * intros g [= <-] _. reflexivity.
      * discriminate.
    + apply dec_stable in Heq as ->.
      repeat split; try done.
      * intros [e He]. discriminate.
      * intros [g [[= <-] Hg]]. done.
      * intros g [= <-] Hg. done.
  - simpl. repeat split; try done.
    + intros [e He]. discriminate.
    + intros [g [Hg _]]. discriminate.
Qed.

Lemma assertPageIsFocused_throws_iff_witness :
  assertPageIsFocused pageA1 sessionA2
  = (Throw (FocusViolationError (Some 2) (Some 3)), sessionA2).
Proof.
  pose proof (assertPageIsFocused_throws_iff sessionA2 pageA1) as (_ & H & _).
  exact (H pageA2 eq_refl ltac:(discriminate)).
Defined.

(** ** Computations that only talk to the driver *)

Lemma set_browser_id (s : McpContext) : set_browser (browser s) s = s.
Proof. by destruct s. Qed.

Lemma driverOnly_read {A} (f : McpContext → Result A) :
  driverOnly (λ s, (f s, s)).
Proof. intros s. exists (browser s). simpl. by rewrite set_browser_id. Qed.

Lemma driverOnly_ret {A} (a : A) : driverOnly (ret a).
Proof. apply (driverOnly_read (λ _, Ok a)). Qed.

Lemma driverOnly_throw {A} (e : McpError) : driverOnly (throw (A := A) e).
Proof. apply (driverOnly_read (λ _, Throw e)). Qed.

Lemma driverOnly_get : driverOnly get.
Proof. apply (driverOnly_read (λ s, Ok s)). Qed.

Lemma driverOnly_modify (g : McpContext → Browser) :
  driverOnly (modify (λ s, set_browser (g s) s)).
Proof. intros s. by exists (g s). Qed.

Lemma driverOnly_bind {A B} (m : M A) (k : A → M B) :
  driverOnly m → (∀ a, driverOnly (k a)) → driverOnly (bind m k).
Proof.
  intros Hm Hk s. unfold bind.
  destruct (Hm s) as [b Hb]. destruct (m s) as [[a|e] s1]; simpl in *; subst s1.
  - destruct (Hk a (set_browser b s)) as [b' Hb']. exists b'. by rewrite Hb'.
  - by exists b.
Qed.

Lemma driverOnly_getSelectedPage : driverOnly getSelectedPage.
Proof.
  intros s. exists (browser s). rewrite set_browser_id. unfold getSelectedPage.
  destruct (selectedPage s); [destruct (isClosed _ _)|]; reflexivity.
Qed.

Lemma driverOnly_resolveTargetPage : driverOnly resolveTargetPage.
Proof.
  intros s. unfold resolveTargetPage. destruct (requestPage s).
  - exists (browser s). by rewrite set_browser_id.
  - apply driverOnly_getSelectedPage.
Qed.

Lemma driverOnly_getMcpPage (page : Page) : driverOnly (getMcpPage page).
Proof.
  intros s. exists (browser s). rewrite set_browser_id. unfold getMcpPage.
  by destruct (omap_get page (mcpPages s)).
Qed.

Create HintDb driver_only.
#[local] Hint Resolve driverOnly_ret driverOnly_throw driverOnly_get
  driverOnly_modify driverOnly_bind driverOnly_getSelectedPage
  driverOnly_resolveTargetPage driverOnly_getMcpPage : driver_only.

Lemma driverOnly_getCpuThrottlingRate : driverOnly getCpuThrottlingRate.
Proof. unfold getCpuThrottlingRate. eauto with driver_only. Qed.

Lemma driverOnly_getNetworkConditions : driverOnly getNetworkConditions.
Proof. unfold getNetworkConditions. eauto with driver_only. Qed.

#[local] Hint Resolve driverOnly_getCpuThrottlingRate
  driverOnly_getNetworkConditions : driver_only.

(** The timeout update touches the driver only. *)
Lemma driverOnly_updateSelectedPageTimeouts : driverOnly updateSelectedPageTimeouts.
Proof. unfold updateSelectedPageTimeouts. eauto 10 with driver_only. Qed.

(** ** Focus transfer of [selectPage] *)

Lemma hoare_bind {A B} (P : McpContext → Prop) (R : Result A → McpContext → Prop)
    (Q : Result B → McpContext → Prop) (m : M A) (k : A → M B) :
  hoare P m R →
  (∀ a, hoare (R (Ok a)) (k a) Q) →
  (∀ e s, R (Throw e) s → Q (Throw e) s) →
  hoare P (bind m k) Q.
Proof.
  intros Hm Hk He s HP. unfold bind. specialize (Hm s HP).
  destruct (m s) as [[a|e] s1]; simpl in *.
  - by apply Hk.
  - by apply He.
Qed.

Lemma hoare_conseq {A} (P P' : McpContext → Prop)
    (Q Q' : Result A → McpContext → Prop) (m : M A) :
  hoare P' m Q' → (∀ s, P s → P' s) → (∀ r s, Q' r s → Q r s) → hoare P m Q.
Proof. intros H HP HQ s Hs. apply HQ, H, HP, Hs. Qed.

Lemma hoare_get (P : McpContext → Prop) :
  hoare P get (λ r s, r = Ok s ∧ P s).
Proof. by intros s Hs. Qed.

Lemma hoare_modify (P : McpContext → Prop) (f : McpContext → McpContext) :
  hoare P (modify f) (λ r s', r = Ok tt ∧ ∃ s, P s ∧ s' = f s).
Proof. intros s Hs. split; [done|]. by exists s. Qed.

(** A [driverOnly] computation keeps whatever does not depend on the
    driver. *)
Lemma hoare_driverOnly {A} (P : McpContext → Prop) (m : M A) :
  driverOnly m → (∀ b s, P s → P (set_browser b s)) →
  hoare P m (λ _, P).
Proof. intros Hm HP s Hs. destruct (Hm s) as [b ->]. by apply HP. Qed.

Lemma selectPage_focusMap (s : McpContext) (newPage : Page) :
  focusedPagePerContext (selectPage newPage s).2
  = <[browserContext newPage := newPage]> (focusedPagePerContext s)
  ∧ selectedPage (selectPage newPage s).2 = Some newPage.
Proof.
  set (m0 := focusedPagePerContext s).
  set (m1 := <[browserContext newPage := newPage]> m0).
  cut (hoare (λ t, t = s) (selectPage newPage)
         (λ _ t, focusedPagePerContext t = m1 ∧ selectedPage t = Some newPage)).
  { intros H. by apply H. }
  unfold selectPage.
  eapply hoare_bind; [apply hoare_get | | by intros e t [? _]].
  intros t. simpl.
  eapply hoare_bind with (R := λ r t', r = Ok tt ∧ focusedPagePerContext t' = m0).
  { intros t' [[= ->] ->]. fold m0.
    destruct (m0 !! browserContext newPage) as [old|]; [|done].
    destruct (decide (old ≠ newPage)); [|done].
    by destruct (isClosed (browser s) old). }
  2: { by intros e t' [? _]. }
  intros [].
  eapply hoare_bind; [apply hoare_modify | | by intros e t' [? _]].
  intros []. simpl.
  eapply hoare_bind; [apply hoare_modify | | by intros e t' [? _]].
  intros []. simpl.
  eapply hoare_bind with
    (R := λ _ t', focusedPagePerContext t' = m1 ∧ selectedPage t' = Some newPage).
  - eapply hoare_conseq;
      [apply (hoare_driverOnly
                (λ t', focusedPagePerContext t' = m1 ∧ selectedPage t' = Some newPage));
         [apply driverOnly_updateSelectedPageTimeouts | done] | | done].
    intros t' (_ & s2 & (_ & s1 & (_ & Hm) & ->) & ->). simpl. by rewrite Hm.
  - intros []. eapply hoare_conseq; [apply hoare_modify | intros ? H; exact H |].
    intros r t' (_ & t'' & [Hf Hs] & ->). by simpl.
  - done.
Qed.

(** C5. Focus exclusivity and cross-context independence. Whatever the
    state, after [selectPage Q] the focus map sends the context of [Q] to
    [Q], so no other page of that context is its focused page, and the
    entry of every other context is the one it had before. *)
Theorem selectPage_focus_exclusive_independent (s : McpContext) (Q : Page) :
  let s' := (selectPage Q s).2 in
  focusedPagePerContext s' !! browserContext Q = Some Q
  ∧ (∀ F, browserContext F = browserContext Q → F ≠ Q →
          focusedPagePerContext s' !! browserContext F ≠ Some F)
  ∧ (∀ C', C' ≠ browserContext Q →
           focusedPagePerContext s' !! C' = focusedPagePerContext s !! C').
Proof.
  intros s'. subst s'.
  destruct (selectPage_focusMap s Q) as [-> _].
  split; [by rewrite lookup_insert_eq|].
  split.
  { intros F e HF. rewrite e, lookup_insert_eq. congruence. }
  intros C' HC. by rewrite lookup_insert_ne.
Qed.

(** ** Cross-page element lookup *)

Lemma searchAllPages_absent (uid : string) (l rest : list (Page * McpPage))
    (anySnapshot : bool) :
  uidAbsent uid l →
  ∃ any', searchAllPages uid (l ++ rest) anySnapshot = searchAllPages uid rest any'
          ∧ (any' = true ↔ anySnapshot = true ∨ ¬ noSnapshots l).
Proof.
  unfold uidAbsent, noSnapshots, getAXNodeByUid.
  revert anySnapshot. induction l as [|[p mp] l IH]; intros anySnapshot Habs.
  - exists anySnapshot. split; [done|]. split; [by left|].
    intros [?|H]; [done|]. by destruct H.
  - apply Forall_cons in Habs as [Hmp Habs]. simpl in *.
    destruct (textSnapshot mp) as [t|] eqn:Ht; simpl in Hmp.
    + rewrite Hmp. destruct (IH true Habs) as (any' & -> & Hany).
      exists any'. split; [done|]. split.
      * intros _. right. intros H. apply Forall_cons in H as [H _]. simpl in H. congruence.
      * intros _. apply Hany. by left.
    + destruct (IH anySnapshot Habs) as (any' & -> & Hany).
      exists any'. split; [done|]. rewrite Hany. split.
      * intros [?|H]; [by left|]. right. intros H'. apply H.
        by apply Forall_cons in H' as [_ H'].
      * intros [?|H]; [by left|]. right. intros H'. apply H.
        apply Forall_cons. by split.
Qed.

Lemma noSnapshots_uidAbsent (uid : string) (l : list (Page * McpPage)) :
  noSnapshots l → uidAbsent uid l.
Proof.
  intros H. eapply Forall_impl; [exact H|].
  intros [p mp] Hp. unfold getAXNodeByUid. simpl in *. by rewrite Hp.
Qed.

Lemma set_selectedPage_id (s : McpContext) (p : Page) :
  selectedPage s = Some p → set_selectedPage (Some p) s = s.
Proof. destruct s. simpl. by intros ->. Qed.

Lemma resolveElementHandle_state (node : TextSnapshotNode) (uid : string) (s : McpContext) :
  (resolveElementHandle node uid s).2 = s.
Proof. unfold resolveElementHandle. by destruct (_ !! _). Qed.

Lemma getSelectedMcpPage_state (s : McpContext) : (getSelectedMcpPage s).2 = s.
Proof.
  unfold getSelectedMcpPage, getSelectedPage, getMcpPage. munfold.
  destruct (selectedPage s) as [p|]; [|done].
  destruct (isClosed (browser s) p); [done|]. by destruct (omap_get p (mcpPages s)).
Qed.

(** What the loop does once it stands on the first matching entry. *)
Lemma searchAllPages_found (uid : string) (page : Page) (mcpPage : McpPage)
    (node : TextSnapshotNode) (rest : list (Page * McpPage)) (any : bool)
    (s : McpContext) :
  getAXNodeByUid mcpPage uid = Some node →
  searchAllPages uid ((page, mcpPage) :: rest) any s =
  match focusedPagePerContext s !! browserContext page with
  | Some focused =>
      if decide (focused = page) then
        resolveElementHandle node uid (set_selectedPage (Some page) s)
      else (Throw (UidFocusViolationError uid (mp_id mcpPage) (getPageId s focused)), s)
  | None =>
      match getSelectedMcpPage s with
      | (Ok mp, _) =>
          (Throw (UidFocusViolationError uid (mp_id mcpPage) (Some (mp_id mp))), s)
      | (Throw e, _) => (Throw e, s)
      end
  end.
Proof.
  unfold getAXNodeByUid. intros Hnode. simpl.
  destruct (textSnapshot mcpPage) as [t|]; [simpl in Hnode|done].
  rewrite Hnode. munfold.
  destruct (focusedPagePerContext s !! browserContext page) as [f|] eqn:Hf.
  - destruct (decide (f = page)) as [->|Hne].
    + destruct (decide (Some page ≠ Some page)); [done|].
      destruct (decide (selectedPage s ≠ Some page)) as [|Hsel]; [done|].
      apply dec_stable in Hsel. by rewrite set_selectedPage_id.
    + destruct (decide (Some f ≠ Some page)) as [|n]; [done|].
      destruct n. congruence.
  - destruct (decide (None ≠ Some page)) as [|n]; [|by destruct n].
    pose proof (getSelectedMcpPage_state s) as Hst.
    destruct (getSelectedMcpPage s) as [[mp|e] s']; simpl in *; by subst s'.
Qed.

(** Refutation of C4 as stated. In [sessionA2closed] the uid ["1_0"] is
    found on [pageA1], whose context has lost its focus-map entry when the
    focused page was closed; [pageA1] is therefore not the focused page of
    its context, but the call does not fail with the focus error: the
    fallback to the globally selected page, which is the closed page,
    throws first. *)
Lemma getElementByUid_fallback_counterexample :
  (∃ mp node, firstMatch "1_0" (mcpPages sessionA2closed) pageA1 mp node)
  ∧ focusedPagePerContext sessionA2closed !! browserContext pageA1 ≠ Some pageA1
  ∧ getElementByUid "1_0" None sessionA2closed
    = (Throw SelectedPageClosed, sessionA2closed)
  ∧ ∀ target selected,
      (getElementByUid "1_0" None sessionA2closed).1
      ≠ Throw (UidFocusViolationError "1_0" target selected).
Proof.
  assert (getElementByUid "1_0" None sessionA2closed
          = (Throw SelectedPageClosed, sessionA2closed)) as E by evaluate.
  split.
  { set (l := mcpPages sessionA2closed).
    exists (default (newMcpPage 0) (omap_get pageA1 l)).
    exists (default (mkNode EmptyString EmptyString None None None None [])
              (omap_get pageA1 l ≫= λ mp, getAXNodeByUid mp "1_0")).
    exists (take 1 l), (drop 2 l). split; [evaluate|]. split.
    - unfold uidAbsent. vm_compute. repeat constructor.
    - evaluate. }
  split; [evaluate|]. split; [exact E|].
  intros target selected. by rewrite E.
Qed.

(** C4, amended. The unscoped lookup, case by case: (i) when no page
    record holds a snapshot it throws [NoSnapshotError]; (ii) when some
    snapshot exists and none resolves the uid it throws
    [UnknownUidError]; (iii) when the first record that resolves the uid
    belongs to page [P] and the focus map sends the context of [P] to
    another page [F], it throws the focus error naming the id of [P] and
    the id of [F]; when the context of [P] has no focus-map entry, it
    throws the focus error naming the id of [P] and the id of the globally
    selected page if that page is selected, open and registered, and the
    error of the selected-page lookup otherwise; (iv) when [P] is the
    focused page of its context, the selected pointer is set to [P] and the
    result is that of resolving the node to an element handle. In every
    failing case the state is unchanged. *)
Theorem getElementByUid_unscoped_cases (s : McpContext) (uid : string) :
  (noSnapshots (mcpPages s) →
     getElementByUid uid None s = (Throw NoSnapshotError, s))
  ∧ (¬ noSnapshots (mcpPages s) → uidAbsent uid (mcpPages s) →
     getElementByUid uid None s = (Throw UnknownUidError, s))
  ∧ (∀ P mp node, firstMatch uid (mcpPages s) P mp node →
       (∀ F, focusedPagePerContext s !! browserContext P = Some F → F ≠ P →
          getElementByUid uid None s
          = (Throw (UidFocusViolationError uid (mp_id mp) (getPageId s F)), s))
       ∧ (focusedPagePerContext s !! browserContext P = None →
          ∀ selected, (getSelectedMcpPage s).1 = Ok selected →
          getElementByUid uid None s
          = (Throw (UidFocusViolationError uid (mp_id mp) (Some (mp_id selected))), s))
       ∧ (focusedPagePerContext s !! browserContext P = None →
          ∀ e, (getSelectedMcpPage s).1 = Throw e →
          getElementByUid uid None s = (Throw e, s))
       ∧ (focusedPagePerContext s !! browserContext P = Some P →
          getElementByUid uid None s
          = resolveElementHandle node uid (set_selectedPage (Some P) s)
          ∧ selectedPage (getElementByUid uid None s).2 = Some P)).
Proof.
  unfold getElementByUid. munfold.
  split; [|split].
  - intros Hno.
    destruct (searchAllPages_absent uid (mcpPages s) [] false
                (noSnapshots_uidAbsent uid _ Hno)) as (any' & E & Hany).
    rewrite app_nil_r in E. rewrite E. simpl.
    destruct any'; [|done]. destruct Hany as [Hany _].
    destruct (Hany eq_refl) as [?|H]; [done|by destruct H].
  - intros Hsome Habs.
    destruct (searchAllPages_absent uid (mcpPages s) [] false Habs)
      as (any' & E & Hany).
    rewrite app_nil_r in E. rewrite E. simpl.
    destruct any'; [done|]. destruct Hany as [_ Hany].
    by discriminate Hany; right.
  - intros P mp node (l1 & l2 & El & Habs & Hnode).
    rewrite El.
    destruct (searchAllPages_absent uid l1 ((P, mp) :: l2) false Habs)
      as (any' & -> & _).
    rewrite (searchAllPages_found uid P mp node l2 any' s Hnode).
    split; [|split; [|split]].
    + intros F -> HF. by destruct (decide (F = P)).
    + intros -> selected Hsel.
      pose proof (getSelectedMcpPage_state s).
      destruct (getSelectedMcpPage s) as [[mp'|e] s']; simpl in *; congruence.
    + intros -> e Hsel.
      pose proof (getSelectedMcpPage_state s).
      destruct (getSelectedMcpPage s) as [[mp'|e'] s']; simpl in *; congruence.
    + intros ->. destruct (decide (P = P)); [|done].
      split; [done|]. by rewrite resolveElementHandle_state.
Qed.

Lemma getElementByUid_unscoped_cases_witness :
  getElementByUid "1_0" None sessionA2
  = (Throw (UidFocusViolationError "1_0" 2 (Some 3)), sessionA2).
Proof.
  pose proof (getElementByUid_unscoped_cases sessionA2 "1_0") as (_ & _ & H).
  set (l := mcpPages sessionA2).
  specialize (H pageA1 (default (newMcpPage 0) (omap_get pageA1 l))
                (default (mkNode EmptyString EmptyString None None None None [])
                   (omap_get pageA1 l ≫= λ mp, getAXNodeByUid mp "1_0"))).
  destruct H as (H & _).
  - exists (take 1 l), (drop 2 l). split; [evaluate|]. split.
    + unfold uidAbsent. vm_compute. repeat constructor.
    + evaluate.
  - exact (H pageA2 eq_refl ltac:(discriminate)).
Defined.

(** ** Timeouts after [emulate] *)

Lemma appendLog_nil (b : Browser) : appendLog b [] = b.
Proof. destruct b. unfold appendLog. simpl. by rewrite app_nil_r. Qed.

Lemma appendLog_app (b : Browser) (l1 l2 : list (Page * DriverCall)) :
  appendLog (appendLog b l1) l2 = appendLog b (l1 ++ l2)%list.
Proof. unfold appendLog. simpl. by rewrite app_assoc. Qed.

Lemma sends_ret {A} (a : A) : sends (ret a).
Proof.
  intros s. exists a, []. by rewrite appendLog_nil, set_browser_id.
Qed.

Lemma sends_get : sends get.
Proof.
  intros s. exists s, []. by rewrite appendLog_nil, set_browser_id.
Qed.

Lemma sends_send (page : Page) (c : DriverCall) : sends (send page c).
Proof. intros s. by exists tt, [(page, c)]. Qed.

Lemma sends_bind {A B} (m : M A) (k : A → M B) :
  sends m → (∀ a, sends (k a)) → sends (bind m k).
Proof.
  intros Hm Hk s. unfold bind.
  destruct (Hm s) as (a & l & ->).
  destruct (Hk a (set_browser (appendLog (browser s) l) s)) as (b & l' & ->).
  exists b, (l ++ l')%list. simpl. by rewrite appendLog_app.
Qed.

Create HintDb sends.
#[local] Hint Resolve sends_ret sends_get sends_send sends_bind : sends.

Lemma sends_emulateNetwork page o e : sends (emulateNetwork page o e).
Proof.
  unfold emulateNetwork. destruct o as [[l|]|]; eauto with sends.
  repeat case_decide; eauto with sends.
  apply sends_bind; [apply sends_get|]. intros s. case_decide; eauto with sends.
Qed.

Lemma sends_emulateCpu page o e : sends (emulateCpu page o e).
Proof. unfold emulateCpu. destruct o; eauto with sends. Qed.

Lemma sends_emulateGeolocation page o e : sends (emulateGeolocation page o e).
Proof. unfold emulateGeolocation. destruct o; eauto with sends. Qed.

Lemma sends_emulateUserAgent page o e : sends (emulateUserAgent page o e).
Proof. unfold emulateUserAgent. destruct o; eauto with sends. Qed.

Lemma sends_emulateColorScheme page o e : sends (emulateColorScheme page o e).
Proof.
  unfold emulateColorScheme. destruct o as [[[]|]|]; eauto with sends.
Qed.

Lemma sends_emulateViewport page o e : sends (emulateViewport page o e).
Proof. unfold emulateViewport. destruct o; eauto with sends. Qed.

#[local] Hint Resolve sends_emulateNetwork sends_emulateCpu
  sends_emulateGeolocation sends_emulateUserAgent sends_emulateColorScheme
  sends_emulateViewport : sends.

Lemma omap_get_set_eq {K V} `{EqDecision K} (k : K) (v : V) (l : list (K * V)) :
  omap_get k (omap_set k v l) = Some v.
Proof.
  induction l as [|[k' v'] l IH]; simpl.
  - by destruct (decide (k = k)).
  - destruct (decide (k' = k)) as [->|Hne]; simpl.
    + by destruct (decide (k = k)).
    + by destruct (decide (k' = k)).
Qed.

Lemma pageState_updatePage_eq (b : Browser) (p : Page) (f : PageState → PageState) :
  pageState (updatePage b p f) p = f (pageState b p).
Proof. unfold pageState, updatePage, with_state. simpl. by rewrite lookup_insert_eq. Qed.

Lemma pageState_updatePage_ne (b : Browser) (p q : Page) (f : PageState → PageState) :
  p ≠ q → pageState (updatePage b p f) q = pageState b q.
Proof.
  intros. unfold pageState, updatePage, with_state. simpl.
  by rewrite lookup_insert_ne.
Qed.

(** What a successful timeout update leaves behind: the timeouts of the
    selected page [sel], computed from the record of the page that
    [#resolveTargetPage] designates. *)
Lemma updateSelectedPageTimeouts_ok (s s' : McpContext) :
  updateSelectedPageTimeouts s = (Ok tt, s') →
  ∃ sel tp mp,
    selectedPage s = Some sel
    ∧ resolveTargetPage s = (Ok tp, s)
    ∧ omap_get tp (mcpPages s) = Some mp
    ∧ s' = set_browser
             (updatePage
                (updatePage (browser s) sel
                   (setDefaultTimeout (DEFAULT_TIMEOUT * cpuThrottlingRate mp)%Q))
                sel
                (setDefaultNavigationTimeout
                   (NAVIGATION_TIMEOUT
                    * getNetworkMultiplierFromString (networkConditions mp))%Q)) s.
Proof.
  unfold updateSelectedPageTimeouts, getCpuThrottlingRate, getNetworkConditions,
    getMcpPage.
  munfold.
  destruct (getSelectedPage s) as [[sel|e] s0] eqn:Hsel; [|done].
  assert (s0 = s ∧ selectedPage s = Some sel ∧ isClosed (browser s) sel = false)
    as (-> & Hs & Hc).
  { unfold getSelectedPage in Hsel. destruct (selectedPage s) as [p|]; [|done].
    destruct (isClosed (browser s) p) eqn:C; [done|]. by simplify_eq. }
  destruct (resolveTargetPage s) as [[tp|e] s0] eqn:Htp; [|done].
  assert (s0 = s) as ->.
  { unfold resolveTargetPage in Htp. destruct (requestPage s); simplify_eq; [done|].
    congruence. }
  destruct (omap_get tp (mcpPages s)) as [mp|] eqn:Hmp; [|done]. simpl.
  assert (resolveTargetPage
            (set_browser
               (updatePage (browser s) sel
                  (setDefaultTimeout (DEFAULT_TIMEOUT * cpuThrottlingRate mp)%Q)) s)
          = (Ok tp, set_browser
               (updatePage (browser s) sel
                  (setDefaultTimeout (DEFAULT_TIMEOUT * cpuThrottlingRate mp)%Q)) s))
    as ->.
  { unfold resolveTargetPage in *. simpl. destruct (requestPage s); [by simplify_eq|].
    unfold getSelectedPage in *. simpl. rewrite Hs in *.
    destruct (decide (sel = sel)); [|done].
    unfold isClosed in *. rewrite pageState_updatePage_eq. simpl.
    rewrite Hc in *. by simplify_eq. }
  simpl. rewrite Hmp. simpl. intros [= <-]. by exists sel, tp, mp.
Qed.

(** [emulate] either throws before it has changed anything, or gives the
    page record of the emulated page new settings, sends commands to the
    driver, and ends with the timeout update when one is due. *)
Lemma emulate_unfold (options : EmulateOptions) (target : option Page)
    (s : McpContext) :
  (∃ e, emulate options target s = (Throw e, s))
  ∨ ∃ page mp e' l,
      (target = Some page ∨ target = None ∧ getSelectedPage s = (Ok page, s))
      ∧ omap_get page (mcpPages s) = Some mp
      ∧ emulate options target s
        = (if timeoutsNeedUpdate options then updateSelectedPageTimeouts else ret tt)
            (set_mcpPages
               (omap_set page (set_emulationSettings e' mp) (mcpPages s))
               (set_browser (appendLog (browser s) l) s)).
Proof.
  remember (emulate options target s) as r eqn:Er.
  unfold emulate in Er. unfold bind at 1 in Er.
  set (resolve := match target with Some p => ret p | None => getSelectedPage end) in Er.
  assert ((∃ e, resolve s = (Throw e, s))
          ∨ ∃ page, resolve s = (Ok page, s)
                    ∧ (target = Some page
                       ∨ target = None ∧ getSelectedPage s = (Ok page, s)))
    as [[e He]|(page & He & Htarget)].
  { subst resolve. destruct target as [p|].
    - right. exists p. split; [done|by left].
    - unfold getSelectedPage. destruct (selectedPage s) as [p|]; [|left; by eexists].
      destruct (isClosed (browser s) p); [left; by eexists|].
      right. exists p. split; [done|by right]. }
  { rewrite He in Er. left. by exists e. }
  rewrite He in Er. clear He resolve.
  unfold bind at 1 in Er. unfold getMcpPage in Er.
  destruct (omap_get page (mcpPages s)) as [mp|] eqn:Hmp; [|left; by eexists].
  unfold bind at 1 in Er.
  destruct (sends_emulateNetwork page (eo_networkConditions options)
              (emulationSettings mp) s) as (e1 & l1 & E1).
  rewrite E1 in Er. clear E1. unfold bind at 1 in Er.
  match type of Er with context [emulateCpu ?p ?o ?e ?t] =>
    destruct (sends_emulateCpu p o e t) as (e2 & l2 & E2) end.
  rewrite E2 in Er. clear E2. unfold bind at 1 in Er.
  match type of Er with context [emulateGeolocation ?p ?o ?e ?t] =>
    destruct (sends_emulateGeolocation p o e t) as (e3 & l3 & E3) end.
  rewrite E3 in Er. clear E3. unfold bind at 1 in Er.
  match type of Er with context [emulateUserAgent ?p ?o ?e ?t] =>
    destruct (sends_emulateUserAgent p o e t) as (e4 & l4 & E4) end.
  rewrite E4 in Er. clear E4. unfold bind at 1 in Er.
  match type of Er with context [emulateColorScheme ?p ?o ?e ?t] =>
    destruct (sends_emulateColorScheme p o e t) as (e5 & l5 & E5) end.
  rewrite E5 in Er. clear E5. unfold bind at 1 in Er.
  match type of Er with context [emulateViewport ?p ?o ?e ?t] =>
    destruct (sends_emulateViewport p o e t) as (e6 & l6 & E6) end.
  rewrite E6 in Er. clear E6. unfold bind at 1 in Er. unfold modify at 1 in Er.
  cbn [browser set_browser mcpPages] in Er.
  rewrite !appendLog_app in Er.
  right. eexists page, mp, e6, _. split; [done|]. split; [done|].
  rewrite Er. destruct (timeoutsNeedUpdate options); reflexivity.
Qed.

Lemma emulate_ok (options : EmulateOptions) (target : option Page)
    (s s' : McpContext) :
  emulate options target s = (Ok tt, s') →
  ∃ page mp e' l,
    (target = Some page ∨ target = None ∧ getSelectedPage s = (Ok page, s))
    ∧ omap_get page (mcpPages s) = Some mp
    ∧ let s1 := set_mcpPages
                  (omap_set page (set_emulationSettings e' mp) (mcpPages s))
                  (set_browser (appendLog (browser s) l) s) in
      if timeoutsNeedUpdate options
      then updateSelectedPageTimeouts s1 = (Ok tt, s')
      else s' = s1.
Proof.
  intros Hok.
  destruct (emulate_unfold options target s)
    as [[e He]|(page & mp & e' & l & Htarget & Hmp & He)]; [congruence|].
  exists page, mp, e', l. split; [done|]. split; [done|].
  rewrite He in Hok. cbv zeta.
  destruct (timeoutsNeedUpdate options); [exact Hok|].
  unfold ret in Hok. by injection Hok as <-.
Qed.

Lemma getNetworkMultiplierFromString_table :
  getNetworkMultiplierFromString (Some "Fast 4G") = 1%Q
  ∧ getNetworkMultiplierFromString (Some "Slow 4G") = 2.5%Q
  ∧ getNetworkMultiplierFromString (Some "Fast 3G") = 5%Q
  ∧ getNetworkMultiplierFromString (Some "Slow 3G") = 10%Q
  ∧ getNetworkMultiplierFromString None = 1%Q
  ∧ ∀ l, l ∉ ["Fast 4G"; "Slow 4G"; "Fast 3G"; "Slow 3G"] →
         getNetworkMultiplierFromString (Some l) = 1%Q.
Proof.
  repeat split; try reflexivity.
  intros l Hl. unfold getNetworkMultiplierFromString.
  repeat case_decide; simplify_eq; try reflexivity; destruct Hl; set_solver.
Qed.

(** Refutation of C7 as stated. In [sessionTwo] the selected page is
    [page1]. Setting a CPU throttling rate of 4 on [page0] succeeds and is
    recorded for [page0], but the default timeout of [page0] stays 5000
    instead of becoming 5000 * 4: the timeouts that are recomputed are
    those of the selected page. *)
Lemma emulate_unselected_page_counterexample :
  let r := emulate (cpuOnly 4) (Some page0) sessionTwo in
  r.1 = Ok tt
  ∧ selectedPage sessionTwo = Some page1
  ∧ cpuThrottlingRate <$> omap_get page0 (mcpPages r.2) = Some 4%Q
  ∧ ps_defaultTimeout (pageState (browser r.2) page0) = 5000%Q
  ∧ ¬ (ps_defaultTimeout (pageState (browser r.2) page0) == DEFAULT_TIMEOUT * 4)%Q.
Proof.
  assert (ps_defaultTimeout
            (pageState (browser (emulate (cpuOnly 4) (Some page0) sessionTwo).2) page0)
          = 5000%Q) as E by evaluate.
  cbv zeta. rewrite E.
  split; [evaluate|]. split; [evaluate|]. split; [evaluate|].
  split; [reflexivity|]. evaluate.
Qed.

(** C7, amended. When [emulate] sets or clears [networkConditions] or
    [cpuThrottlingRate] on the globally selected page, no other page being
    the target of the current request, and the call succeeds, then
    afterwards the default timeout of that page is 5000 times its CPU
    throttling rate (1 when unset) and its navigation timeout is 10000
    times the multiplier of its network-condition label, where the
    multiplier is 1 for Fast 4G, 2.5 for Slow 4G, 5 for Fast 3G, 10 for
    Slow 3G and 1 for every other or absent label. *)
Theorem emulate_timeouts_of_selected_page (options : EmulateOptions)
    (target : option Page) (page : Page) (s s' : McpContext) :
  timeoutsNeedUpdate options = true →
  selectedPage s = Some page →
  target = None ∨ target = Some page →
  requestPage s = None ∨ requestPage s = Some page →
  emulate options target s = (Ok tt, s') →
  (∃ mp, omap_get page (mcpPages s') = Some mp
         ∧ cpuThrottlingRate mp = default 1%Q (es_cpuThrottlingRate (emulationSettings mp))
         ∧ ps_defaultTimeout (pageState (browser s') page)
           = (5000 * cpuThrottlingRate mp)%Q
         ∧ ps_navigationTimeout (pageState (browser s') page)
           = (10000 * getNetworkMultiplierFromString (networkConditions mp))%Q)
  ∧ getNetworkMultiplierFromString (Some "Fast 4G") = 1%Q
  ∧ getNetworkMultiplierFromString (Some "Slow 4G") = 2.5%Q
  ∧ getNetworkMultiplierFromString (Some "Fast 3G") = 5%Q
  ∧ getNetworkMultiplierFromString (Some "Slow 3G") = 10%Q
  ∧ getNetworkMultiplierFromString None = 1%Q
  ∧ ∀ l, l ∉ ["Fast 4G"; "Slow 4G"; "Fast 3G"; "Slow 3G"] →
         getNetworkMultiplierFromString (Some l) = 1%Q.
Proof.
  intros Hneed Hsel Htarget Hreq Hok.
  split; [|apply getNetworkMultiplierFromString_table].
  apply emulate_ok in Hok as (page' & mp & e' & l & Hpage & Hmp & Hupd).
  rewrite Hneed in Hupd. cbv zeta in Hupd.
  assert (page' = page) as ->.
  { destruct Hpage as [->|[-> Hg]]; [by destruct Htarget; simplify_eq|].
    unfold getSelectedPage in Hg. rewrite Hsel in Hg.
    destruct (isClosed (browser s) page); by simplify_eq. }
  apply updateSelectedPageTimeouts_ok in Hupd
    as (sel & tp & mp' & Hsel' & Htp & Hmp' & ->).
  simpl in Hsel', Hmp'. rewrite Hsel in Hsel'. injection Hsel' as <-.
  assert (tp = page) as ->.
  { unfold resolveTargetPage in Htp. simpl in Htp.
    destruct Hreq as [Hr|Hr]; rewrite Hr in Htp; [|by simplify_eq].
    unfold getSelectedPage in Htp. simpl in Htp. rewrite Hsel in Htp.
    destruct (isClosed _ page); by simplify_eq. }
  rewrite omap_get_set_eq in Hmp'. injection Hmp' as <-.
  eexists. simpl. rewrite omap_get_set_eq. split; [done|]. split; [done|].
  rewrite !pageState_updatePage_eq. by simpl.
Qed.

Lemma emulate_timeouts_of_selected_page_witness :
  ∃ mp, omap_get page1 (mcpPages (emulate (cpuOnly 4) None sessionTwo).2) = Some mp
        ∧ ps_defaultTimeout
            (pageState (browser (emulate (cpuOnly 4) None sessionTwo).2) page1)
          = (5000 * cpuThrottlingRate mp)%Q.
Proof.
  destruct (emulate_timeouts_of_selected_page (cpuOnly 4) None page1 sessionTwo
              (emulate (cpuOnly 4) None sessionTwo).2)
    as [(mp & Hmp & _ & Hd & _) _].
  - reflexivity.
  - evaluate.
  - by left.
  - left. evaluate.
  - assert ((emulate (cpuOnly 4) None sessionTwo).1 = Ok tt) as E by evaluate.
    destruct (emulate (cpuOnly 4) None sessionTwo) as [r t]. simpl in *. by rewrite E.
  - exists mp. split; [exact Hmp | exact Hd].
Defined.

(** ** The snapshot indexer *)

Lemma SerializedAXNode_ind (P : SerializedAXNode → Prop) :
  (∀ role name value loaderId backendNodeId children,
     match children with Some cs => Forall P cs | None => True end →
     P (mkAX role name value loaderId backendNodeId children)) →
  ∀ node, P node.
Proof.
  intros H. fix IH 1. intros [r n v l b cs]. apply H.
  destruct cs as [cs|]; [|exact I].
  induction cs as [|c cs IHcs]; constructor; [apply IH | exact IHcs].
Qed.

Lemma assignIds_unfold (snapshotId : nat) (node : SerializedAXNode) (s : AssignState) :
  assignIds snapshotId node s =
  let k := assignKey snapshotId (uniqueBackendId node) s in
  let c := match ax_children node with
           | Some cs => mapChildren snapshotId cs k.2
           | None => ([], k.2)
           end in
  let n := {| node_id := k.1; node_role := ax_role node; node_name := ax_name node;
              node_value := snapshotValue node; node_loaderId := ax_loaderId node;
              node_backendNodeId := ax_backendNodeId node;
              node_children := c.1 |} in
  (n, recordNode n c.2).
Proof.
  destruct node as [r na v l b cs]. unfold assignKey, recordNode, snapshotValue.
  simpl. destruct (as_sticky s !! _); simpl.
  - destruct cs as [cs|]; simpl; [|done].
    fold (mapChildren snapshotId). by destruct (mapChildren _ _ _).
  - destruct cs as [cs|]; simpl; [|done].
    fold (mapChildren snapshotId). by destruct (mapChildren _ _ _).
Qed.

Lemma mapChildren_cons (snapshotId : nat) (c : SerializedAXNode)
    (cs : list SerializedAXNode) (s : AssignState) :
  mapChildren snapshotId (c :: cs) s =
  let r := assignIds snapshotId c s in
  let rs := mapChildren snapshotId cs r.2 in
  (r.1 :: rs.1, rs.2).
Proof.
  simpl. destruct (assignIds snapshotId c s) as [n s1]. simpl.
  by destruct (mapChildren snapshotId cs s1).
Qed.

(** *** Minted identifiers are distinct *)

Lemma pretty_N_char_underscore (x : N) : pretty_N_char x ≠ "_"%char.
Proof. unfold pretty_N_char. by repeat case_match. Qed.

Lemma pretty_N_go_underscoreFree (x : N) (s : string) :
  underscoreFree s → underscoreFree (pretty_N_go x s).
Proof.
  revert s. induction (N.lt_wf_0 x) as [x _ IH]. intros s Hs.
  destruct (decide (x = 0)%N) as [->|Hx]; [by rewrite pretty_N_go_0|].
  rewrite pretty_N_go_step by lia. apply IH.
  - apply N.div_lt; lia.
  - split; [apply pretty_N_char_underscore | exact Hs].
Qed.

Lemma pretty_nat_underscoreFree (n : nat) : underscoreFree (pretty n).
Proof.
  unfold pretty, pretty_nat, pretty, pretty_N.
  case_decide; [by repeat split|]. by apply pretty_N_go_underscoreFree.
Qed.

Lemma append_underscore_inj (a b c d : string) :
  underscoreFree a → underscoreFree b →
  a +:+ "_" +:+ c = b +:+ "_" +:+ d → a = b ∧ c = d.
Proof.
  revert b. induction a as [|x a IH]; intros [|y b] Ha Hb E; simpl in *.
  - by simplify_eq.
  - simplify_eq. by destruct Hb.
  - simplify_eq. by destruct Ha.
  - injection E as -> E. destruct Ha as [_ Ha], Hb as [_ Hb].
    destruct (IH b Ha Hb E) as [-> ->]. done.
Qed.

Lemma mintId_inj (s1 c1 s2 c2 : nat) :
  mintId s1 c1 = mintId s2 c2 → s1 = s2 ∧ c1 = c2.
Proof.
  unfold mintId. intros E.
  apply append_underscore_inj in E as [E1 E2];
    try apply pretty_nat_underscoreFree.
  split; by apply (inj pretty).
Qed.

(** *** What [assignIds] establishes *)

Lemma assignPost_nil (sid : nat) (a : AssignState) : assignPost sid a [] a.
Proof.
  split; [done|]. split.
  { intros m Hm. by apply elem_of_nil in Hm. }
  split.
  { intros k. split; [by left|].
    intros [?|(m & Hm & _)]; [done|]. by apply elem_of_nil in Hm. }
  split.
  { intros i. split; [by left|].
    intros [?|(m & Hm & _)]; [done|]. by apply elem_of_nil in Hm. }
  split; [lia|done].
Qed.

Lemma assignPost_app (sid : nat) (a a1 a2 : AssignState)
    (ns1 ns2 : list TextSnapshotNode) :
  assignPost sid a ns1 a1 → assignPost sid a1 ns2 a2 →
  assignPost sid a (ns1 ++ ns2)%list a2.
Proof.
  intros (M1 & K1 & S1 & I1 & C1 & B1) (M2 & K2 & S2 & I2 & C2 & B2).
  split; [by auto|]. split.
  { intros m [Hm|Hm]%elem_of_app; [apply M2, K1, Hm | apply K2, Hm]. }
  split.
  { intros k. rewrite S2, S1. setoid_rewrite elem_of_app. split.
    - intros [[?|(m & ? & ?)]|(m & ? & ?)]; eauto 6.
    - intros [?|(m & [?|?] & ?)]; eauto 6. }
  split.
  { intros i. rewrite I2, I1. setoid_rewrite elem_of_app. split.
    - intros [[?|(m & ? & ?)]|(m & ? & ?)]; eauto 6.
    - intros [?|(m & [?|?] & ?)]; eauto 6. }
  split; [lia | by auto].
Qed.

Lemma assignKey_spec (sid : nat) (key : string) (a : AssignState) :
  let k := assignKey sid key a in
  as_sticky k.2 !! key = Some k.1
  ∧ (∀ k' v, as_sticky a !! k' = Some v → as_sticky k.2 !! k' = Some v)
  ∧ as_seenUniqueIds k.2 = {[key]} ∪ as_seenUniqueIds a
  ∧ as_idToNode k.2 = as_idToNode a
  ∧ (as_idCounter a ≤ as_idCounter k.2)%nat
  ∧ (mintedBefore sid (as_idCounter a) (as_sticky a) →
     mintedBefore sid (as_idCounter k.2) (as_sticky k.2)).
Proof.
  unfold assignKey. destruct (as_sticky a !! key) as [id|] eqn:E; simpl.
  - split; [done|]. split; [done|]. split; [done|]. split; [done|]. split; [lia|done].
  - split; [by rewrite lookup_insert_eq|]. split.
    { intros k' v Hk'. rewrite lookup_insert_ne; [done|]. congruence. }
    split; [done|]. split; [done|]. split; [lia|].
    intros [Hm Hinj]. split.
    + intros k' v. rewrite lookup_insert. case_decide.
      * intros [= <-]. exists sid, (as_idCounter a). split; [done|]. lia.
      * intros Hk'. destruct (Hm k' v Hk') as (s0 & c0 & -> & Hlt).
        exists s0, c0. split; [done|]. lia.
    + intros k1 k2 v. rewrite !lookup_insert.
      repeat case_decide; simplify_eq; try done.
      * intros [= <-] Hk2. destruct (Hm k2 _ Hk2) as (s0 & c0 & Ev & Hlt).
        apply mintId_inj in Ev as [? ?]. lia.
      * intros Hk1 [= <-]. destruct (Hm k1 _ Hk1) as (s0 & c0 & Ev & Hlt).
        apply mintId_inj in Ev as [? ?]. lia.
      * apply Hinj.
Qed.

Lemma assignIds_spec (sid : nat) (node : SerializedAXNode) :
  ∀ a, assignPost sid a (nodesOf (assignIds sid node a).1) (assignIds sid node a).2
       ∧ Forall2 mirrors (flattenAX node) (nodesOf (assignIds sid node a).1).
Proof.
  induction node as [r na v l b cs IH] using SerializedAXNode_ind. intros a.
  rewrite assignIds_unfold. cbv zeta.
  set (node := mkAX r na v l b cs).
  set (k := assignKey sid (uniqueBackendId node) a).
  destruct (assignKey_spec sid (uniqueBackendId node) a)
    as (Kk & Mk & Sk & Ik & Ck & Bk). fold k in Kk, Mk, Sk, Ik, Ck, Bk.
  set (c := match ax_children node with
            | Some cs => mapChildren sid cs k.2
            | None => ([], k.2)
            end).
  assert (assignPost sid k.2 (flat_map nodesOf c.1) c.2
          ∧ Forall2 mirrors
              (match cs with Some cs => flat_map flattenAX cs | None => [] end)
              (flat_map nodesOf c.1)) as [(Mc & Kc & Sc & Ic & Cc & Bc) Fc].
  { subst c. simpl. destruct cs as [cs|]; [|split; [apply assignPost_nil|constructor]].
    generalize (k.2). clear -IH.
    induction cs as [|c cs IHcs]; intros a.
    - split; [apply assignPost_nil|constructor].
    - apply Forall_cons in IH as [Hc Hcs].
      rewrite mapChildren_cons. cbv zeta. simpl.
      destruct (Hc a) as [P1 F1].
      destruct (IHcs Hcs (assignIds sid c a).2) as [P2 F2].
      split; [by eapply assignPost_app | by apply Forall2_app]. }
  set (n := {| node_id := k.1; node_children := c.1 |}).
  change (assignPost sid a (n :: flat_map nodesOf c.1) (recordNode n c.2)
          ∧ Forall2 mirrors
              (node :: match cs with Some cs => flat_map flattenAX cs | None => [] end)
              (n :: flat_map nodesOf c.1)).
  assert (nodeKey n = uniqueBackendId node) as Hkey by reflexivity.
  split.
  - unfold assignPost.
    change (as_sticky (recordNode n c.2)) with (as_sticky c.2).
    change (as_seenUniqueIds (recordNode n c.2)) with (as_seenUniqueIds c.2).
    change (as_idCounter (recordNode n c.2)) with (as_idCounter c.2).
    change (as_idToNode (recordNode n c.2)) with (<[k.1 := n]> (as_idToNode c.2)).
    split; [by auto|]. split.
    { intros m [->|Hm]%elem_of_cons; [|by apply Kc].
      rewrite Hkey. apply Mc. exact Kk. }
    split.
    { intros k0. rewrite Sc, Sk. setoid_rewrite elem_of_cons.
      rewrite elem_of_union, elem_of_singleton. split.
      - intros [[->|?]|(m & Hm & <-)].
        + right. exists n. split; [by left|done].
        + by left.
        + right. exists m. split; [by right|done].
      - intros [?|(m & [->|Hm] & <-)].
        + left. by right.
        + left. by left.
        + right. by exists m. }
    split.
    { intros i. rewrite lookup_insert. case_decide as Hi.
      - split; [|by eauto]. intros _. right. exists n. split; [by left|done].
      - rewrite Ic, Ik. setoid_rewrite elem_of_cons. split.
        + intros [?|(m & Hm & <-)]; [by left|]. right. exists m. split; [by right|done].
        + intros [?|(m & [->|Hm] & <-)]; [by left | done |]. right. by exists m. }
    split; [lia|by auto].
  - constructor; [|exact Fc]. by repeat split.
Qed.

Lemma mirrors_keys (tree : list SerializedAXNode) (ns : list TextSnapshotNode) :
  Forall2 mirrors tree ns → nodeKey <$> ns = uniqueBackendId <$> tree.
Proof.
  intros HF. induction HF as [|a n tree ns Hm _ IH]; [done|].
  simpl. f_equal; [|exact IH]. destruct Hm as (_ & _ & Hl & Hb & _).
  unfold nodeKey, uniqueBackendId. by rewrite Hl, Hb.
Qed.

(** *** [createTextSnapshot] on a registered page *)

Lemma omap_set_set {K V} `{EqDecision K} (k : K) (v1 v2 : V) (l : list (K * V)) :
  omap_set k v2 (omap_set k v1 l) = omap_set k v2 l.
Proof.
  induction l as [|[k' v'] l IH]; simpl.
  - by destruct (decide (k = k)).
  - destruct (decide (k' = k)) as [->|Hne]; simpl.
    + by destruct (decide (k = k)).
    + destruct (decide (k' = k)); [done|]. by rewrite IH.
Qed.

Lemma createTextSnapshot_spec (verbose : bool) (devtoolsData : option DevToolsData)
    (page : Page) (rootNode : SerializedAXNode) (fetched : DevToolsData)
    (s : McpContext) (mp : McpPage) :
  omap_get page (mcpPages s) = Some mp →
  let sid := nextSnapshotId s in
  let r := assignIds sid rootNode
             (initialAssignState (uniqueBackendNodeIdToMcpId mp)) in
  ∃ t, createTextSnapshot verbose devtoolsData (Some page) (Some rootNode) fetched s
       = (Ok tt,
          set_mcpPages
            (omap_set page (set_snapshot (Some t) (collect r.2) mp) (mcpPages s))
            (set_nextSnapshotId (S sid) s))
       ∧ root t = r.1 ∧ idToNode t = as_idToNode r.2.
Proof.
  intros Hmp sid r.
  unfold createTextSnapshot, getMcpPage. munfold. rewrite Hmp.
  fold sid. change (assignIds sid rootNode _) with r.
  destruct r as [n a]. simpl.
  rewrite omap_set_set.
  destruct (cdpBackendNodeId (default fetched devtoolsData)) as [k|].
  - destruct (decide (k = 0)); eexists; (split; [reflexivity|by split]).
  - eexists; (split; [reflexivity|by split]).
Qed.

(** *** Option nodes *)

(** Refutation of C9 as stated. The captured option node exposes the value
    ["p"], and the snapshot node carries its name ["Pear"] as value: the
    exposed value is not kept. *)
Lemma option_value_overwritten_counterexample :
  let node := mkAX "option" (Some "Pear") (Some "p") (Some "L") (Some 9) None in
  ax_role node = "option"
  ∧ ax_value node = Some "p"
  ∧ node_value (assignIds 1 node (initialAssignState ∅)).1 = Some "Pear"
  ∧ node_value (assignIds 1 node (initialAssignState ∅)).1 ≠ ax_value node.
Proof. repeat split; evaluate. Qed.

(** C9, amended. After a capture, every node of the snapshot mirrors the
    captured node at the same position, and for a captured node with role
    [option]: when its accessible name is a non-empty string, the value of
    the snapshot node is that name, whether or not the tree exposes a value
    for the node; when the name is absent or empty, the value is what the
    tree exposes. Nodes with another role keep what the tree exposes. *)
Theorem option_value_taken_from_name (verbose : bool)
    (devtoolsData : option DevToolsData) (page : Page) (rootNode : SerializedAXNode)
    (fetched : DevToolsData) (s : McpContext) (mp : McpPage) :
  omap_get page (mcpPages s) = Some mp →
  ∃ t, getTextSnapshot
         (createTextSnapshot verbose devtoolsData (Some page) (Some rootNode) fetched s).2
         (Some page) = Some t
       ∧ Forall2
           (λ node n,
              mirrors node n
              ∧ (ax_role node = "option" →
                   (∀ name, ax_name node = Some name → name ≠ EmptyString →
                      node_value n = Some name)
                   ∧ (ax_name node = None ∨ ax_name node = Some EmptyString →
                      node_value n = ax_value node))
              ∧ (ax_role node ≠ "option" → node_value n = ax_value node))
           (flattenAX rootNode) (nodesOf (root t)).
Proof.
  intros Hmp.
  destruct (createTextSnapshot_spec verbose devtoolsData page rootNode fetched s mp Hmp)
    as (t & -> & Hroot & _).
  exists t. split.
  { cbn [snd]. unfold getTextSnapshot. cbn [mcpPages set_mcpPages].
    by rewrite omap_get_set_eq. }
  rewrite Hroot.
  destruct (assignIds_spec (nextSnapshotId s) rootNode
              (initialAssignState (uniqueBackendNodeIdToMcpId mp))) as [_ HF].
  eapply Forall2_impl; [exact HF|].
  intros node n Hm. split; [exact Hm|].
  destruct Hm as (_ & _ & _ & _ & Hv). rewrite Hv. unfold snapshotValue, truthy.
  split.
  - intros Hrole. destruct (decide (ax_role node = "option")); [|done]. split.
    + intros name -> Hne. by rewrite bool_decide_eq_false_2.
    + intros [->| ->]; [done|]. by rewrite bool_decide_eq_true_2.
  - intros Hrole. by destruct (decide (ax_role node = "option")).
Qed.

Lemma option_value_taken_from_name_witness :
  ∃ t, getTextSnapshot
         (createTextSnapshot false None (Some page0) (Some sampleTree)
            noDevToolsData session0).2 (Some page0) = Some t
       ∧ length (nodesOf (root t)) = 3.
Proof.
  destruct (option_value_taken_from_name false None page0 sampleTree noDevToolsData
              session0 (newMcpPage 1)) as (t & Ht & HF).
  - evaluate.
  - exists t. split; [exact Ht|].
    apply Forall2_length in HF. rewrite <- HF. reflexivity.
Defined.

(** *** Stable identifiers *)

(** C1. Stable identity. Two successive captures of a registered page,
    the second one started in a state [s'] in which the sticky map of the
    page is the one the first capture has left (in particular, right after
    the first capture): whenever a node of the first snapshot and a node of
    the second have the same unique backend key, they have the same
    identifier. The keys of a snapshot are those of the captured tree, node
    by node. *)
Theorem snapshot_ids_stable (page : Page) (s s' : McpContext)
    (verbose1 verbose2 : bool) (data1 data2 : option DevToolsData)
    (fetched1 fetched2 : DevToolsData) (tree1 tree2 : SerializedAXNode) :
  is_Some (omap_get page (mcpPages s)) →
  let s1 := (createTextSnapshot verbose1 data1 (Some page) (Some tree1) fetched1 s).2 in
  stickyMap s' page = stickyMap s1 page →
  let s2 := (createTextSnapshot verbose2 data2 (Some page) (Some tree2) fetched2 s').2 in
  ∃ t1 t2,
    getTextSnapshot s1 (Some page) = Some t1
    ∧ getTextSnapshot s2 (Some page) = Some t2
    ∧ nodeKey <$> nodesOf (root t1) = uniqueBackendId <$> flattenAX tree1
    ∧ nodeKey <$> nodesOf (root t2) = uniqueBackendId <$> flattenAX tree2
    ∧ ∀ n1 n2, n1 ∈ nodesOf (root t1) → n2 ∈ nodesOf (root t2) →
               nodeKey n1 = nodeKey n2 → node_id n1 = node_id n2.
Proof.
  intros [mp Hmp] s1 Hsticky s2.
  destruct (createTextSnapshot_spec verbose1 data1 page tree1 fetched1 s mp Hmp)
    as (t1 & E1 & Hroot1 & _).
  set (r1 := assignIds (nextSnapshotId s) tree1
               (initialAssignState (uniqueBackendNodeIdToMcpId mp))) in *.
  set (mp1 := set_snapshot (Some t1) (collect r1.2) mp) in *.
  assert (omap_get page (mcpPages s1) = Some mp1) as Hmp1.
  { subst s1. rewrite E1. cbn [snd mcpPages set_mcpPages]. apply omap_get_set_eq. }
  unfold stickyMap in Hsticky. rewrite Hmp1 in Hsticky.
  destruct (omap_get page (mcpPages s')) as [mp'|] eqn:Hmp'; [|discriminate].
  injection Hsticky as Hsticky. cbn in Hsticky.
  destruct (createTextSnapshot_spec verbose2 data2 page tree2 fetched2 s' mp' Hmp')
    as (t2 & E2 & Hroot2 & _).
  rewrite Hsticky in Hroot2.
  set (r2 := assignIds (nextSnapshotId s') tree2
               (initialAssignState (collect r1.2))) in *.
  destruct (assignIds_spec (nextSnapshotId s) tree1
              (initialAssignState (uniqueBackendNodeIdToMcpId mp)))
    as [(_ & K1 & S1 & _) F1].
  destruct (assignIds_spec (nextSnapshotId s') tree2
              (initialAssignState (collect r1.2)))
    as [(M2 & K2 & _) F2].
  fold r1 in K1, S1, F1. fold r2 in M2, K2, F2.
  exists t1, t2.
  split. { unfold getTextSnapshot. by rewrite Hmp1. }
  split. { subst s2. rewrite E2. unfold getTextSnapshot.
           cbn [snd mcpPages set_mcpPages]. by rewrite omap_get_set_eq. }
  rewrite Hroot1, Hroot2.
  split; [by apply mirrors_keys|]. split; [by apply mirrors_keys|].
  intros n1 n2 Hn1 Hn2 Hkey.
  assert (collect r1.2 !! nodeKey n1 = Some (node_id n1)) as Hc.
  { unfold collect. apply map_lookup_filter_Some. split; [by apply K1|].
    apply S1. right. by exists n1. }
  specialize (M2 (nodeKey n1) (node_id n1) Hc).
  specialize (K2 n2 Hn2). rewrite <- Hkey in K2. congruence.
Qed.

(** Two captures of [page0] in a row. *)
Lemma snapshot_ids_stable_witness :
  ∃ t1 t2,
    getTextSnapshot session0captured (Some page0) = Some t1
    ∧ getTextSnapshot
        (createTextSnapshot false None (Some page0) (Some sampleTree')
           noDevToolsData session0captured).2 (Some page0) = Some t2
    ∧ nodeKey <$> nodesOf (root t1) = ["L_7"; "L_8"; "L_9"]
    ∧ nodeKey <$> nodesOf (root t2) = ["L_7"; "L_10"; "L_8"].
Proof.
  destruct (snapshot_ids_stable page0 session0 session0captured
              false false None None
              noDevToolsData noDevToolsData sampleTree sampleTree')
    as (t1 & t2 & H1 & H2 & K1 & K2 & _).
  - exists (newMcpPage 1). evaluate.
  - reflexivity.
  - exists t1, t2. split; [exact H1|]. split; [exact H2|].
    rewrite K1, K2. split; evaluate.
Defined.

(** ** The sticky-map invariant of reachable sessions *)

Lemma keepsRecords_bind {A B} (m : M A) (k : A → M B) :
  keepsRecords m → (∀ a, keepsRecords (k a)) → keepsRecords (bind m k).
Proof.
  intros Hm Hk s. unfold bind. destruct (Hm s) as [H1 H2].
  destruct (m s) as [[a|e] s1]; simpl in *; [|done].
  destruct (Hk a s1) as [H3 H4]. split; congruence.
Qed.

Lemma keepsRecords_driverOnly {A} (m : M A) : driverOnly m → keepsRecords m.
Proof. intros H s. destruct (H s) as [b ->]. done. Qed.

Lemma keepsRecords_ret {A} (a : A) : keepsRecords (ret a).
Proof. done. Qed.

Lemma keepsRecords_throw {A} (e : McpError) : keepsRecords (throw (A := A) e).
Proof. done. Qed.

Lemma keepsRecords_get : keepsRecords get.
Proof. done. Qed.

Lemma keepsRecords_getPageById (pageId : nat) : keepsRecords (getPageById pageId).
Proof. intros s. unfold getPageById. by destruct (List.find _ _). Qed.

Lemma keepsRecords_updateSelectedPageTimeouts : keepsRecords updateSelectedPageTimeouts.
Proof. apply keepsRecords_driverOnly, driverOnly_updateSelectedPageTimeouts. Qed.

Create HintDb keeps.
#[local] Hint Resolve keepsRecords_ret keepsRecords_throw keepsRecords_get
  keepsRecords_bind keepsRecords_getPageById
  keepsRecords_updateSelectedPageTimeouts : keeps.
#[local] Hint Extern 1 (keepsRecords (modify _)) =>
  (intros ?; split; reflexivity) : keeps.
#[local] Hint Extern 2 (keepsRecords (if ?c then _ else _)) => destruct c : keeps.
#[local] Hint Extern 2 (keepsRecords (match ?c with Some _ => _ | None => _ end)) =>
  destruct c : keeps.

Lemma keepsRecords_getSelectedPage : keepsRecords getSelectedPage.
Proof. apply keepsRecords_driverOnly, driverOnly_getSelectedPage. Qed.

Lemma keepsRecords_getMcpPage (page : Page) : keepsRecords (getMcpPage page).
Proof. apply keepsRecords_driverOnly, driverOnly_getMcpPage. Qed.

#[local] Hint Resolve keepsRecords_getSelectedPage keepsRecords_getMcpPage : keeps.

Lemma keepsRecords_selectPage (page : Page) : keepsRecords (selectPage page).
Proof.
  unfold selectPage. apply keepsRecords_bind; [apply keepsRecords_get|].
  intros s. eauto 12 with keeps.
Qed.

Lemma keepsRecords_getAllPages : keepsRecords getAllPages.
Proof.
  intros s. unfold getAllPages. by destruct (discoverContexts _ _ _ _ _ _) as [[? ?] ?].
Qed.

Lemma keepsRecords_resolveElementHandle node uid :
  keepsRecords (resolveElementHandle node uid).
Proof. intros s. unfold resolveElementHandle. by destruct (_ !! _). Qed.

Lemma keepsRecords_getSelectedMcpPage : keepsRecords getSelectedMcpPage.
Proof. unfold getSelectedMcpPage. eauto with keeps. Qed.

#[local] Hint Resolve keepsRecords_selectPage keepsRecords_getAllPages
  keepsRecords_resolveElementHandle keepsRecords_getSelectedMcpPage : keeps.

Lemma keepsRecords_searchAllPages uid entries any :
  keepsRecords (searchAllPages uid entries any).
Proof.
  revert any. induction entries as [|[p mp] entries IH]; intros any; simpl.
  - destruct any; eauto with keeps.
  - destruct (textSnapshot mp) as [t|]; [|apply IH].
    destruct (idToNode t !! uid); [|apply IH].
    apply keepsRecords_bind; [apply keepsRecords_get|]. intros s.
    destruct (decide (_ ≠ _)).
    + destruct (focusedPagePerContext s !! browserContext p); eauto 8 with keeps.
    + destruct (decide (_ ≠ _)); eauto 8 with keeps.
Qed.

Lemma keepsRecords_getElementByUid uid page : keepsRecords (getElementByUid uid page).
Proof.
  unfold getElementByUid. destruct page as [page|].
  - apply keepsRecords_bind; [apply keepsRecords_get|]. intros s.
    destruct (omap_get page (mcpPages s)) as [mp|]; [|eauto with keeps].
    destruct (textSnapshot mp) as [t|]; [|eauto with keeps].
    destruct (idToNode t !! uid); eauto with keeps.
  - apply keepsRecords_bind; [apply keepsRecords_get|]. intros s.
    apply keepsRecords_searchAllPages.
Qed.

#[local] Hint Resolve keepsRecords_getElementByUid : keeps.

Lemma recordsFrom_refl (s : McpContext) : recordsFrom s s.
Proof. split; [done|]. intros page mp H. right. by exists page, mp. Qed.

Lemma recordsFrom_trans (s1 s2 s3 : McpContext) :
  recordsFrom s1 s2 → recordsFrom s2 s3 → recordsFrom s1 s3.
Proof.
  intros [H1 R1] [H2 R2]. split; [lia|].
  intros page mp3 Hin. destruct (R2 page mp3 Hin) as [?|(q & mp2 & Hin2 & E2)]; [by left|].
  rewrite E2. apply (R1 q mp2 Hin2).
Qed.

Lemma tame_keeps {A} (m : M A) : keepsRecords m → tame m.
Proof.
  intros H s. destruct (H s) as [H1 H2]. split; [lia|].
  intros page mp Hin. right. exists page, mp. by rewrite <- H1.
Qed.

Lemma tame_bind {A B} (m : M A) (k : A → M B) :
  tame m → (∀ a, tame (k a)) → tame (bind m k).
Proof.
  intros Hm Hk s. unfold bind. specialize (Hm s).
  destruct (m s) as [[a|e] s1]; simpl in *; [|done].
  eapply recordsFrom_trans; [exact Hm|apply Hk].
Qed.

Lemma elem_of_omap_set {K V} `{EqDecision K} (k k' : K) (v v' : V) (l : list (K * V)) :
  (k', v') ∈ omap_set k v l → (k', v') = (k, v) ∨ (k', v') ∈ l.
Proof.
  induction l as [|[k0 v0] l IH]; simpl.
  - intros ->%list_elem_of_singleton. by left.
  - destruct (decide (k0 = k)) as [->|Hne].
    + intros [->|H]%elem_of_cons; [by left|]. right. by right.
    + intros [->|H]%elem_of_cons; [right; by left|].
      destruct (IH H) as [?|?]; [by left|]. right. by right.
Qed.

Lemma omap_get_elem_of {K V} `{EqDecision K} (k : K) (v : V) (l : list (K * V)) :
  omap_get k l = Some v → (k, v) ∈ l.
Proof.
  induction l as [|[k0 v0] l IH]; simpl; [done|].
  destruct (decide (k0 = k)) as [->|Hne].
  - intros [= ->]. by left.
  - intros H. right. by apply IH.
Qed.

(** Replacing a record by one with the same sticky map, or adding one with
    an empty sticky map, and dropping records, are tame. *)
Lemma recordsFrom_set (s s' : McpContext) (page : Page) (mp' : McpPage) :
  mcpPages s' = omap_set page mp' (mcpPages s) →
  nextSnapshotId s' = nextSnapshotId s →
  (uniqueBackendNodeIdToMcpId mp' = ∅
   ∨ ∃ q mp, (q, mp) ∈ mcpPages s
             ∧ uniqueBackendNodeIdToMcpId mp' = uniqueBackendNodeIdToMcpId mp) →
  recordsFrom s s'.
Proof.
  intros E1 E2 H. split; [lia|]. intros q m Hin. rewrite E1 in Hin.
  apply elem_of_omap_set in Hin as [[= -> ->]|Hin]; [exact H|].
  right. by exists q, m.
Qed.

Lemma recordsFrom_filter (s : McpContext) (P : Page * McpPage → Prop)
    `{∀ e, Decision (P e)} :
  recordsFrom s (set_mcpPages (filter P (mcpPages s)) s).
Proof.
  split; [done|]. intros q m Hin. simpl in Hin.
  apply list_elem_of_filter in Hin as [_ Hin]. right. by exists q, m.
Qed.

Lemma tame_registerPage names page : tame (registerPage names page).
Proof.
  intros s. unfold registerPage.
  destruct (omap_get page (mcpPages s)) as [mp|] eqn:E; simpl.
  - eapply recordsFrom_set; [reflexivity..|]. right. exists page, mp.
    split; [by apply omap_get_elem_of|done].
  - eapply recordsFrom_set; [reflexivity..|]. by left.
Qed.

Lemma tame_forEach {A} (f : A → M unit) (l : list A) :
  (∀ a, tame (f a)) → tame (forEach f l).
Proof.
  intros Hf. induction l as [|a l IH]; simpl.
  - apply tame_keeps, keepsRecords_ret.
  - apply tame_bind; [apply Hf|]. intros _. apply IH.
Qed.

Lemma tame_createPagesSnapshot : tame createPagesSnapshot.
Proof.
  unfold createPagesSnapshot.
  apply tame_bind; [apply tame_keeps, keepsRecords_getAllPages|]. intros r.
  apply tame_bind; [apply tame_forEach, tame_registerPage|]. intros _.
  apply tame_bind.
  { intros s. unfold modify. simpl. apply recordsFrom_filter. }
  intros _. apply tame_keeps.
  apply keepsRecords_bind; [eauto with keeps|]. intros _.
  apply keepsRecords_bind; [eauto with keeps|]. intros _.
  apply keepsRecords_bind; [apply keepsRecords_get|]. intros s.
  apply keepsRecords_bind.
  { destruct (pages s); [eauto with keeps|].
    destruct (selectedPage s); [|eauto with keeps].
    case_decide; eauto with keeps. }
  intros _. unfold detectOpenDevToolsWindows. eauto 10 with keeps.
Qed.

Lemma tame_newPage background name : tame (newPage background name).
Proof.
  unfold newPage. apply tame_bind.
  { apply tame_keeps. intros s. munfold. destruct name as [name|]; [|done].
    by destruct (omap_get name (isolatedContexts s)). }
  intros page. apply tame_bind; [apply tame_createPagesSnapshot|]. intros _.
  apply tame_keeps. eauto with keeps.
Qed.

Lemma tame_closePage pageId : tame (closePage pageId).
Proof.
  unfold closePage. apply tame_bind; [apply tame_keeps, keepsRecords_get|].
  intros s0. case_decide; [apply tame_keeps, keepsRecords_throw|].
  apply tame_bind; [apply tame_keeps, keepsRecords_getPageById|]. intros page.
  apply tame_bind.
  { intros s. unfold modify. simpl. destruct (omap_get page (mcpPages s)).
    - unfold omap_delete. apply recordsFrom_filter.
    - apply recordsFrom_refl. }
  intros _. apply tame_keeps.
  apply keepsRecords_bind.
  { intros s. unfold modify. simpl. by case_decide. }
  intros _. eauto with keeps.
Qed.

Lemma tame_emulate options target : tame (emulate options target).
Proof.
  intros s.
  destruct (emulate_unfold options target s)
    as [[e ->]|(page & mp & e' & l & _ & Hmp & ->)]; [apply recordsFrom_refl|].
  eapply recordsFrom_trans.
  - eapply (recordsFrom_set s
              (set_mcpPages (omap_set page (set_emulationSettings e' mp) (mcpPages s))
                 (set_browser (appendLog (browser s) l) s)));
      [reflexivity..|].
    right. exists page, mp. split; [by apply omap_get_elem_of|done].
  - destruct (timeoutsNeedUpdate options).
    + apply (tame_keeps _ keepsRecords_updateSelectedPageTimeouts).
    + apply recordsFrom_refl.
Qed.

Lemma tame_restoreEmulation target : tame (restoreEmulation target).
Proof.
  unfold restoreEmulation. apply tame_bind.
  { apply tame_keeps. destruct target; eauto with keeps. }
  intros page. apply tame_bind; [apply tame_keeps, keepsRecords_getMcpPage|].
  intros mp. apply tame_emulate.
Qed.

Lemma mintedBefore_later (sid c sid' : nat) (m m' : gmap string string) :
  (sid < sid')%nat → m' ⊆ m → mintedBefore sid c m → mintedBefore sid' 0 m'.
Proof.
  intros Hlt Hsub [Hm Hinj]. split.
  - intros k v Hk. eapply lookup_weaken in Hk; [|exact Hsub].
    destruct (Hm k v Hk) as (s0 & c0 & -> & H). exists s0, c0. split; [done|]. lia.
  - intros k1 k2 v H1 H2. apply (Hinj k1 k2 v); by eapply lookup_weaken.
Qed.

Lemma mintedBefore_weaken (sid sid' : nat) (m : gmap string string) :
  (sid ≤ sid')%nat → mintedBefore sid 0 m → mintedBefore sid' 0 m.
Proof.
  intros Hle [Hm Hinj]. split; [|done].
  intros k v Hk. destruct (Hm k v Hk) as (s0 & c0 & -> & H).
  exists s0, c0. split; [done|]. lia.
Qed.

Lemma mintedBefore_empty (sid : nat) : mintedBefore sid 0 ∅.
Proof. split; intros *; by rewrite lookup_empty. Qed.

Lemma stickyInv_recordsFrom (s s' : McpContext) :
  recordsFrom s s' → stickyInv s → stickyInv s'.
Proof.
  intros [Hle Hrec] Hinv page mp' Hin.
  destruct (Hrec page mp' Hin) as [->|(q & mp & Hq & ->)].
  - apply mintedBefore_empty.
  - eapply mintedBefore_weaken; [exact Hle|]. by eapply Hinv.
Qed.

Lemma createTextSnapshot_unselected (verbose : bool) (devtoolsData : option DevToolsData)
    (rootNode : option SerializedAXNode) (fetched : DevToolsData) (s : McpContext) :
  createTextSnapshot verbose devtoolsData None rootNode fetched s
  = match getSelectedPage s with
    | (Ok page, _) =>
        createTextSnapshot verbose devtoolsData (Some page) rootNode fetched s
    | (Throw e, _) => (Throw e, s)
    end.
Proof.
  unfold createTextSnapshot. unfold bind at 1 3.
  pose proof (driverOnly_getSelectedPage s) as [b Hb].
  unfold getSelectedPage in *. destruct (selectedPage s) as [p|]; [|done].
  by destruct (isClosed (browser s) p).
Qed.

Lemma stickyInv_createTextSnapshot verbose devtoolsData targetPage rootNode fetched s :
  stickyInv s →
  stickyInv (createTextSnapshot verbose devtoolsData targetPage rootNode fetched s).2.
Proof.
  intros Hinv.
  assert (∀ page, stickyInv
            (createTextSnapshot verbose devtoolsData (Some page) rootNode fetched s).2)
    as Hpage.
  { intros page. destruct rootNode as [rootNode|].
    - destruct (omap_get page (mcpPages s)) as [mp|] eqn:Hmp.
      + destruct (createTextSnapshot_spec verbose devtoolsData page rootNode fetched
                    s mp Hmp) as (t & -> & _).
        intros q mq Hin. cbn [snd mcpPages set_mcpPages nextSnapshotId
                              set_nextSnapshotId] in *.
        apply elem_of_omap_set in Hin as [[= -> ->]|Hin].
        * destruct (assignIds_spec (nextSnapshotId s) rootNode
                      (initialAssignState (uniqueBackendNodeIdToMcpId mp)))
            as [(_ & _ & _ & _ & _ & B) _].
          eapply mintedBefore_later; [| |apply B].
          -- lia.
          -- apply map_filter_subseteq.
          -- apply (Hinv page mp). by apply omap_get_elem_of.
        * eapply mintedBefore_weaken; [|by eapply Hinv]. lia.
      + unfold createTextSnapshot, getMcpPage. munfold. by rewrite Hmp.
    - unfold createTextSnapshot, getMcpPage. munfold.
      by destruct (omap_get page (mcpPages s)). }
  destruct targetPage as [page|]; [apply Hpage|].
  rewrite createTextSnapshot_unselected.
  destruct (getSelectedPage s) as [[page|e] s0]; [apply Hpage|exact Hinv].
Qed.

(** Every reachable session satisfies the sticky-map invariant. *)
Lemma reachable_stickyInv (s : McpContext) : reachable s → stickyInv s.
Proof.
  induction 1 as [b o|c s _ IH].
  - eapply stickyInv_recordsFrom; [apply tame_createPagesSnapshot|].
    intros page mp Hin. by apply elem_of_nil in Hin.
  - destruct c; simpl.
    + eapply stickyInv_recordsFrom; [apply tame_newPage|exact IH].
    + eapply stickyInv_recordsFrom; [apply tame_closePage|exact IH].
    + eapply stickyInv_recordsFrom; [apply tame_keeps, keepsRecords_selectPage|exact IH].
    + exact IH.
    + eapply stickyInv_recordsFrom; [apply tame_emulate|exact IH].
    + eapply stickyInv_recordsFrom; [apply tame_restoreEmulation|exact IH].
    + eapply stickyInv_recordsFrom;
        [apply tame_keeps, keepsRecords_getElementByUid|exact IH].
    + eapply stickyInv_recordsFrom; [apply tame_createPagesSnapshot|exact IH].
    + by apply stickyInv_createTextSnapshot.
    + exact IH.
Qed.

(** *** Garbage collection *)

(** C2. Garbage collection. Two successive captures of a registered page
    in a reachable session, the second one started in a reachable state
    [s'] in which the sticky map of the page is the one the first capture
    has left (in particular, right after the first capture): if the unique
    backend key of a node of the first snapshot does not occur in the second
    captured tree, then after the second capture the identifier the node
    had is not in the id-to-node index of the page's snapshot, so it does
    not resolve on the page, and the sticky map of the page has no entry
    for the key. *)
Theorem vanished_ids_are_collected (page : Page) (s s' : McpContext)
    (verbose1 verbose2 : bool) (data1 data2 : option DevToolsData)
    (fetched1 fetched2 : DevToolsData) (tree1 tree2 : SerializedAXNode) :
  is_Some (omap_get page (mcpPages s)) →
  let s1 := (createTextSnapshot verbose1 data1 (Some page) (Some tree1) fetched1 s).2 in
  reachable s' →
  stickyMap s' page = stickyMap s1 page →
  let s2 := (createTextSnapshot verbose2 data2 (Some page) (Some tree2) fetched2 s').2 in
  ∃ t1 t2 mp2,
    getTextSnapshot s1 (Some page) = Some t1
    ∧ omap_get page (mcpPages s2) = Some mp2
    ∧ textSnapshot mp2 = Some t2
    ∧ nodeKey <$> nodesOf (root t1) = uniqueBackendId <$> flattenAX tree1
    ∧ ∀ n1, n1 ∈ nodesOf (root t1) →
            nodeKey n1 ∉ uniqueBackendId <$> flattenAX tree2 →
            idToNode t2 !! node_id n1 = None
            ∧ getAXNodeByUid mp2 (node_id n1) = None
            ∧ uniqueBackendNodeIdToMcpId mp2 !! nodeKey n1 = None.
Proof.
  intros [mp Hmp] s1 Hreach Hsticky s2.
  destruct (createTextSnapshot_spec verbose1 data1 page tree1 fetched1 s mp Hmp)
    as (t1 & E1 & Hroot1 & _).
  set (r1 := assignIds (nextSnapshotId s) tree1
               (initialAssignState (uniqueBackendNodeIdToMcpId mp))) in *.
  set (mp1 := set_snapshot (Some t1) (collect r1.2) mp) in *.
  assert (omap_get page (mcpPages s1) = Some mp1) as Hmp1.
  { subst s1. rewrite E1. cbn [snd mcpPages set_mcpPages]. apply omap_get_set_eq. }
  unfold stickyMap in Hsticky. rewrite Hmp1 in Hsticky.
  destruct (omap_get page (mcpPages s')) as [mp'|] eqn:Hmp'; [|discriminate].
  injection Hsticky as Hsticky. cbn in Hsticky.
  destruct (createTextSnapshot_spec verbose2 data2 page tree2 fetched2 s' mp' Hmp')
    as (t2 & E2 & Hroot2 & Hidx2).
  pose proof (reachable_stickyInv s' Hreach page mp'
                (omap_get_elem_of _ _ _ Hmp')) as Hinv.
  rewrite Hsticky in Hroot2, Hidx2, E2, Hinv.
  set (r2 := assignIds (nextSnapshotId s') tree2
               (initialAssignState (collect r1.2))) in *.
  set (mp2 := set_snapshot (Some t2) (collect r2.2) mp') in *.
  destruct (assignIds_spec (nextSnapshotId s) tree1
              (initialAssignState (uniqueBackendNodeIdToMcpId mp)))
    as [(_ & K1 & S1 & _) F1].
  destruct (assignIds_spec (nextSnapshotId s') tree2
              (initialAssignState (collect r1.2)))
    as [(M2 & K2 & S2 & I2 & _ & B2) F2].
  fold r1 in K1, S1, F1. fold r2 in M2, K2, S2, I2, B2, F2.
  pose proof (mirrors_keys _ _ F2) as Hkeys2.
  destruct (B2 Hinv) as [_ Hinj].
  exists t1, t2, mp2.
  split. { unfold getTextSnapshot. by rewrite Hmp1. }
  split. { subst s2. rewrite E2. cbn [snd mcpPages set_mcpPages].
           apply omap_get_set_eq. }
  split; [done|].
  rewrite Hroot1. split; [by apply mirrors_keys|].
  intros n1 Hn1 Habsent.
  assert (∀ m, m ∈ nodesOf r2.1 → nodeKey m ≠ nodeKey n1) as Hfresh.
  { intros m Hm E. apply Habsent. rewrite <- Hkeys2, <- E.
    by apply list_elem_of_fmap_2. }
  assert (idToNode t2 !! node_id n1 = None) as Hgone.
  { rewrite Hidx2. apply eq_None_not_Some. intros Hsome.
    apply I2 in Hsome as [Hsome|(m & Hm & Eid)].
    { cbn in Hsome. rewrite lookup_empty in Hsome. by destruct Hsome. }
    assert (collect r1.2 !! nodeKey n1 = Some (node_id n1)) as Hc.
    { unfold collect. apply map_lookup_filter_Some. split; [by apply K1|].
      apply S1. right. by exists n1. }
    specialize (M2 (nodeKey n1) (node_id n1) Hc).
    specialize (K2 m Hm). rewrite Eid in K2.
    apply (Hfresh m Hm). by apply (Hinj _ _ (node_id n1)). }
  split; [exact Hgone|]. split.
  { unfold getAXNodeByUid. by cbn. }
  cbn. unfold collect. apply map_lookup_filter_None. right.
  intros v _ Hseen. cbn in Hseen. apply S2 in Hseen as [Hseen|(m & Hm & E)].
  - cbn in Hseen. by apply not_elem_of_empty in Hseen.
  - by apply (Hfresh m Hm).
Qed.

(** Two captures of [page0] in a row; the option with key [L_9] has
    vanished from the second tree. *)
Lemma vanished_ids_are_collected_witness :
  ∃ t1 t2 mp2,
    getTextSnapshot session0captured (Some page0) = Some t1
    ∧ omap_get page0
        (mcpPages
           (createTextSnapshot false None (Some page0) (Some sampleTree')
              noDevToolsData session0captured).2) = Some mp2
    ∧ textSnapshot mp2 = Some t2
    ∧ nodeKey <$> nodesOf (root t1) = ["L_7"; "L_8"; "L_9"].
Proof.
  destruct (vanished_ids_are_collected page0 session0 session0captured
              false false None None noDevToolsData noDevToolsData
              sampleTree sampleTree')
    as (t1 & t2 & mp2 & H1 & H2 & H3 & K1 & _).
  - exists (newMcpPage 1). evaluate.
  - exact (reachable_run
             (CallCreateTextSnapshot false None (Some page0) (Some sampleTree)
                noDevToolsData)
             session0 (reachable_from sampleBrowser sampleOptions)).
  - reflexivity.
  - exists t1, t2, mp2. split; [exact H1|]. split; [exact H2|]. split; [exact H3|].
    rewrite K1. evaluate.
Defined.

(** ** Page creation and the focus signal *)

Lemma hoareOk_bind {A B} (P : McpContext → Prop) (R : A → McpContext → Prop)
    (Q : B → McpContext → Prop) (m : M A) (k : A → M B) :
  hoareOk P m R → (∀ a, hoareOk (R a) (k a) Q) → hoareOk P (bind m k) Q.
Proof.
  intros Hm Hk s b s' HP. unfold bind.
  destruct (m s) as [[a|e] s1] eqn:E; [|done].
  intros Hk'. eapply Hk; [|exact Hk']. by eapply Hm.
Qed.

Lemma hoareOk_keepsFocus {A} (P : McpContext → Prop) (m : M A) :
  keepsFocus m →
  (∀ s s', browser s' = browser s →
           focusedPagePerContext s' = focusedPagePerContext s → P s → P s') →
  hoareOk P m (λ _, P).
Proof.
  intros Hm HP s a s' Hs E. destruct (Hm s) as [H1 H2]. rewrite E in H1, H2.
  by eapply HP.
Qed.

Lemma keepsFocus_bind {A B} (m : M A) (k : A → M B) :
  keepsFocus m → (∀ a, keepsFocus (k a)) → keepsFocus (bind m k).
Proof.
  intros Hm Hk s. unfold bind. destruct (Hm s) as [H1 H2].
  destruct (m s) as [[a|e] s1]; simpl in *; [|done].
  destruct (Hk a s1) as [H3 H4]. split; congruence.
Qed.

Lemma keepsFocus_ret {A} (a : A) : keepsFocus (ret a).
Proof. done. Qed.

Lemma keepsFocus_getAllPages : keepsFocus getAllPages.
Proof.
  intros s. unfold getAllPages. by destruct (discoverContexts _ _ _ _ _ _) as [[? ?] ?].
Qed.

Lemma keepsFocus_registerPage names page : keepsFocus (registerPage names page).
Proof. intros s. unfold registerPage. by destruct (omap_get page (mcpPages s)). Qed.

Lemma keepsFocus_forEach {A} (f : A → M unit) (l : list A) :
  (∀ a, keepsFocus (f a)) → keepsFocus (forEach f l).
Proof.
  intros Hf. induction l as [|a l IH]; simpl; [done|].
  apply keepsFocus_bind; [apply Hf|]. intros _. apply IH.
Qed.

Lemma getAllPages_result (s s' : McpContext) (r : list Page * gmap Page string) :
  getAllPages s = (Ok r, s') → r.1 = b_pages (browser s).
Proof.
  unfold getAllPages. destruct (discoverContexts _ _ _ _ _ _) as [[? ?] ?].
  by intros [= <- _].
Qed.

(** *** Driver states that agree on the focus flags *)

Lemma sameFlags_trans (b1 b2 b3 : Browser) :
  sameFlags b1 b2 → sameFlags b2 b3 → sameFlags b1 b3.
Proof.
  intros (D1 & P1 & G1 & F1) (D2 & P2 & G2 & F2).
  split; [congruence|]. split; [congruence|]. split; [congruence|].
  intros p. destruct (F1 p), (F2 p). split; congruence.
Qed.

Lemma sameFlags_updatePage (b : Browser) (p : Page) (f : PageState → PageState) :
  (∀ st, ps_closed (f st) = ps_closed st
         ∧ ps_focusEmulation (f st) = ps_focusEmulation st) →
  sameFlags b (updatePage b p f).
Proof.
  intros Hf. split; [done|]. split; [done|]. split; [done|]. intros q.
  unfold isClosed. destruct (decide (p = q)) as [->|Hne].
  - rewrite pageState_updatePage_eq. apply Hf.
  - by rewrite pageState_updatePage_ne.
Qed.

Lemma updateSelectedPageTimeouts_flags (s s' : McpContext) :
  updateSelectedPageTimeouts s = (Ok tt, s') →
  ∃ b, s' = set_browser b s ∧ sameFlags (browser s) b.
Proof.
  intros (sel & tp & mp & _ & _ & _ & ->)%updateSelectedPageTimeouts_ok.
  eexists. split; [reflexivity|].
  eapply sameFlags_trans; apply sameFlags_updatePage; by intros st.
Qed.

Lemma emulateFocusedPage_flags (b : Browser) (p q : Page) (v : bool) :
  b_defaultContext (emulateFocusedPage b p v) = b_defaultContext b
  ∧ b_pages (emulateFocusedPage b p v) = b_pages b
  ∧ b_foreground (emulateFocusedPage b p v) = b_foreground b
  ∧ isClosed (emulateFocusedPage b p v) q = isClosed b q
  ∧ ps_focusEmulation (pageState (emulateFocusedPage b p v) q)
    = if decide (p = q)
      then if isClosed b p then ps_focusEmulation (pageState b q) else v
      else ps_focusEmulation (pageState b q).
Proof.
  unfold emulateFocusedPage. destruct (isClosed b p) eqn:C.
  - repeat split. by case_decide.
  - split; [done|]. split; [done|]. split; [done|]. unfold isClosed.
    destruct (decide (p = q)) as [->|Hne].
    + by rewrite pageState_updatePage_eq.
    + by rewrite pageState_updatePage_ne.
Qed.

(** The state [selectPage] leaves behind when it returns. *)
Lemma selectPage_ok (newPage : Page) (s s' : McpContext) :
  selectPage newPage s = (Ok tt, s') →
  let b1 :=
    match focusedPagePerContext s !! browserContext newPage with
    | Some old =>
        if decide (old ≠ newPage)
        then emulateFocusedPage (browser s) old false
        else browser s
    | None => browser s
    end in
  ∃ b2, sameFlags b1 b2
        ∧ s' = set_browser (emulateFocusedPage b2 newPage true)
                 (set_selectedPage (Some newPage)
                    (set_focusedPagePerContext
                       (<[browserContext newPage := newPage]> (focusedPagePerContext s))
                       s)).
Proof.
  unfold selectPage. unfold bind at 1. unfold get. cbv zeta.
  unfold bind at 1.
  set (step := match focusedPagePerContext s !! browserContext newPage with
               | Some old => _ | None => _ end).
  set (b1 := match focusedPagePerContext s !! browserContext newPage with
             | Some old => if decide (old ≠ newPage) then _ else _
             | None => _ end).
  assert (step s = (Ok tt, set_browser b1 s)) as ->.
  { subst step b1. destruct (focusedPagePerContext s !! browserContext newPage)
      as [old|]; [|by rewrite set_browser_id].
    destruct (decide (old ≠ newPage)); [|by rewrite set_browser_id].
    destruct (isClosed (browser s) old) eqn:C; [|done].
    unfold emulateFocusedPage. rewrite C. by rewrite set_browser_id. }
  unfold bind at 1. unfold modify at 1. unfold bind at 1. unfold modify at 1.
  unfold bind at 1.
  destruct (updateSelectedPageTimeouts _) as [[[]|e] s2] eqn:E; [|done].
  apply updateSelectedPageTimeouts_flags in E as (b2 & -> & Hb2).
  unfold modify. intros [= <-]. exists b2. split; [exact Hb2|reflexivity].
Qed.

Lemma sameFlags_shape (b b' : Browser) : sameFlags b b' → sameShape b b'.
Proof. intros (D & P & G & F). repeat split; try done. apply F. Qed.

Lemma sameShape_refl (b : Browser) : sameShape b b.
Proof. by repeat split. Qed.

Lemma sameShape_trans (b1 b2 b3 : Browser) :
  sameShape b1 b2 → sameShape b2 b3 → sameShape b1 b3.
Proof.
  intros (D1 & P1 & G1 & F1) (D2 & P2 & G2 & F2).
  split; [congruence|]. split; [congruence|]. split; [congruence|].
  intros p. by rewrite F2, F1.
Qed.

Lemma sameShape_emulateFocusedPage (b : Browser) (p : Page) (v : bool) :
  sameShape b (emulateFocusedPage b p v).
Proof.
  split; [apply (emulateFocusedPage_flags b p p v)|].
  split; [apply (emulateFocusedPage_flags b p p v)|].
  split; [apply (emulateFocusedPage_flags b p p v)|].
  intros q. apply (emulateFocusedPage_flags b p q v).
Qed.

Lemma selectPage_shape (p : Page) (s s' : McpContext) :
  selectPage p s = (Ok tt, s') → sameShape (browser s) (browser s').
Proof.
  intros (b2 & Hb2 & ->)%selectPage_ok. cbn [browser set_browser].
  eapply sameShape_trans; [|apply sameShape_emulateFocusedPage].
  eapply sameShape_trans; [|apply sameFlags_shape, Hb2].
  destruct (focusedPagePerContext s !! browserContext p) as [old|];
    [|apply sameShape_refl].
  destruct (decide (old ≠ p)); [|apply sameShape_refl].
  apply sameShape_emulateFocusedPage.
Qed.

(** The focus flag of [F] after [selectPage p] has returned. *)
Lemma selectPage_flag (p F : Page) (s s' : McpContext) :
  selectPage p s = (Ok tt, s') →
  isClosed (browser s) F = false →
  ps_focusEmulation (pageState (browser s') F)
  = if decide (p = F) then negb (isClosed (browser s) p)
    else if decide (focusedPagePerContext s !! browserContext p = Some F) then false
    else ps_focusEmulation (pageState (browser s) F).
Proof.
  intros (b2 & (_ & _ & _ & Hb2) & ->)%selectPage_ok HF. cbn [browser set_browser].
  destruct (emulateFocusedPage_flags b2 p F true) as (_ & _ & _ & _ & ->).
  destruct (Hb2 F) as [_ ->]. destruct (Hb2 p) as [-> _].
  destruct (focusedPagePerContext s !! browserContext p) as [old|] eqn:Hold.
  - destruct (decide (old ≠ p)) as [Hne|Heq].
    + destruct (emulateFocusedPage_flags (browser s) old F false)
        as (_ & _ & _ & _ & ->).
      destruct (emulateFocusedPage_flags (browser s) old p false)
        as (_ & _ & _ & -> & _).
      destruct (decide (p = F)) as [->|HpF].
      * rewrite HF. by destruct (decide (old = F)).
      * destruct (decide (old = F)) as [->|HoF].
        -- rewrite HF. by rewrite decide_True.
        -- rewrite decide_False; [done|congruence].
    + apply dec_stable in Heq as ->.
      destruct (decide (p = F)) as [->|HpF].
      * by rewrite HF.
      * rewrite decide_False; [done|congruence].
  - destruct (decide (p = F)) as [->|HpF]; [by rewrite HF|].
    by rewrite decide_False.
Qed.

Lemma selectPage_defocusPending (dflt : BrowserContext) (F p : Page) :
  browserContext F = dflt →
  hoareOk (defocusPending dflt F) (selectPage p) (λ _, defocusPending dflt F).
Proof.
  intros HctxF s [] s' (Hd & HF & X & HX & Hflag) Hsel.
  pose proof (selectPage_shape p s s' Hsel) as (Hd' & _ & _ & Hclosed).
  pose proof (selectPage_flag p F s s' Hsel HF) as Hflag'.
  destruct (selectPage_focusMap s p) as [Hmap _]. rewrite Hsel in Hmap.
  cbn [snd] in Hmap.
  split; [congruence|]. split; [by rewrite Hclosed|].
  rewrite Hmap. destruct (decide (browserContext p = dflt)) as [Hp|Hp].
  - exists p. rewrite <- Hp at 1. rewrite lookup_insert_eq. split; [done|].
    destruct (decide (p = F)) as [->|HpF]; [by left|]. right.
    rewrite Hflag'. rewrite Hp, HX.
    destruct Hflag as [->|Hflag]; [by rewrite decide_True|].
    destruct (decide (Some X = Some F)); [done|exact Hflag].
  - exists X. rewrite lookup_insert_ne by done. split; [done|].
    destruct Hflag as [->|Hflag]; [by left|]. right.
    rewrite Hflag'. rewrite decide_False by congruence.
    destruct (decide (_ = Some F)); [done|exact Hflag].
Qed.

Lemma hoareOk_modify (P Q : McpContext → Prop) (f : McpContext → McpContext) :
  (∀ s, P s → Q (f s)) → hoareOk P (modify f) (λ _, Q).
Proof. intros H s [] s' Hs [= <-]. by apply H. Qed.

Lemma hoareOk_get (P : McpContext → Prop) :
  hoareOk P get (λ a s, a = s ∧ P s).
Proof. by intros s a s' Hs [= <- <-]. Qed.

Lemma keepsFocus_detectOpenDevToolsWindows : keepsFocus detectOpenDevToolsWindows.
Proof.
  unfold detectOpenDevToolsWindows.
  apply keepsFocus_bind; [apply keepsFocus_getAllPages|]. intros _. apply keepsFocus_ret.
Qed.

(** What the registry refresh inside [newPage] maintains. *)
Lemma createPagesSnapshot_defocusPending (dflt : BrowserContext) (F : Page)
    (b0 : Browser) :
  browserContext F = dflt →
  hoareOk
    (λ s, sameShape b0 (browser s)
          ∧ b_defaultContext (browser s) = dflt
          ∧ isClosed (browser s) F = false
          ∧ focusedPagePerContext s !! dflt = Some F
          ∧ F ∈ b_pages (browser s))
    createPagesSnapshot
    (λ _ s, sameShape b0 (browser s) ∧ defocusPending dflt F s).
Proof.
  intros HctxF. unfold createPagesSnapshot.
  set (P := λ s, sameShape b0 (browser s)
                 ∧ b_defaultContext (browser s) = dflt
                 ∧ isClosed (browser s) F = false
                 ∧ focusedPagePerContext s !! dflt = Some F
                 ∧ F ∈ b_pages (browser s)).
  set (Q := λ s, sameShape b0 (browser s) ∧ defocusPending dflt F s).
  assert (∀ s s', browser s' = browser s →
            focusedPagePerContext s' = focusedPagePerContext s → Q s → Q s') as HQ.
  { intros s s' Hb Hf. unfold Q, defocusPending. by rewrite Hb, Hf. }
  eapply hoareOk_bind with (R := λ r s, P s ∧ r.1 = b_pages (browser s)).
  { intros s r s' Hs E. pose proof (getAllPages_result s s' r E) as Hr.
    destruct (keepsFocus_getAllPages s) as [Hb Hf]. rewrite E in Hb, Hf.
    cbn [snd] in Hb, Hf. unfold P. by rewrite Hb, Hf. }
  intros r.
  eapply hoareOk_bind with (R := λ _ s, P s ∧ r.1 = b_pages (browser s)).
  { apply hoareOk_keepsFocus; [apply keepsFocus_forEach, keepsFocus_registerPage|].
    intros s s' Hb Hf. unfold P. by rewrite Hb, Hf. }
  intros _.
  eapply hoareOk_bind with (R := λ _ s, P s ∧ r.1 = b_pages (browser s)).
  { by apply hoareOk_modify. }
  intros _.
  eapply hoareOk_bind with (R := λ _, Q).
  { apply hoareOk_modify. intros s [(Hshape & Hd & HF & Hfocus & Hlive) Hr].
    split; [exact Hshape|]. split; [exact Hd|]. split; [exact HF|].
    exists F. split; [|by left]. cbn.
    apply map_lookup_filter_Some. split; [exact Hfocus|]. cbn. by rewrite Hr. }
  intros _.
  eapply hoareOk_bind with (R := λ _, Q).
  { apply hoareOk_modify. intros s Hs. by eapply HQ. }
  intros _.
  eapply hoareOk_bind; [apply hoareOk_get|]. intros s0.
  eapply hoareOk_bind with (R := λ _, Q).
  { assert (∀ first, hoareOk (λ s, s0 = s ∧ Q s) (selectPage first) (λ _, Q)) as Hsel.
    { intros first s [] s' [_ [Hshape Hpend]] E. split.
      - eapply sameShape_trans; [exact Hshape|by eapply selectPage_shape].
      - by eapply (selectPage_defocusPending dflt F first HctxF s tt s'). }
    assert (hoareOk (λ s, s0 = s ∧ Q s) (ret tt) (λ _, Q)) as Hret.
    { by intros s [] s' [_ Hs] [= <-]. }
    destruct (pages s0) as [|first ?]; [exact Hret|].
    destruct (selectedPage s0); [|apply Hsel].
    case_decide; [exact Hret|apply Hsel]. }
  intros _.
  eapply hoareOk_bind with (R := λ _, Q).
  { apply hoareOk_keepsFocus; [apply keepsFocus_detectOpenDevToolsWindows|exact HQ]. }
  intros _.
  eapply hoareOk_bind; [apply hoareOk_get|]. intros s1.
  by intros s a s' [_ Hs] [= <- <-].
Qed.

Lemma newPage_default_unfold (background : option bool) (s : McpContext) :
  newPage background None s =
  let r := createDriverPage (browser s) (b_defaultContext (browser s))
             (default false background) in
  match createPagesSnapshot (set_browser r.2 s) with
  | (Ok _, s1) =>
      match selectPage r.1 s1 with
      | (Ok _, s2) => (Ok r.1, s2)
      | (Throw e, s2) => (Throw e, s2)
      end
  | (Throw e, s1) => (Throw e, s1)
  end.
Proof. reflexivity. Qed.

(** Refutation of C8 as stated. In [session0] the page [page0] is the
    focused page of the default context and its focus emulation is on.
    Creating a page in the background returns the new page [page1], and
    afterwards the focus emulation of [page0] is off: [selectPage] has sent
    it the defocus signal. *)
Lemma newPage_background_defocuses_counterexample :
  focusedPagePerContext session0 !! b_defaultContext (browser session0) = Some page0
  ∧ ps_focusEmulation (pageState (browser session0) page0) = true
  ∧ (newPage (Some true) None session0).1 = Ok page1
  ∧ ps_focusEmulation
      (pageState (browser (newPage (Some true) None session0).2) page0) = false.
Proof. repeat split; evaluate. Qed.

(** C8, amended. Let [F] be the focused page of the default context, live
    and open. When [newPage] with [background = true] and no isolated
    context returns, the new page belongs to the default context, it is
    the selected page and the focus-map entry of the default context, and
    its focus emulation is on; the background flag has only reached the
    driver, whose foreground page is the one it was; and [F] has been
    sent the defocus signal like on any other selection in its context:
    its focus emulation is off. *)
Theorem newPage_background_default_context (s s' : McpContext) (F page : Page) :
  freshHandles (browser s) →
  browserContext F = b_defaultContext (browser s) →
  focusedPagePerContext s !! b_defaultContext (browser s) = Some F →
  F ∈ b_pages (browser s) →
  isClosed (browser s) F = false →
  newPage (Some true) None s = (Ok page, s') →
  browserContext page = b_defaultContext (browser s)
  ∧ page ≠ F
  ∧ selectedPage s' = Some page
  ∧ focusedPagePerContext s' !! b_defaultContext (browser s) = Some page
  ∧ ps_focusEmulation (pageState (browser s') page) = true
  ∧ ps_focusEmulation (pageState (browser s') F) = false
  ∧ b_foreground (browser s') = b_foreground (browser s).
Proof.
  intros Hfresh HctxF Hfocus Hlive Hopen.
  set (dflt := b_defaultContext (browser s)) in *.
  set (N := mkPage (b_next (browser s)) dflt).
  set (b1 := (createDriverPage (browser s) dflt true).2).
  assert (N ≠ F) as HNF.
  { intros <-. apply Hfresh in Hlive. simpl in Hlive. lia. }
  assert (∀ p, p ≠ N → pageState b1 p = pageState (browser s) p) as Hstate.
  { intros p Hp. unfold pageState, b1. simpl. by rewrite lookup_insert_ne. }
  assert (isClosed b1 N = false) as HopenN.
  { unfold isClosed, pageState, b1. simpl. by rewrite lookup_insert_eq. }
  rewrite (newPage_default_unfold (Some true) s).
  change (createDriverPage (browser s) (b_defaultContext (browser s))
            (default false (Some true))) with (N, b1).
  cbn [fst snd].
  destruct (createPagesSnapshot (set_browser b1 s)) as [[ps|e] sb] eqn:E1;
    [|discriminate].
  destruct (selectPage N sb) as [[[]|e] sc] eqn:E2; [|discriminate].
  intros [= <- <-].
  destruct (createPagesSnapshot_defocusPending dflt F b1 HctxF
              (set_browser b1 s) ps sb) as [Hshape (Hd & HopenF & X & HX & Hflag)].
  { split; [apply sameShape_refl|]. split; [reflexivity|]. split.
    { unfold isClosed. cbn [browser set_browser]. rewrite Hstate; [exact Hopen|done]. }
    split; [exact Hfocus|]. cbn. apply elem_of_app. by left. }
  { exact E1. }
  destruct Hshape as (_ & _ & Hfg & Hclosed).
  destruct (selectPage_focusMap sb N) as [Hmap Hsel]. rewrite E2 in Hmap, Hsel.
  cbn [snd] in Hmap, Hsel.
  pose proof (selectPage_shape N sb sc E2) as (_ & _ & Hfg' & _).
  split; [done|]. split; [done|]. split; [exact Hsel|]. split.
  { rewrite Hmap. change (browserContext N) with dflt. apply lookup_insert_eq. }
  split.
  { rewrite (selectPage_flag N N sb sc E2); [|by rewrite Hclosed].
    rewrite decide_True by done. by rewrite Hclosed, HopenN. }
  split.
  { rewrite (selectPage_flag N F sb sc E2 HopenF).
    rewrite decide_False by done. change (browserContext N) with dflt. rewrite HX.
    destruct Hflag as [->|Hflag]; [by rewrite decide_True|].
    destruct (decide (Some X = Some F)); [done|exact Hflag]. }
  by rewrite Hfg', Hfg.
Qed.

Lemma newPage_background_default_context_witness :
  selectedPage (newPage (Some true) None session0).2 = Some page1
  ∧ ps_focusEmulation
      (pageState (browser (newPage (Some true) None session0).2) page0) = false.
Proof.
  destruct (newPage_background_default_context session0
              (newPage (Some true) None session0).2 page0 page1)
    as (_ & _ & Hsel & _ & _ & Hflag & _).
  - intros p Hp. vm_compute in Hp. apply list_elem_of_singleton in Hp as ->.
    vm_compute. lia.
  - reflexivity.
  - evaluate.
  - vm_compute. left.
  - evaluate.
  - assert ((newPage (Some true) None session0).1 = Ok page1) as E by evaluate.
    destruct (newPage (Some true) None session0) as [r t]. simpl in *. by rewrite E.
  - split; [exact Hsel|exact Hflag].
Defined.

(** ** Page lookup and [closePage] beyond the last-page guard *)

(** What [getPageById] finds, and when it finds nothing. *)
Lemma getPageById_found (s : McpContext) (pageId : nat) (page : Page) (s' : McpContext) :
  getPageById pageId s = (Ok page, s') →
  s' = s ∧ page ∈ pages s ∧ getPageId s page = Some pageId.
Proof.
  unfold getPageById.
  destruct (List.find _ (pages s)) as [p|] eqn:E; [|done].
  intros [= <- <-]. apply find_some in E as [Hin Hid].
  apply bool_decide_eq_true in Hid. by apply list_elem_of_In in Hin.
Qed.

Lemma getPageById_missing (s : McpContext) (pageId : nat) :
  (∀ page, page ∈ pages s → getPageId s page ≠ Some pageId) ↔
  getPageById pageId s = (Throw NotFoundError, s).
Proof.
  unfold getPageById.
  destruct (List.find _ (pages s)) as [p|] eqn:E.
  - apply find_some in E as [Hin Hid]. apply bool_decide_eq_true in Hid.
    apply list_elem_of_In in Hin. split; [|done].
    intros Hno. by destruct (Hno p Hin).
  - split; [done|]. intros _ page Hin. apply list_elem_of_In in Hin.
    pose proof (find_none _ _ E page Hin) as Hf. cbv beta in Hf.
    by apply bool_decide_eq_false in Hf.
Qed.

(** X1. [getPageById] never changes the session. A page it returns is a
    page of the registry whose record carries the requested id; it
    returns one whenever the registry holds such a page, and it throws
    'No page found', and only that, exactly when the registry holds
    none. *)
Theorem getPageById_spec (s : McpContext) (pageId : nat) :
  (getPageById pageId s).2 = s
  ∧ (∀ page, (getPageById pageId s).1 = Ok page →
       page ∈ pages s ∧ getPageId s page = Some pageId)
  ∧ ((∃ page, page ∈ pages s ∧ getPageId s page = Some pageId) ↔
       ∃ page, (getPageById pageId s).1 = Ok page)
  ∧ ((∀ page, page ∈ pages s → getPageId s page ≠ Some pageId) ↔
       (getPageById pageId s).1 = Throw NotFoundError)
  ∧ (∀ e, (getPageById pageId s).1 = Throw e → e = NotFoundError).
Proof.
  pose proof (getPageById_missing s pageId) as Hmiss.
  destruct (getPageById pageId s) as [[page|e] s'] eqn:E.
  - apply getPageById_found in E as (-> & Hin & Hid).
    split; [done|]. split; [by intros ? [= <-]|].
    split; [split; [by exists page | by intros; exists page]|].
    split; [|done]. split; [|done]. intros Hno. by destruct (Hno page Hin).
  - assert (e = NotFoundError ∧ s' = s) as [-> ->].
    { revert E. unfold getPageById. destruct (List.find _ _); [done|].
      by intros [= <- <-]. }
    split; [done|]. split; [done|].
    split; [|split; [by split; [|intros _; apply Hmiss]|by intros ? [= <-]]].
    split; [|by intros [? [=]]].
    intros (page & Hin & Hid). destruct Hmiss as [_ Hmiss].
    by destruct (Hmiss eq_refl page Hin).
Qed.

Lemma omap_get_delete {K V} `{EqDecision K} (k k' : K) (l : list (K * V)) :
  omap_get k' (omap_delete k l) = if decide (k' = k) then None else omap_get k' l.
Proof.
  unfold omap_delete. induction l as [|[k0 v0] l IH]; [by case_decide|].
  rewrite filter_cons. cbn [fst]. destruct (decide (k0 ≠ k)) as [Hne|Heq].
  - cbn [omap_get]. destruct (decide (k0 = k')) as [->|Hk].
    + by rewrite decide_False.
    + exact IH.
  - apply dec_stable in Heq as ->. rewrite IH. cbn [omap_get].
    destruct (decide (k' = k)) as [->|Hk]; [done|].
    by rewrite decide_False.
Qed.

(** The state a successful [closePage] leaves behind. *)
Lemma closePage_ok (s : McpContext) (pageId : nat) (page : Page) :
  length (pages s) ≠ 1 →
  getPageById pageId s = (Ok page, s) →
  closePage pageId s
  = (Ok tt,
     set_browser (closeDriverPage (browser s) page)
       (set_focusedPagePerContext
          (if decide (focusedPagePerContext s !! browserContext page = Some page)
           then delete (browserContext page) (focusedPagePerContext s)
           else focusedPagePerContext s)
          (set_mcpPages (omap_delete page (mcpPages s)) s))).
Proof.
  intros Hlen Hget. unfold closePage. munfold.
  destruct (decide (length (pages s) = 1)); [contradiction|].
  rewrite Hget. cbn [mcpPages set_mcpPages focusedPagePerContext].
  destruct (omap_get page (mcpPages s)) as [mp|] eqn:Hmp.
  - cbn. by destruct (decide (focusedPagePerContext s !! browserContext page = Some page)).
  - assert (omap_delete page (mcpPages s) = mcpPages s) as ->.
    { clear -Hmp. unfold omap_delete. induction (mcpPages s) as [|[k v] l IH]; [done|].
      cbn [omap_get] in Hmp. destruct (decide (k = page)); [done|].
      rewrite filter_cons. cbn [fst]. rewrite decide_True by done.
      by rewrite IH. }
    destruct s.
    by destruct (decide (_ = Some page)).
Qed.

(** X2. [closePage] on a session that does not hold exactly one page, for
    an id that [getPageById] resolves to [page]: the call returns, the
    record of [page] is gone, the driver page is closed and no longer
    live, and the focus entry of its context is removed if and only if it
    was [page]. Nothing else moves: the records and driver state of the
    other pages and the focus entries of the other contexts are
    untouched, and neither the page list nor the selected pointer is
    updated, so that closing the selected page leaves a session whose
    [getSelectedPage] reports the closed page. *)
Theorem closePage_removes_page (s : McpContext) (pageId : nat) (page : Page) :
  length (pages s) ≠ 1 →
  getPageById pageId s = (Ok page, s) →
  let s' := (closePage pageId s).2 in
  (closePage pageId s).1 = Ok tt
  ∧ omap_get page (mcpPages s') = None
  ∧ (∀ q, q ≠ page → omap_get q (mcpPages s') = omap_get q (mcpPages s))
  ∧ (focusedPagePerContext s !! browserContext page = Some page →
       focusedPagePerContext s' !! browserContext page = None)
  ∧ (focusedPagePerContext s !! browserContext page ≠ Some page →
       focusedPagePerContext s' = focusedPagePerContext s)
  ∧ (∀ ctx, ctx ≠ browserContext page →
       focusedPagePerContext s' !! ctx = focusedPagePerContext s !! ctx)
  ∧ isClosed (browser s') page = true
  ∧ (page ∉ b_pages (browser s'))
  ∧ (∀ q, q ≠ page →
       pageState (browser s') q = pageState (browser s) q
       ∧ (q ∈ b_pages (browser s') ↔ q ∈ b_pages (browser s)))
  ∧ pages s' = pages s
  ∧ selectedPage s' = selectedPage s
  ∧ (selectedPage s = Some page →
       getSelectedPage s' = (Throw SelectedPageClosed, s')).
Proof.
  intros Hlen Hget s'. subst s'. rewrite (closePage_ok s pageId page Hlen Hget).
  cbn [fst snd mcpPages focusedPagePerContext browser pages selectedPage
       set_browser set_focusedPagePerContext set_mcpPages].
  assert (isClosed (closeDriverPage (browser s) page) page = true) as Hclosed.
  { unfold isClosed, pageState, closeDriverPage. cbn [b_state].
    by rewrite lookup_insert_eq. }
  split; [done|].
  split; [by rewrite omap_get_delete, decide_True|].
  split; [by intros q Hq; rewrite omap_get_delete, decide_False|].
  split; [by intros Hf; rewrite decide_True, lookup_delete_eq|].
  split; [by intros Hf; rewrite decide_False|].
  split.
  { intros ctx Hctx. case_decide; [|done]. by rewrite lookup_delete_ne. }
  split; [exact Hclosed|].
  split.
  { unfold closeDriverPage. cbn [b_pages]. rewrite list_elem_of_filter.
    by intros [Hne _]. }
  split.
  { intros q Hq. split.
    - unfold pageState, closeDriverPage. cbn [b_state].
      by rewrite lookup_insert_ne.
    - unfold closeDriverPage. cbn [b_pages]. rewrite list_elem_of_filter.
      split; [by intros [_ ?] | by intros ?; split]. }
  split; [done|]. split; [done|].
  intros Hsel. unfold getSelectedPage.
  cbn [selectedPage browser set_browser set_focusedPagePerContext set_mcpPages].
  by rewrite Hsel, Hclosed.
Qed.

(** In [sessionTwo] the id 2 is the id of [page1], the selected page. *)
Lemma closePage_removes_page_witness :
  (closePage 2 sessionTwo).1 = Ok tt
  ∧ omap_get page1 (mcpPages (closePage 2 sessionTwo).2) = None
  ∧ isClosed (browser (closePage 2 sessionTwo).2) page1 = true.
Proof.
  destruct (closePage_removes_page sessionTwo 2 page1) as (H1 & H2 & _ & _ & _ & _ & H3 & _).
  - evaluate.
  - evaluate.
  - split; [exact H1|]. split; [exact H2|exact H3].
Defined.

(** X3. [closePage] on a session that does not hold exactly one page, for
    an id that no page of the registry carries, throws 'No page found'
    and changes nothing. *)
Theorem closePage_unknown_id (s : McpContext) (pageId : nat) :
  length (pages s) ≠ 1 →
  (∀ page, page ∈ pages s → getPageId s page ≠ Some pageId) →
  closePage pageId s = (Throw NotFoundError, s).
Proof.
  intros Hlen Hno. unfold closePage. munfold.
  destruct (decide (length (pages s) = 1)); [contradiction|].
  apply getPageById_missing in Hno. by rewrite Hno.
Qed.

Lemma closePage_unknown_id_witness :
  closePage 42 sessionTwo = (Throw NotFoundError, sessionTwo).
Proof.
  apply (closePage_unknown_id sessionTwo 42).
  - evaluate.
  - intros page Hin. vm_compute in Hin.
    apply elem_of_cons in Hin as [->|Hin]; [evaluate|].
    apply list_elem_of_singleton in Hin as ->. evaluate.
Defined.

(** ** Scoped element lookup *)

(** X4. The scoped form of [getElementByUid] looks only at the record of
    the given page and does on it what [McpPage.getElementByUid] does:
    no record or no snapshot is the error 'No snapshot found for page',
    a uid the snapshot does not index is 'Element uid not found on page',
    and an indexed uid is handed to the driver. It never changes the
    session, and its outcome does not depend on the selected page or on
    the focus map. *)
Theorem getElementByUid_scoped_cases (s : McpContext) (uid : string) (page : Page) :
  (getElementByUid uid (Some page) s).2 = s
  ∧ (omap_get page (mcpPages s) = None →
       getElementByUid uid (Some page) s = (Throw (NoSnapshotForPage None), s))
  ∧ (∀ mp, omap_get page (mcpPages s) = Some mp →
       getElementByUid uid (Some page) s = McpPage_getElementByUid mp uid s
       ∧ (textSnapshot mp = None →
            getElementByUid uid (Some page) s
            = (Throw (NoSnapshotForPage (Some (mp_id mp))), s))
       ∧ (textSnapshot mp ≠ None → getAXNodeByUid mp uid = None →
            getElementByUid uid (Some page) s
            = (Throw (UidNotOnPage uid (mp_id mp)), s))
       ∧ (∀ node, getAXNodeByUid mp uid = Some node →
            getElementByUid uid (Some page) s = resolveElementHandle node uid s))
  ∧ (∀ sel focus,
       (getElementByUid uid (Some page)
          (set_selectedPage sel (set_focusedPagePerContext focus s))).1
       = (getElementByUid uid (Some page) s).1).
Proof.
  unfold getElementByUid, McpPage_getElementByUid, getAXNodeByUid. munfold.
  split; [|split; [|split]].
  - destruct (omap_get page (mcpPages s)) as [mp|]; [|done].
    destruct (textSnapshot mp) as [t|]; [|done].
    destruct (idToNode t !! uid); [|done]. apply resolveElementHandle_state.
  - by intros ->.
  - intros mp ->. split; [done|]. split; [by intros ->|]. split.
    + destruct (textSnapshot mp) as [t|]; [|done]. cbn. by intros _ ->.
    + intros node. destruct (textSnapshot mp) as [t|]; [|done]. cbn. by intros ->.
  - intros sel focus. cbn [mcpPages set_selectedPage set_focusedPagePerContext].
    destruct (omap_get page (mcpPages s)) as [mp|]; [|done].
    destruct (textSnapshot mp) as [t|]; [|done].
    destruct (idToNode t !! uid); [|done]. unfold resolveElementHandle.
    cbn [browser set_selectedPage set_focusedPagePerContext].
    by destruct (b_elementHandles (browser s) !! _).
Qed.

(** ** [selectPage] *)

Lemma updateSelectedPageTimeouts_result (s : McpContext) :
  (updateSelectedPageTimeouts s).1
  = match selectedPage s with
    | None => Throw NoPageSelected
    | Some sel =>
        if isClosed (browser s) sel then Throw SelectedPageClosed
        else match omap_get (default sel (requestPage s)) (mcpPages s) with
             | Some _ => Ok tt
             | None => Throw NoMcpPageFound
             end
    end.
Proof.
  unfold updateSelectedPageTimeouts, getCpuThrottlingRate, getNetworkConditions,
    resolveTargetPage, getSelectedPage, getMcpPage. munfold.
  destruct (selectedPage s) as [sel|] eqn:Hsel; [|done].
  destruct (isClosed (browser s) sel) eqn:Hc; [done|].
  destruct (requestPage s) as [rp|] eqn:Hrp; simpl (default _ _).
  - destruct (omap_get rp (mcpPages s)) as [mp|] eqn:Hmp; [|done].
    cbn. rewrite Hrp. cbn. by rewrite Hmp.
  - rewrite Hsel, Hc.
    destruct (omap_get sel (mcpPages s)) as [mp|] eqn:Hmp; [|done].
    cbn. rewrite Hrp, Hsel. cbn.
    assert (isClosed (updatePage (browser s) sel
              (setDefaultTimeout (DEFAULT_TIMEOUT * cpuThrottlingRate mp))) sel
            = false) as ->.
    { unfold isClosed. by rewrite pageState_updatePage_eq. }
    cbn. by rewrite Hmp.
Qed.

(** Frame lemmas: what a computation leaves alone. *)
Lemma leaves_bind {A B C} (f : McpContext → C) (m : M A) (k : A → M B) :
  leaves f m → (∀ a, leaves f (k a)) → leaves f (bind m k).
Proof.
  intros Hm Hk s. unfold bind. specialize (Hm s).
  destruct (m s) as [[a|e] s1]; [|exact Hm].
  rewrite (Hk a s1). exact Hm.
Qed.

Lemma leaves_ret {A C} (f : McpContext → C) (a : A) : leaves f (ret a).
Proof. by intros s. Qed.

Lemma leaves_throw {A C} (f : McpContext → C) (e : McpError) :
  leaves f (throw (A := A) e).
Proof. by intros s. Qed.

Lemma leaves_get {C} (f : McpContext → C) : leaves f get.
Proof. by intros s. Qed.

Lemma leaves_modify {C} (f : McpContext → C) (g : McpContext → McpContext) :
  (∀ s, f (g s) = f s) → leaves f (modify g).
Proof. intros H s. apply H. Qed.

Lemma leaves_driverOnly {A C} (f : McpContext → C) (m : M A) :
  driverOnly m → (∀ b s, f (set_browser b s) = f s) → leaves f m.
Proof. intros Hm Hf s. destruct (Hm s) as [b ->]. apply Hf. Qed.

Create HintDb leaves.
#[local] Hint Resolve leaves_bind leaves_ret leaves_throw leaves_get : leaves.
#[local] Hint Extern 1 (leaves _ (modify _)) =>
  (apply leaves_modify; intros ?; reflexivity) : leaves.
#[local] Hint Extern 2 (leaves _ (if ?c then _ else _)) => destruct c : leaves.
#[local] Hint Extern 2 (leaves _ (match ?c with Some _ => _ | None => _ end)) =>
  destruct c : leaves.

Lemma readOnly_bind {A B} (m : M A) (k : A → M B) :
  readOnly m → (∀ a, readOnly (k a)) → readOnly (bind m k).
Proof.
  intros Hm Hk s. unfold bind. specialize (Hm s).
  destruct (m s) as [[a|e] s1]; cbn [snd] in Hm; subst s1; [apply Hk|done].
Qed.

Lemma readOnly_ret {A} (a : A) : readOnly (ret a).
Proof. by intros s. Qed.

Lemma readOnly_getSelectedPage : readOnly getSelectedPage.
Proof.
  intros s. unfold getSelectedPage. destruct (selectedPage s); [|done].
  by destruct (isClosed _ _).
Qed.

Lemma readOnly_resolveTargetPage : readOnly resolveTargetPage.
Proof.
  intros s. unfold resolveTargetPage. destruct (requestPage s); [done|].
  apply readOnly_getSelectedPage.
Qed.

Lemma readOnly_getMcpPage (page : Page) : readOnly (getMcpPage page).
Proof. intros s. unfold getMcpPage. by destruct (omap_get _ _). Qed.

Lemma readOnly_getCpuThrottlingRate : readOnly getCpuThrottlingRate.
Proof.
  apply readOnly_bind; [apply readOnly_resolveTargetPage|]. intros page.
  apply readOnly_bind; [apply readOnly_getMcpPage|]. intros mp. apply readOnly_ret.
Qed.

Lemma readOnly_getNetworkConditions : readOnly getNetworkConditions.
Proof.
  apply readOnly_bind; [apply readOnly_resolveTargetPage|]. intros page.
  apply readOnly_bind; [apply readOnly_getMcpPage|]. intros mp. apply readOnly_ret.
Qed.

Lemma leaves_readOnly {A C} (f : McpContext → C) (m : M A) :
  readOnly m → leaves f m.
Proof. intros Hm s. by rewrite Hm. Qed.

#[local] Hint Resolve readOnly_getSelectedPage readOnly_resolveTargetPage
  readOnly_getMcpPage readOnly_getCpuThrottlingRate readOnly_getNetworkConditions
  : leaves.
#[local] Hint Resolve leaves_readOnly | 5 : leaves.

Lemma driverShape_emulateFocusedPage (b : Browser) (p : Page) (v : bool) :
  driverShape (emulateFocusedPage b p v) = driverShape b.
Proof. unfold emulateFocusedPage. by destruct (isClosed b p). Qed.

Lemma leaves_updateSelectedPageTimeouts_shape :
  leaves (λ s, driverShape (browser s)) updateSelectedPageTimeouts.
Proof. unfold updateSelectedPageTimeouts. eauto 12 with leaves. Qed.

(** [selectPage] opens and closes nothing, whether it returns or throws. *)
Lemma leaves_selectPage_shape (p : Page) :
  leaves (λ s, driverShape (browser s)) (selectPage p).
Proof.
  assert (∀ q v, leaves (λ s, driverShape (browser s))
                   (modify (λ s, set_browser (emulateFocusedPage (browser s) q v) s)))
    as Hem.
  { intros q v. apply leaves_modify. intros s. apply driverShape_emulateFocusedPage. }
  unfold selectPage. apply leaves_bind; [apply leaves_get|]. intros s.
  apply leaves_bind.
  { destruct (focusedPagePerContext s !! browserContext p) as [old|];
      [|apply leaves_ret].
    destruct (decide (old ≠ p)); [|apply leaves_ret].
    destruct (isClosed (browser s) old); [apply leaves_ret|apply Hem]. }
  intros [].
  apply leaves_bind; [auto with leaves|]. intros [].
  apply leaves_bind; [auto with leaves|]. intros [].
  apply leaves_bind; [apply leaves_updateSelectedPageTimeouts_shape|]. intros [].
  apply Hem.
Qed.

Lemma leaves_selectPage (p : Page) : leaves registry (selectPage p).
Proof.
  unfold selectPage. apply leaves_bind; [apply leaves_get|]. intros s.
  apply leaves_bind; [auto with leaves|]. intros [].
  apply leaves_bind; [auto with leaves|]. intros [].
  apply leaves_bind; [auto with leaves|]. intros [].
  apply leaves_bind; [|auto with leaves].
  apply leaves_driverOnly; [apply driverOnly_updateSelectedPageTimeouts|done].
Qed.

(** Whether [selectPage] returns. *)
Lemma selectPage_outcome (s : McpContext) (p : Page) :
  (selectPage p s).1
  = (if isClosed (browser s) p then Throw SelectedPageClosed
     else match omap_get (default p (requestPage s)) (mcpPages s) with
          | Some _ => Ok tt
          | None => Throw NoMcpPageFound
          end).
Proof.
  unfold selectPage. unfold bind at 1. unfold get. cbv zeta.
  unfold bind at 1.
  set (step := match focusedPagePerContext s !! browserContext p with
               | Some old => _ | None => _ end).
  assert (∃ b1, step s = (Ok tt, set_browser b1 s)
                ∧ isClosed b1 p = isClosed (browser s) p) as (b1 & -> & Hb1).
  { subst step. destruct (focusedPagePerContext s !! browserContext p) as [old|];
      [|exists (browser s); by rewrite set_browser_id].
    destruct (decide (old ≠ p)); [|exists (browser s); by rewrite set_browser_id].
    destruct (isClosed (browser s) old) eqn:C;
      [exists (browser s); by rewrite set_browser_id|].
    exists (emulateFocusedPage (browser s) old false). split; [done|].
    apply (emulateFocusedPage_flags (browser s) old p false). }
  unfold bind at 1. unfold modify at 1. unfold bind at 1. unfold modify at 1.
  unfold bind at 1.
  match goal with |- context [updateSelectedPageTimeouts ?st] =>
    pose proof (updateSelectedPageTimeouts_result st) as Hr;
    cbn [selectedPage set_selectedPage browser set_browser
         set_focusedPagePerContext requestPage mcpPages] in Hr;
    rewrite Hb1 in Hr; rewrite <- Hr;
    by destruct (updateSelectedPageTimeouts st) as [[[]|e] s2]
  end.
Qed.

(** X5. The outcome of [selectPage]. It throws 'The selected page has been
    closed' when the page it is given is closed, 'No McpPage found' when
    the page whose settings scale the timeouts (the request page if one
    is set, the given page otherwise) has no record, and returns
    otherwise. In every case, also when it throws, the given page has
    become the selected page and the focus entry of its context, and
    the page list, the page records and the request page are as
    before. *)
Theorem selectPage_result (s : McpContext) (p : Page) :
  let s' := (selectPage p s).2 in
  (selectPage p s).1
  = (if isClosed (browser s) p then Throw SelectedPageClosed
     else match omap_get (default p (requestPage s)) (mcpPages s) with
          | Some _ => Ok tt
          | None => Throw NoMcpPageFound
          end)
  ∧ selectedPage s' = Some p
  ∧ focusedPagePerContext s' = <[browserContext p := p]> (focusedPagePerContext s)
  ∧ pages s' = pages s
  ∧ mcpPages s' = mcpPages s
  ∧ requestPage s' = requestPage s.
Proof.
  intros s'. subst s'.
  destruct (selectPage_focusMap s p) as [Hmap Hsel].
  split; [apply selectPage_outcome|]. split; [exact Hsel|]. split; [exact Hmap|].
  pose proof (leaves_selectPage p s) as Hreg. unfold registry in Hreg.
  by injection Hreg as _ _ _ -> -> -> _ _.
Qed.

(** X6. Focus emulation after a [selectPage] that returns. The selected
    page has its focus emulation switched on. The page that was the
    focus entry of the same context before, if it is another page and
    still open, has it switched off. Every other page, in particular
    every page of another context whose entry was not touched, keeps the
    flag it had; and no page is opened, closed or brought to the
    foreground. *)
Theorem selectPage_focus_emulation (s s' : McpContext) (p : Page) :
  selectPage p s = (Ok tt, s') →
  ps_focusEmulation (pageState (browser s') p) = true
  ∧ (∀ F, F ≠ p →
       focusedPagePerContext s !! browserContext p = Some F →
       isClosed (browser s) F = false →
       ps_focusEmulation (pageState (browser s') F) = false)
  ∧ (∀ F, F ≠ p →
       focusedPagePerContext s !! browserContext p ≠ Some F
       ∨ isClosed (browser s) F = true →
       ps_focusEmulation (pageState (browser s') F)
       = ps_focusEmulation (pageState (browser s) F))
  ∧ b_pages (browser s') = b_pages (browser s)
  ∧ b_foreground (browser s') = b_foreground (browser s)
  ∧ (∀ q, isClosed (browser s') q = isClosed (browser s) q).
Proof.
  intros Hsel.
  pose proof (selectPage_shape p s s' Hsel) as (_ & Hpages & Hfg & Hclosed).
  assert (isClosed (browser s) p = false) as Hopen.
  { pose proof (selectPage_outcome s p) as Hr. rewrite Hsel in Hr.
    cbn [fst] in Hr. by destruct (isClosed (browser s) p). }
  split.
  { rewrite (selectPage_flag p p s s' Hsel Hopen).
    by rewrite decide_True, Hopen. }
  split.
  { intros F HF Hold HFo. rewrite (selectPage_flag p F s s' Hsel HFo).
    rewrite decide_False by done. by rewrite decide_True. }
  split; [|done].
  intros F HF Hcase.
  destruct (isClosed (browser s) F) eqn:HFc.
  - (* a closed page is never reconfigured *)
    pose proof Hsel as (b2 & (_ & _ & _ & Hb2) & ->)%selectPage_ok.
    cbn [browser set_browser].
    destruct (emulateFocusedPage_flags b2 p F true) as (_ & _ & _ & _ & ->).
    rewrite decide_False by done. destruct (Hb2 F) as [_ ->].
    destruct (focusedPagePerContext s !! browserContext p) as [old|]; [|done].
    destruct (decide (old ≠ p)); [|done].
    destruct (emulateFocusedPage_flags (browser s) old F false)
      as (_ & _ & _ & _ & ->).
    destruct (decide (old = F)) as [->|]; [|done]. by rewrite HFc.
  - destruct Hcase as [Hcase|]; [|done].
    rewrite (selectPage_flag p F s s' Hsel HFc).
    rewrite decide_False by done. by rewrite decide_False.
Qed.

(** In [sessionTwo] the selected page is [page1]; selecting [page0] again
    switches the focus emulation of [page1] off. *)
Lemma selectPage_focus_emulation_witness :
  ps_focusEmulation (pageState (browser (selectPage page0 sessionTwo).2) page0) = true
  ∧ ps_focusEmulation (pageState (browser (selectPage page0 sessionTwo).2) page1) = false.
Proof.
  destruct (selectPage_focus_emulation sessionTwo (selectPage page0 sessionTwo).2 page0)
    as (H1 & H2 & _).
  - evaluate.
  - split; [exact H1|]. apply H2; evaluate.
Defined.

(** ** Registry refresh *)

Lemma leaves_getAllPages : leaves exceptContextNames getAllPages.
Proof.
  intros s. unfold getAllPages.
  by destruct (discoverContexts _ _ _ _ _ _) as [[? ?] ?].
Qed.

Lemma getAllPages_ok (s : McpContext) :
  ∃ names, (getAllPages s).1 = Ok (b_pages (browser s), names).
Proof.
  unfold getAllPages.
  destruct (discoverContexts _ _ _ _ _ _) as [[? ?] ?]. by eexists.
Qed.

Lemma leaves_registerPage names page : leaves exceptPageRecords (registerPage names page).
Proof. intros s. unfold registerPage. by destruct (omap_get page (mcpPages s)). Qed.

Lemma leaves_forEach {A C} (f : McpContext → C) (g : A → M unit) (l : list A) :
  (∀ a, leaves f (g a)) → leaves f (forEach g l).
Proof.
  intros Hg. induction l as [|a l IH]; [apply leaves_ret|].
  cbn [forEach]. apply leaves_bind; [apply Hg | intros _; exact IH].
Qed.

Lemma forEach_registerPage_ok names (l : list Page) (s : McpContext) :
  (forEach (registerPage names) l s).1 = Ok tt.
Proof.
  revert s. induction l as [|p l IH]; intros s; [done|].
  cbn [forEach]. unfold bind.
  destruct (registerPage names p s) as [[[]|e] s1] eqn:E.
  - apply IH.
  - unfold registerPage in E. by destruct (omap_get p (mcpPages s)).
Qed.

(** [createPagesSnapshot], stage by stage. *)
Lemma createPagesSnapshot_unfold (s : McpContext) :
  ∃ names,
    (getAllPages s).1 = Ok (b_pages (browser s), names)
    ∧ let live := b_pages (browser s) in
      let s1 := (forEach (registerPage names) live (getAllPages s).2).2 in
      createPagesSnapshot s =
      match selectFallback (pruned s1 live) (pruned s1 live) with
      | (Ok _, s3) => (Ok (pages (getAllPages s3).2), (getAllPages s3).2)
      | (Throw e, s3) => (Throw e, s3)
      end.
Proof.
  destruct (getAllPages_ok s) as [names Hnames]. exists names.
  split; [exact Hnames|]. cbv zeta.
  unfold createPagesSnapshot. unfold bind at 1.
  destruct (getAllPages s) as [r s0] eqn:E0. cbn [fst snd] in Hnames |- *.
  subst r. cbn [fst snd].
  unfold bind at 1.
  pose proof (forEach_registerPage_ok names (b_pages (browser s)) s0) as Hok.
  destruct (forEach _ _ s0) as [r1 s1] eqn:E1. cbn [fst snd] in Hok |- *.
  subst r1.
  unfold bind at 1. unfold modify at 1. unfold bind at 1. unfold modify at 1.
  unfold bind at 1. unfold modify at 1. unfold bind at 1. unfold get at 1.
  unfold bind at 1.
  change (set_pages _ _) with (pruned s1 (b_pages (browser s))).
  fold (selectFallback (pruned s1 (b_pages (browser s)))).
  destruct (selectFallback _ _) as [[[]|e] s3]; [|done].
  unfold detectOpenDevToolsWindows. munfold.
  destruct (getAllPages_ok s3) as [names3 H3].
  destruct (getAllPages s3) as [r3 s4]. cbn [fst snd] in H3 |- *. by subst r3.
Qed.

Lemma omap_get_set_ne {K V} `{EqDecision K} (k k' : K) (v : V) (l : list (K * V)) :
  k ≠ k' → omap_get k' (omap_set k v l) = omap_get k' l.
Proof.
  intros Hne. induction l as [|[k0 v0] l IH].
  - cbn. by rewrite decide_False.
  - cbn [omap_set]. destruct (decide (k0 = k)) as [->|Hk].
    + cbn [omap_get]. by rewrite !decide_False.
    + cbn [omap_get]. by rewrite IH.
Qed.

Lemma omap_get_filter_key {K V} `{EqDecision K} (P : K → Prop)
    `{∀ k, Decision (P k)} (k : K) (l : list (K * V)) :
  omap_get k (filter (λ e, P e.1) l) = if decide (P k) then omap_get k l else None.
Proof.
  induction l as [|[k0 v0] l IH]; [by case_decide|].
  rewrite filter_cons. cbn [fst]. destruct (decide (P k0)) as [HP|HP].
  - cbn [omap_get]. destruct (decide (k0 = k)) as [->|Hk].
    + by rewrite decide_True.
    + exact IH.
  - rewrite IH. cbn [omap_get]. destruct (decide (k0 = k)) as [->|Hk]; [|done].
    by rewrite !decide_False.
Qed.

Lemma set_isolatedContextName_twice (n m : option string) (mp : McpPage) :
  set_isolatedContextName n (set_isolatedContextName m mp)
  = set_isolatedContextName n mp.
Proof. done. Qed.

(** The page records after the registration loop of [createPagesSnapshot]
    over the pages [l]. *)
Lemma registerAll_records names (l : list Page) (s : McpContext) :
  let s1 := (forEach (registerPage names) l s).2 in
  (nextPageId s ≤ nextPageId s1)%nat
  ∧ ∀ p,
      match omap_get p (mcpPages s) with
      | Some mp =>
          omap_get p (mcpPages s1)
          = Some (if decide (p ∈ l) then set_isolatedContextName (names !! p) mp else mp)
      | None =>
          if decide (p ∈ l)
          then ∃ id, (nextPageId s ≤ id < nextPageId s1)%nat
                     ∧ omap_get p (mcpPages s1)
                       = Some (set_isolatedContextName (names !! p) (newMcpPage id))
          else omap_get p (mcpPages s1) = None
      end.
Proof.
  revert s. induction l as [|a l IH]; intros s; cbv zeta.
  { split; [done|]. intros p. cbn [forEach ret snd].
    destruct (omap_get p (mcpPages s)); [by rewrite decide_False by apply not_elem_of_nil|].
    by rewrite decide_False by apply not_elem_of_nil. }
  cbn [forEach]. unfold bind.
  destruct (registerPage names a s) as [[[]|e] sa] eqn:Ea.
  2: { unfold registerPage in Ea. by destruct (omap_get a (mcpPages s)). }
  specialize (IH sa). cbv zeta in IH. destruct IH as [Hle IH].
  set (s1 := (forEach (registerPage names) l sa).2) in *.
  assert (nextPageId s ≤ nextPageId sa)%nat as Hle0.
  { unfold registerPage in Ea. destruct (omap_get a (mcpPages s));
      injection Ea as <-; cbn; lia. }
  split; [lia|]. intros p. specialize (IH p).
  destruct (decide (p = a)) as [->|Hpa].
  - unfold registerPage in Ea.
    destruct (omap_get a (mcpPages s)) as [mp|] eqn:Hmp; injection Ea as <-;
      cbn [mcpPages set_mcpPages set_nextPageId nextPageId] in IH, Hle, Hle0;
      rewrite omap_get_set_eq in IH;
      rewrite (decide_True (P := a ∈ a :: l)) by apply list_elem_of_here.
    + rewrite IH. by destruct (decide (a ∈ l)).
    + exists (nextPageId s). split; [cbn [nextPageId set_mcpPages set_nextPageId] in Hle; lia|].
      rewrite IH. by destruct (decide (a ∈ l)).
  - assert (omap_get p (mcpPages sa) = omap_get p (mcpPages s)) as Hsame.
    { unfold registerPage in Ea. destruct (omap_get a (mcpPages s));
        injection Ea as <-; cbn [mcpPages set_mcpPages set_nextPageId];
        by rewrite omap_get_set_ne. }
    rewrite Hsame in IH.
    destruct (omap_get p (mcpPages s)) as [mp|].
    + rewrite IH. destruct (decide (p ∈ l)) as [Hin|Hin].
      * by rewrite decide_True by by right.
      * rewrite decide_False; [done|]. by intros [?|?]%elem_of_cons.
    + destruct (decide (p ∈ l)) as [Hin|Hin].
      * rewrite decide_True by by right.
        destruct IH as (id & Hid & Hget). exists id. split; [lia|done].
      * rewrite decide_False; [done|]. by intros [?|?]%elem_of_cons.
Qed.

Lemma leaves_selectFallback (s : McpContext) : leaves registry (selectFallback s).
Proof.
  unfold selectFallback. destruct (pages s) as [|first ?]; [apply leaves_ret|].
  destruct (selectedPage s) as [sel|]; [|apply leaves_selectPage].
  destruct (decide (sel ∈ first :: l)); [apply leaves_ret|apply leaves_selectPage].
Qed.

(** The session [createPagesSnapshot] leaves behind, in terms of its
    stages: [s1] after the registration loop, [pruned s1 live] after the
    pruning loops, [s3] after the selection step. *)
Lemma createPagesSnapshot_state (s : McpContext) :
  ∃ names s1 r3 s3,
    let live := b_pages (browser s) in
    let s' := (createPagesSnapshot s).2 in
    s1 = (forEach (registerPage names) live (getAllPages s).2).2
    ∧ selectFallback (pruned s1 live) (pruned s1 live) = (r3, s3)
    ∧ exceptContextNames (getAllPages s).2 = exceptContextNames s
    ∧ exceptPageRecords s1 = exceptPageRecords (getAllPages s).2
    ∧ registry s3 = registry (pruned s1 live)
    ∧ exceptContextNames s' = exceptContextNames s3
    ∧ match r3 with
      | Ok _ => (createPagesSnapshot s).1 = Ok (pages s')
      | Throw e => (createPagesSnapshot s).1 = Throw e
      end.
Proof.
  destruct (createPagesSnapshot_unfold s) as (names & Hnames & Heq).
  cbv zeta in Heq. exists names. eexists.
  destruct (selectFallback _ _) as [r3 s3] eqn:E3 in Heq.
  exists r3, s3. cbv zeta. split; [reflexivity|]. split; [exact E3|].
  split; [apply leaves_getAllPages|].
  split; [apply leaves_forEach; intros p; apply leaves_registerPage|].
  split.
  { pose proof (leaves_selectFallback (pruned (forEach (registerPage names)
        (b_pages (browser s)) (getAllPages s).2).2 (b_pages (browser s)))
        (pruned (forEach (registerPage names)
        (b_pages (browser s)) (getAllPages s).2).2 (b_pages (browser s)))) as H.
    by rewrite E3 in H. }
  rewrite Heq. destruct r3 as [[]|e]; cbn [fst snd]; [|done].
  split; [apply leaves_getAllPages|done].
Qed.

(** The registry after [createPagesSnapshot]. *)
Lemma createPagesSnapshot_post (s : McpContext) :
  let s' := (createPagesSnapshot s).2 in
  let live := b_pages (browser s) in
  b_pages (browser s') = live
  ∧ (∀ p, is_Some (omap_get p (mcpPages s')) ↔ p ∈ live)
  ∧ (∀ ctx p, focusedPagePerContext s' !! ctx = Some p → p ∈ live)
  ∧ pages s' = visiblePages s live
  ∧ (∀ l, (createPagesSnapshot s).1 = Ok l →
       l = pages s'
       ∧ (pages s' ≠ [] → ∃ sel, selectedPage s' = Some sel ∧ sel ∈ pages s')).
Proof.
  cbv zeta.
  destruct (createPagesSnapshot_state s)
    as (names & s1 & r3 & s3 & Hs1 & E3 & H0 & H1 & H3 & H' & Hres).
  cbv zeta in *.
  set (s0 := (getAllPages s).2) in *. set (s' := (createPagesSnapshot s).2) in *.
  set (live := b_pages (browser s)) in *.
  unfold exceptContextNames in H0, H'. unfold exceptPageRecords in H1.
  unfold registry in H3.
  injection H0 as Hb0 Ho0 Hp0 Hm0 Hsel0 Hf0 Hr0 Hn0 Hk0.
  injection H1 as Hb1 Ho1 _ _ Hp1 Hsel1 Hf1 Hr1 Hk1.
  injection H3 as _ _ _ Hp3 Hm3 _ _ _.
  injection H' as Hb' _ Hp' Hm' Hsel' Hf' _ _ _.
  (* the selection step keeps the driver's list of pages and puts only
     visible pages into the focus map *)
  assert (b_pages (browser s3) = live
          ∧ (∀ ctx p, focusedPagePerContext s3 !! ctx = Some p → p ∈ live)
          ∧ (r3 = Ok tt → pages s3 ≠ [] →
             ∃ sel, selectedPage s3 = Some sel ∧ sel ∈ pages s3)) as (Hlive3 & Hfoc3 & Hsel3).
  { assert (∀ ctx p, focusedPagePerContext (pruned s1 live) !! ctx = Some p → p ∈ live)
      as Hfp.
    { intros ctx p. cbn [pruned focusedPagePerContext set_pages
                         set_focusedPagePerContext].
      intros [_ Hin]%map_lookup_filter_Some. exact Hin. }
    assert (browser (pruned s1 live) = browser s) as Hbp by (cbn; congruence).
    assert (∀ first, first ∈ pages (pruned s1 live) →
              selectPage first (pruned s1 live) = (r3, s3) →
              b_pages (browser s3) = live
              ∧ (∀ ctx p, focusedPagePerContext s3 !! ctx = Some p → p ∈ live)
              ∧ (r3 = Ok tt → pages s3 ≠ [] →
                 ∃ sel, selectedPage s3 = Some sel ∧ sel ∈ pages s3)) as Hselect.
    { intros first Hfirst Esel.
      destruct (selectPage_focusMap (pruned s1 live) first) as [Hmap Hsp].
      rewrite Esel in Hmap, Hsp. cbn [snd] in Hmap, Hsp.
      split; [|split].
      - pose proof (leaves_selectPage_shape first (pruned s1 live)) as Hshape.
        rewrite Esel in Hshape. cbn [snd] in Hshape. rewrite Hbp in Hshape.
        unfold driverShape in Hshape. by injection Hshape.
      - intros ctx p. rewrite Hmap.
        destruct (decide (ctx = browserContext first)) as [->|Hne].
        + rewrite lookup_insert_eq. intros [= <-].
          cbn [pruned pages set_pages] in Hfirst. unfold visiblePages in Hfirst.
          by apply list_elem_of_filter in Hfirst as [_ ?].
        + rewrite lookup_insert_ne by done. apply Hfp.
      - intros _ _. exists first. split; [exact Hsp|]. by rewrite Hp3. }
    unfold selectFallback in E3.
    destruct (pages (pruned s1 live)) as [|first rest] eqn:Hpages.
    { injection E3 as <- <-. split; [by rewrite Hbp|]. split; [exact Hfp|].
      intros _ Hne. by rewrite Hpages in Hne. }
    destruct (selectedPage (pruned s1 live)) as [sel|] eqn:Hselp.
    - destruct (decide (sel ∈ first :: rest)) as [Hin|Hnin].
      + injection E3 as <- <-. split; [by rewrite Hbp|]. split; [exact Hfp|].
        intros _ _. exists sel. by rewrite Hpages.
      + apply (Hselect first); [rewrite ?Hpages; apply list_elem_of_here|exact E3].
    - apply (Hselect first); [rewrite ?Hpages; apply list_elem_of_here|exact E3]. }
  split; [by rewrite Hb'|].
  split.
  { intros p. rewrite Hm', Hm3.
    cbn [pruned mcpPages set_pages set_focusedPagePerContext set_mcpPages].
    pose proof (omap_get_filter_key (λ q, q ∈ live) p (mcpPages s1)) as Hfk.
    cbv beta in Hfk. rewrite Hfk. clear Hfk.
    destruct (decide (p ∈ live)) as [Hin|Hnin]; [|by split; [intros [? [=]]|]].
    split; [done|]. intros _.
    destruct (registerAll_records names live s0) as [_ Hrec].
    specialize (Hrec p). cbv zeta in Hrec. rewrite <- Hs1 in Hrec.
    destruct (omap_get p (mcpPages s0)); [by rewrite Hrec|].
    rewrite decide_True in Hrec by done. destruct Hrec as (id & _ & ->). done. }
  split; [by intros ctx p; rewrite Hf'; apply Hfoc3|].
  split.
  { rewrite Hp', Hp3. cbn [pruned pages set_pages]. unfold visiblePages.
    by rewrite Ho1, Ho0, Hb1, Hb0. }
  intros l Hl. destruct r3 as [[]|e]; [|by rewrite Hres in Hl].
  rewrite Hres in Hl. injection Hl as <-. split; [done|].
  rewrite Hp', Hsel'. by apply Hsel3.
Qed.

(** X7. After [createPagesSnapshot], whether it returns or throws, the
    registry agrees with the driver: a page has a record if and only if
    it is one of the driver's live pages, every focus entry is a live
    page, and the page list is the list of live pages without the
    DevTools windows (unless these are exposed). The driver's list of
    pages is not changed. When the call returns, it returns the page
    list, and if that list is not empty the selected page is one of its
    pages. *)
Theorem createPagesSnapshot_registry (s : McpContext) :
  let s' := (createPagesSnapshot s).2 in
  let live := b_pages (browser s) in
  b_pages (browser s') = live
  ∧ (∀ p, is_Some (omap_get p (mcpPages s')) ↔ p ∈ live)
  ∧ (∀ ctx p, focusedPagePerContext s' !! ctx = Some p → p ∈ live)
  ∧ pages s' = visiblePages s live
  ∧ (∀ l, (createPagesSnapshot s).1 = Ok l →
       l = pages s'
       ∧ (pages s' ≠ [] → ∃ sel, selectedPage s' = Some sel ∧ sel ∈ pages s')).
Proof. apply createPagesSnapshot_post. Qed.

(** X8. What [createPagesSnapshot] does to the record of a live page,
    whether it returns or throws. A page that had a record keeps it: the
    page id, the snapshot with its sticky identifiers and the emulation
    settings are the same, only the name of its isolated context is set
    anew. A page that had none gets a blank record whose id is taken
    from the page-id counter, which never goes back. *)
Theorem createPagesSnapshot_keeps_records (s : McpContext) (p : Page) :
  let s' := (createPagesSnapshot s).2 in
  p ∈ b_pages (browser s) →
  (nextPageId s ≤ nextPageId s')%nat
  ∧ (∀ mp, omap_get p (mcpPages s) = Some mp →
       ∃ name, omap_get p (mcpPages s') = Some (set_isolatedContextName name mp))
  ∧ (omap_get p (mcpPages s) = None →
       ∃ id name, (nextPageId s ≤ id < nextPageId s')%nat
         ∧ omap_get p (mcpPages s')
           = Some (set_isolatedContextName name (newMcpPage id))).
Proof.
  cbv zeta. intros Hlive.
  destruct (createPagesSnapshot_state s)
    as (names & s1 & r3 & s3 & Hs1 & E3 & H0 & H1 & H3 & H' & Hres).
  cbv zeta in *.
  unfold exceptContextNames in H0, H'. unfold exceptPageRecords in H1.
  unfold registry in H3.
  injection H0 as _ _ _ Hm0 _ _ _ Hn0 _.
  injection H3 as _ _ _ _ Hm3 _ Hn3 _.
  injection H' as _ _ _ Hm' _ _ _ Hn' _.
  cbn [pruned mcpPages nextPageId set_pages set_focusedPagePerContext set_mcpPages]
    in Hm3, Hn3.
  destruct (registerAll_records names (b_pages (browser s)) (getAllPages s).2)
    as [Hle Hrec].
  cbv zeta in Hle, Hrec. rewrite <- Hs1 in Hle, Hrec. specialize (Hrec p).
  rewrite Hm0 in Hrec. rewrite Hn0 in Hle, Hrec.
  rewrite Hm', Hm3, Hn', Hn3.
  pose proof (omap_get_filter_key (λ q, q ∈ b_pages (browser s)) p (mcpPages s1))
    as Hfk.
  cbv beta in Hfk. rewrite Hfk, decide_True by done. clear Hfk.
  split; [exact Hle|]. split.
  - intros mp Hmp. rewrite Hmp in Hrec. rewrite decide_True in Hrec by done.
    by eexists.
  - intros Hmp. rewrite Hmp in Hrec. rewrite decide_True in Hrec by done.
    destruct Hrec as (id & Hid & Hget). by exists id, (names !! p).
Qed.

(** [page0] is the live page of [session0]. *)
Lemma createPagesSnapshot_keeps_records_witness :
  (nextPageId session0 ≤ nextPageId (createPagesSnapshot session0).2)%nat.
Proof.
  apply (createPagesSnapshot_keeps_records session0 page0).
  vm_compute. apply list_elem_of_here.
Defined.

(** ** More on the snapshot indexer *)

(** Induction over a run of [assignIds]: a relation between the state
    before, the nodes produced and the state after that holds of the
    empty run, is closed under sequencing and is established by the
    key step followed by the recording of the node, holds of every run. *)
Lemma assignIds_run (sid : nat)
    (R : AssignState → list TextSnapshotNode → AssignState → Prop) :
  (∀ a, R a [] a) →
  (∀ a a1 a2 ns1 ns2, R a ns1 a1 → R a1 ns2 a2 → R a (ns1 ++ ns2)%list a2) →
  (∀ a node children c2,
     let k := assignKey sid (uniqueBackendId node) a in
     let n := nodeWithId k.1 node children in
     R k.2 (flat_map nodesOf children) c2 →
     R a (n :: flat_map nodesOf children) (recordNode n c2)) →
  ∀ node a, R a (nodesOf (assignIds sid node a).1) (assignIds sid node a).2.
Proof.
  intros Hnil Happ Hstep.
  induction node as [r na v l b cs IH] using SerializedAXNode_ind. intros a.
  rewrite assignIds_unfold. cbv zeta.
  set (node := mkAX r na v l b cs).
  set (k := assignKey sid (uniqueBackendId node) a).
  set (c := match ax_children node with
            | Some cs => mapChildren sid cs k.2
            | None => ([], k.2)
            end).
  assert (R k.2 (flat_map nodesOf c.1) c.2) as Hc.
  { subst c. simpl. destruct cs as [cs|]; [|apply Hnil].
    generalize (k.2). clear -IH Hnil Happ.
    induction cs as [|c cs IHcs]; intros a; [apply Hnil|].
    apply Forall_cons in IH as [Hc Hcs].
    rewrite mapChildren_cons. cbv zeta. simpl.
    eapply Happ; [apply Hc | apply IHcs, Hcs]. }
  exact (Hstep a node c.1 c.2 Hc).
Qed.

Lemma assignIds_trace (sid : nat) (node : SerializedAXNode) (a : AssignState) :
  assignTrace sid a (nodesOf (assignIds sid node a).1) (assignIds sid node a).2.
Proof.
  revert node a. apply assignIds_run.
  - intros a. split; [by left|]. split; [by left|]. split; [done|lia].
  - intros a a1 a2 ns1 ns2 (I1 & S1 & M1 & C1) (I2 & S2 & M2 & C2).
    split; [|split; [|split; [by auto|lia]]].
    + intros i n [H|[Hin Hid]]%I2.
      * apply I1 in H as [H|[Hin Hid]]; [by left|].
        right. split; [apply elem_of_app; by left|done].
      * right. split; [apply elem_of_app; by right|done].
    + intros k v [H|(Hnone & c & Hc & ->)]%S2.
      * apply S1 in H as [H|(Hnone & c & Hc & ->)]; [by left|].
        right. split; [done|]. exists c. split; [lia|done].
      * destruct (as_sticky a !! k) as [v0|] eqn:E.
        { apply M1 in E. congruence. }
        right. split; [done|]. exists c. split; [lia|done].
  - intros a node children c2 k n (Ic & Sc & Mc & Cc).
    destruct (assignKey_spec sid (uniqueBackendId node) a)
      as (Kk & Mk & _ & Ik & Ck & _). fold k in Kk, Mk, Ik, Ck.
    unfold assignTrace.
    change (as_sticky (recordNode n c2)) with (as_sticky c2).
    change (as_idCounter (recordNode n c2)) with (as_idCounter c2).
    change (as_idToNode (recordNode n c2)) with (<[k.1 := n]> (as_idToNode c2)).
    split; [|split; [|split; [by auto|by etrans]]].
    + intros i m. rewrite lookup_insert. case_decide as Hi.
      * intros [= <-]. right. split; [apply list_elem_of_here|by subst].
      * intros [H|[Hin Hid]]%Ic; [left; by rewrite <- Ik|].
        right. split; [by right|done].
    + intros key v [H|(Hnone & c & Hc & ->)]%Sc.
      * subst k. unfold assignKey in *.
        destruct (as_sticky a !! uniqueBackendId node) as [id|] eqn:E;
          cbn [fst snd as_sticky as_idCounter] in *; [by left|].
        rewrite lookup_insert in H. case_decide as Hkey.
        -- injection H as <-. subst key. right. split; [done|].
           exists (as_idCounter a). split; [lia|done].
        -- by left.
      * destruct (as_sticky a !! key) as [v0|] eqn:E.
        { apply Mk in E. congruence. }
        right. split; [done|]. exists c. split; [lia|done].
Qed.

(** ** Invariants of the reachable sessions *)

Lemma preserves_bind {A B} (P : McpContext → Prop) (m : M A) (k : A → M B) :
  preserves P m → (∀ a, preserves P (k a)) → preserves P (bind m k).
Proof.
  intros Hm Hk s HP. unfold bind. specialize (Hm s HP).
  destruct (m s) as [[a|e] s1]; [|exact Hm]. by apply Hk.
Qed.

Lemma preserves_leaves {A C} (P : McpContext → Prop) (f : McpContext → C) (m : M A) :
  (∀ s s', f s' = f s → P s → P s') → leaves f m → preserves P m.
Proof. intros HP Hm s Hs. by apply (HP s), Hs. Qed.

Lemma preserves_forEach {A} (P : McpContext → Prop) (f : A → M unit) (l : list A) :
  (∀ a, preserves P (f a)) → preserves P (forEach f l).
Proof.
  intros Hf. induction l as [|a l IH]; [by intros s|].
  cbn [forEach]. apply preserves_bind; [apply Hf | intros _; exact IH].
Qed.

Lemma leaves_resolveElementHandle {C} (f : McpContext → C) node uid :
  leaves f (resolveElementHandle node uid).
Proof. intros s. by rewrite resolveElementHandle_state. Qed.

Lemma leaves_getSelectedMcpPage {C} (f : McpContext → C) : leaves f getSelectedMcpPage.
Proof. intros s. by rewrite getSelectedMcpPage_state. Qed.

Lemma leaves_searchAllPages uid entries any :
  leaves registry (searchAllPages uid entries any).
Proof.
  revert any. induction entries as [|[searchPage mcpPage] rest IH]; intros any; simpl.
  - destruct any; apply leaves_throw.
  - destruct (textSnapshot mcpPage) as [t|]; [|apply IH].
    destruct (idToNode t !! uid); [|apply IH].
    apply leaves_bind; [apply leaves_get|]. intros s.
    case_decide.
    + apply leaves_bind; [|intros ?; apply leaves_throw].
      destruct (focusedPagePerContext s !! _); [apply leaves_ret|].
      apply leaves_bind; [apply leaves_getSelectedMcpPage|].
      intros ?; apply leaves_ret.
    + apply leaves_bind; [|intros ?; apply leaves_resolveElementHandle].
      case_decide; auto with leaves.
Qed.

Lemma leaves_getElementByUid uid page : leaves registry (getElementByUid uid page).
Proof.
  unfold getElementByUid. destruct page as [page|].
  - apply leaves_bind; [apply leaves_get|]. intros s.
    destruct (omap_get page (mcpPages s)) as [mp|]; [|apply leaves_throw].
    destruct (textSnapshot mp) as [t|]; [|apply leaves_throw].
    destruct (idToNode t !! uid); [apply leaves_resolveElementHandle|apply leaves_throw].
  - apply leaves_bind; [apply leaves_get|]. intros s. apply leaves_searchAllPages.
Qed.

Section Invariant.

Variable I : list (Page * McpPage) → nat → nat → Prop.
Variable keep : McpPage → McpPage → Prop.

Hypothesis keep_settings : ∀ mp e, keep mp (set_emulationSettings e mp).
Hypothesis keep_name : ∀ mp n, keep mp (set_isolatedContextName n mp).
Hypothesis I_filter :
  ∀ l n k (P : Page * McpPage → Prop) (H : ∀ e, Decision (P e)),
    I l n k → I (filter P l) n k.
Hypothesis I_update :
  ∀ l n k p mp mp',
    I l n k → omap_get p l = Some mp → keep mp mp' → I (omap_set p mp' l) n k.
Hypothesis I_new :
  ∀ l n k p name,
    I l n k → omap_get p l = None →
    I (omap_set p (set_isolatedContextName name (newMcpPage n)) l) (S n) k.
Hypothesis I_init : I [] 1 1.
Hypothesis I_capture :
  ∀ verbose data target rootNode fetched s,
    reachable s → holds I s →
    holds I (createTextSnapshot verbose data target rootNode fetched s).2.

Lemma holds_registry (s s' : McpContext) :
  registry s' = registry s → holds I s → holds I s'.
Proof.
  unfold registry, holds. intros H. by injection H as _ _ _ _ -> _ -> ->.
Qed.

Lemma preserves_getAllPages : preserves (holds I) getAllPages.
Proof.
  apply (preserves_leaves _ exceptContextNames); [|apply leaves_getAllPages].
  unfold exceptContextNames, holds. intros s s' H.
  by injection H as _ _ _ -> _ _ _ -> ->.
Qed.

Lemma preserves_registerPage names page : preserves (holds I) (registerPage names page).
Proof.
  intros s Hs. unfold registerPage, holds in *.
  destruct (omap_get page (mcpPages s)) as [mp|] eqn:Hmp; cbn.
  - by eapply I_update.
  - by apply I_new.
Qed.

Lemma preserves_selectPage page : preserves (holds I) (selectPage page).
Proof.
  apply (preserves_leaves _ registry); [apply holds_registry|apply leaves_selectPage].
Qed.

Lemma preserves_createPagesSnapshot : preserves (holds I) createPagesSnapshot.
Proof.
  intros s Hs.
  destruct (createPagesSnapshot_state s)
    as (names & s1 & r3 & s3 & Hs1 & E3 & H0 & H1 & H3 & H' & Hres).
  cbv zeta in *.
  assert (holds I s1) as Hh1.
  { rewrite Hs1. apply preserves_forEach; [apply preserves_registerPage|].
    by apply preserves_getAllPages. }
  unfold exceptContextNames in H'. unfold registry in H3.
  injection H3 as _ _ _ _ Hm3 _ Hn3 Hk3.
  injection H' as _ _ _ Hm' _ _ _ Hn' Hk'.
  unfold holds. rewrite Hm', Hn', Hk', Hm3, Hn3, Hk3. cbn. by apply I_filter.
Qed.

Lemma preserves_newPage background name : preserves (holds I) (newPage background name).
Proof.
  unfold newPage. apply preserves_bind.
  { intros s Hs. munfold. destruct name as [name|]; [|exact Hs].
    by destruct (omap_get name (isolatedContexts s)). }
  intros page. apply preserves_bind; [apply preserves_createPagesSnapshot|].
  intros _. apply preserves_bind; [apply preserves_selectPage|]. by intros _ s.
Qed.

Lemma preserves_closePage pageId : preserves (holds I) (closePage pageId).
Proof.
  intros s Hs. unfold closePage. unfold bind at 1. unfold get. cbv zeta.
  case_decide; [exact Hs|].
  unfold bind at 1. destruct (getPageById pageId s) as [[page|e] s0] eqn:E.
  - apply getPageById_found in E as (-> & _).
    munfold. cbn. unfold holds.
    destruct (omap_get page (mcpPages s)); [|by case_decide].
    assert (I (omap_delete page (mcpPages s)) (nextPageId s) (nextSnapshotId s)) as Hd
      by by apply I_filter.
    by case_decide.
  - revert E. unfold getPageById. destruct (List.find _ _); [done|]. by intros [= <- <-].
Qed.

Lemma preserves_emulate options target : preserves (holds I) (emulate options target).
Proof.
  intros s Hs.
  destruct (emulate_unfold options target s)
    as [[e ->]|(page & mp & e' & l & _ & Hmp & ->)]; [exact Hs|].
  assert (holds I (set_mcpPages
            (omap_set page (set_emulationSettings e' mp) (mcpPages s))
            (set_browser (appendLog (browser s) l) s))) as H1.
  { unfold holds. cbn. by eapply I_update. }
  destruct (timeoutsNeedUpdate options); [|exact H1].
  revert H1. apply (preserves_leaves _ registry); [apply holds_registry|].
  by apply leaves_driverOnly; [apply driverOnly_updateSelectedPageTimeouts|].
Qed.

Lemma preserves_restoreEmulation target : preserves (holds I) (restoreEmulation target).
Proof.
  unfold restoreEmulation. apply preserves_bind.
  { destruct target; [by intros s|].
    intros s. by rewrite readOnly_getSelectedPage. }
  intros page. apply preserves_bind.
  { intros s. by rewrite readOnly_getMcpPage. }
  intros mp. apply preserves_emulate.
Qed.

(** Every reachable session satisfies the invariant. *)
Lemma reachable_holds (s : McpContext) : reachable s → holds I s.
Proof.
  induction 1 as [b o|c s Hr IH].
  - by apply preserves_createPagesSnapshot.
  - destruct c; simpl.
    + by apply preserves_newPage.
    + by apply preserves_closePage.
    + by apply preserves_selectPage.
    + exact IH.
    + by apply preserves_emulate.
    + by apply preserves_restoreEmulation.
    + revert IH. apply (preserves_leaves _ registry);
        [apply holds_registry|apply leaves_getElementByUid].
    + by apply preserves_createPagesSnapshot.
    + by apply I_capture.
    + exact IH.
Qed.

End Invariant.

Lemma omap_set_keys {K V} `{EqDecision K} (k : K) (v : V) (l : list (K * V)) :
  (omap_set k v l).*1
  = match omap_get k l with Some _ => l.*1 | None => (l.*1 ++ [k])%list end.
Proof.
  induction l as [|[k0 v0] l IH]; [done|].
  cbn [omap_set omap_get]. destruct (decide (k0 = k)) as [->|Hne]; [done|].
  rewrite fmap_cons, IH. by destruct (omap_get k l).
Qed.

Lemma omap_get_None_keys {K V} `{EqDecision K} (k : K) (l : list (K * V)) :
  omap_get k l = None → k ∉ l.*1.
Proof.
  induction l as [|[k0 v0] l IH]; [intros _; apply not_elem_of_nil|].
  cbn [omap_get]. destruct (decide (k0 = k)) as [->|Hne]; [done|].
  intros Hk. rewrite fmap_cons. apply not_elem_of_cons. split; [done|by apply IH].
Qed.

Lemma omap_get_NoDup {K V} `{EqDecision K} (k : K) (v : V) (l : list (K * V)) :
  NoDup l.*1 → (k, v) ∈ l → omap_get k l = Some v.
Proof.
  induction l as [|[k0 v0] l IH]; [by intros _ ?%elem_of_nil|].
  rewrite fmap_cons. intros [Hk0 Hnd]%NoDup_cons [[= -> ->]|Hin]%elem_of_cons.
  - cbn. by rewrite decide_True.
  - cbn [omap_get]. destruct (decide (k0 = k)) as [->|Hne]; [|by apply IH].
    destruct Hk0. apply list_elem_of_fmap. by exists (k, v).
Qed.

(** What a capture does to the session: nothing, or it stores a snapshot
    built by the indexer in the record of a registered page and takes a
    capture number. *)
Lemma createTextSnapshot_cases (verbose : bool) (devtoolsData : option DevToolsData)
    (targetPage : option Page) (rootNode : option SerializedAXNode)
    (fetched : DevToolsData) (s : McpContext) :
  (createTextSnapshot verbose devtoolsData targetPage rootNode fetched s).2 = s
  ∨ ∃ page mp tree t,
      omap_get page (mcpPages s) = Some mp
      ∧ rootNode = Some tree
      ∧ (targetPage = Some page
         ∨ targetPage = None ∧ getSelectedPage s = (Ok page, s))
      ∧ let r := assignIds (nextSnapshotId s) tree
                   (initialAssignState (uniqueBackendNodeIdToMcpId mp)) in
        createTextSnapshot verbose devtoolsData targetPage rootNode fetched s
        = (Ok tt,
           set_mcpPages
             (omap_set page (set_snapshot (Some t) (collect r.2) mp) (mcpPages s))
             (set_nextSnapshotId (S (nextSnapshotId s)) s))
        ∧ root t = r.1 ∧ idToNode t = as_idToNode r.2.
Proof.
  assert (∀ page, (targetPage = Some page
                   ∨ targetPage = None ∧ getSelectedPage s = (Ok page, s)) →
            createTextSnapshot verbose devtoolsData targetPage rootNode fetched s
            = createTextSnapshot verbose devtoolsData (Some page) rootNode fetched s →
            (createTextSnapshot verbose devtoolsData targetPage rootNode fetched s).2 = s
            ∨ ∃ page mp tree t,
                omap_get page (mcpPages s) = Some mp
                ∧ rootNode = Some tree
                ∧ (targetPage = Some page
                   ∨ targetPage = None ∧ getSelectedPage s = (Ok page, s))
                ∧ let r := assignIds (nextSnapshotId s) tree
                             (initialAssignState (uniqueBackendNodeIdToMcpId mp)) in
                  createTextSnapshot verbose devtoolsData targetPage rootNode fetched s
                  = (Ok tt,
                     set_mcpPages
                       (omap_set page (set_snapshot (Some t) (collect r.2) mp)
                          (mcpPages s))
                       (set_nextSnapshotId (S (nextSnapshotId s)) s))
                  ∧ root t = r.1 ∧ idToNode t = as_idToNode r.2) as Hpage.
  { intros page Htarget Heq. rewrite Heq.
    destruct (omap_get page (mcpPages s)) as [mp|] eqn:Hmp.
    - destruct rootNode as [tree|].
      + right. exists page, mp, tree.
        destruct (createTextSnapshot_spec verbose devtoolsData page tree fetched
                    s mp Hmp) as (t & Ht & Hroot & Hidx).
        exists t. split; [done|]. split; [done|]. split; [done|]. cbv zeta.
        by rewrite Ht.
      + left. unfold createTextSnapshot, getMcpPage. munfold. by rewrite Hmp.
    - left. unfold createTextSnapshot, getMcpPage. munfold. by rewrite Hmp. }
  destruct targetPage as [page|].
  - apply (Hpage page); [by left|done].
  - pose proof (createTextSnapshot_unselected verbose devtoolsData rootNode fetched s)
      as Hu.
    pose proof (readOnly_getSelectedPage s) as Hro.
    destruct (getSelectedPage s) as [[page|e] s0] eqn:Hsel; cbn [snd] in Hro; subst s0.
    + apply (Hpage page); [by right|exact Hu].
    + left. by rewrite Hu.
Qed.

(** *** Page ids *)

Lemma pageIdsInv_filter l n k (P : Page * McpPage → Prop) (H : ∀ e, Decision (P e)) :
  pageIdsInv l n k → pageIdsInv (filter P l) n k.
Proof.
  intros (Hnd & Hn & Hid & Hinj). split; [|split; [done|split]].
  - eapply sublist_NoDup; [exact Hnd|]. apply fmap_sublist, sublist_filter.
  - intros p mp [_ Hin]%list_elem_of_filter. by eapply Hid.
  - intros p1 mp1 p2 mp2 [_ H1]%list_elem_of_filter [_ H2]%list_elem_of_filter.
    by eapply Hinj.
Qed.

Lemma pageIdsInv_update l n k p mp mp' :
  pageIdsInv l n k → omap_get p l = Some mp → sameId mp mp' →
  pageIdsInv (omap_set p mp' l) n k.
Proof.
  intros (Hnd & Hn & Hid & Hinj) Hmp Hsame. unfold sameId in Hsame.
  pose proof (omap_get_elem_of _ _ _ Hmp) as Hin.
  split; [|split; [done|split]].
  - by rewrite omap_set_keys, Hmp.
  - intros q mq [[= -> ->]|Hq]%elem_of_omap_set; [|by eapply Hid].
    rewrite Hsame. by eapply Hid.
  - intros p1 mp1 p2 mp2 [[= -> ->]|H1]%elem_of_omap_set
      [[= -> ->]|H2]%elem_of_omap_set; [done| | |by eapply Hinj].
    + rewrite Hsame. intros ?. by eapply (Hinj p mp p2 mp2).
    + rewrite Hsame. intros ?. by eapply (Hinj p1 mp1 p mp).
Qed.

Lemma pageIdsInv_new l n k p name :
  pageIdsInv l n k → omap_get p l = None →
  pageIdsInv (omap_set p (set_isolatedContextName name (newMcpPage n)) l) (S n) k.
Proof.
  intros (Hnd & Hn & Hid & Hinj) Hmp.
  split; [|split; [lia|split]].
  - rewrite omap_set_keys, Hmp. apply NoDup_app. split; [done|]. split.
    + intros q Hq ->%list_elem_of_singleton. by apply omap_get_None_keys in Hmp.
    + apply NoDup_singleton.
  - intros q mq [[= -> ->]|Hq]%elem_of_omap_set; [cbn; lia|].
    specialize (Hid q mq Hq). lia.
  - intros p1 mp1 p2 mp2 [[= -> ->]|H1]%elem_of_omap_set
      [[= -> ->]|H2]%elem_of_omap_set; [done| | |by eapply Hinj]; cbn.
    + specialize (Hid p2 mp2 H2). lia.
    + specialize (Hid p1 mp1 H1). lia.
Qed.

Lemma pageIdsInv_capture verbose data target rootNode fetched s :
  reachable s → holds pageIdsInv s →
  holds pageIdsInv (createTextSnapshot verbose data target rootNode fetched s).2.
Proof.
  intros _ Hs.
  destruct (createTextSnapshot_cases verbose data target rootNode fetched s)
    as [->|(page & mp & tree & t & Hmp & _ & _ & Hc)]; [exact Hs|].
  cbv zeta in Hc. destruct Hc as (-> & _). unfold holds. cbn.
  destruct Hs as (Hnd & Hn & Hid & Hinj).
  by eapply (pageIdsInv_update _ _ (nextSnapshotId s)).
Qed.

Lemma reachable_pageIdsInv (s : McpContext) : reachable s → holds pageIdsInv s.
Proof.
  apply (reachable_holds pageIdsInv sameId).
  - done.
  - done.
  - apply pageIdsInv_filter.
  - apply pageIdsInv_update.
  - apply pageIdsInv_new.
  - split; [apply NoDup_nil_2|]. split; [lia|].
    split; [by intros ? ? ?%elem_of_nil|by intros ? ? ? ? ?%elem_of_nil].
  - apply pageIdsInv_capture.
Qed.

(** X9. Page ids in a reachable session. Every id of a registered page
    was handed out by the page-id counter, which starts at 1; two
    different pages never carry the same id; and so [getPageById] finds
    every page of the registry under its id. *)
Theorem reachable_page_ids_unique (s : McpContext) :
  reachable s →
  (∀ p i, getPageId s p = Some i → (1 ≤ i < nextPageId s)%nat)
  ∧ (∀ p q i, getPageId s p = Some i → getPageId s q = Some i → p = q)
  ∧ (∀ p i, p ∈ pages s → getPageId s p = Some i →
       getPageById i s = (Ok p, s)).
Proof.
  intros (Hnd & Hn & Hid & Hinj)%reachable_pageIdsInv.
  assert (∀ p i, getPageId s p = Some i →
            ∃ mp, (p, mp) ∈ mcpPages s ∧ mp_id mp = i) as Hget.
  { intros p i. unfold getPageId.
    destruct (omap_get p (mcpPages s)) as [mp|] eqn:E; [|done].
    intros [= <-]. exists mp. split; [by apply omap_get_elem_of|done]. }
  assert (∀ p q i, getPageId s p = Some i → getPageId s q = Some i → p = q) as Huniq.
  { intros p q i (mp & Hp & <-)%Hget (mq & Hq & Heq)%Hget. by eapply Hinj. }
  split; [|split; [exact Huniq|]].
  - intros p i (mp & Hp & <-)%Hget. by eapply Hid.
  - intros p i Hin Hi.
    destruct (getPageById i s) as [[q|e] s'] eqn:E.
    + apply getPageById_found in E as (-> & _ & Hq). by rewrite (Huniq p q i).
    + assert (getPageById i s = (Throw NotFoundError, s)) as E'.
      { revert E. unfold getPageById. destruct (List.find _ _); [done|].
        by intros [= <- <-]. }
      destruct (getPageById_missing s i) as [_ Hm]. by destruct (Hm E' p Hin).
Qed.

Lemma reachable_page_ids_unique_witness :
  getPageById 1 session0 = (Ok page0, session0).
Proof.
  destruct (reachable_page_ids_unique session0) as (_ & _ & H).
  - exact (reachable_from sampleBrowser sampleOptions).
  - apply H; [|evaluate]. vm_compute. apply list_elem_of_here.
Defined.

(** *** Snapshots *)

Lemma snapshotInv_filter l n k (P : Page * McpPage → Prop) (H : ∀ e, Decision (P e)) :
  snapshotInv l n k → snapshotInv (filter P l) n k.
Proof.
  intros [HA HB]. split.
  - intros p mp t [_ Hin]%list_elem_of_filter. by apply (HA p).
  - intros p1 mp1 p2 mp2 k1 k2 v [_ H1]%list_elem_of_filter [_ H2]%list_elem_of_filter.
    by apply HB.
Qed.

Lemma snapshotInv_update l n k p mp mp' :
  snapshotInv l n k → omap_get p l = Some mp → sameSnapshot mp mp' →
  snapshotInv (omap_set p mp' l) n k.
Proof.
  intros [HA HB] Hmp [Ht Hs]. pose proof (omap_get_elem_of _ _ _ Hmp) as Hin.
  split.
  - intros q mq t [[= -> ->]|Hq]%elem_of_omap_set; [|by apply (HA q)].
    rewrite Ht, Hs. by apply (HA p).
  - intros p1 mp1 p2 mp2 k1 k2 v [[= -> ->]|H1]%elem_of_omap_set
      [[= -> ->]|H2]%elem_of_omap_set; rewrite ?Hs; [done| | |by apply HB].
    + by apply (HB p mp p2 mp2).
    + by apply (HB p1 mp1 p mp).
Qed.

Lemma snapshotInv_new l n k p name :
  snapshotInv l n k → omap_get p l = None →
  snapshotInv (omap_set p (set_isolatedContextName name (newMcpPage n)) l) (S n) k.
Proof.
  intros [HA HB] Hmp. split.
  - intros q mq t [[= -> ->]|Hq]%elem_of_omap_set; [done|by apply (HA q)].
  - intros p1 mp1 p2 mp2 k1 k2 v [[= -> ->]|H1]%elem_of_omap_set
      [[= -> ->]|H2]%elem_of_omap_set; cbn; rewrite ?lookup_empty; try done.
    by apply HB.
Qed.

(** What a capture of the tree [tree], numbered [sid], establishes for the
    snapshot and the sticky map it stores, given the sticky map [sticky]
    it starts from. *)
Lemma capture_index (sid : nat) (tree : SerializedAXNode) (sticky : gmap string string) :
  let r := assignIds sid tree (initialAssignState sticky) in
  (∀ n, n ∈ nodesOf r.1 → collect r.2 !! nodeKey n = Some (node_id n))
  ∧ (∀ uid n, as_idToNode r.2 !! uid = Some n → n ∈ nodesOf r.1 ∧ node_id n = uid)
  ∧ (∀ n, n ∈ nodesOf r.1 → is_Some (as_idToNode r.2 !! node_id n))
  ∧ (∀ k v, collect r.2 !! k = Some v →
       sticky !! k = Some v ∨ ∃ c, v = mintId sid c).
Proof.
  intros r.
  destruct (assignIds_spec sid tree (initialAssignState sticky))
    as [(_ & K & S & I & _ & _) _].
  destruct (assignIds_trace sid tree (initialAssignState sticky))
    as (TI & TS & _ & _).
  fold r in K, S, I, TI, TS. cbn [initialAssignState as_sticky as_idToNode
    as_seenUniqueIds] in S, I, TI, TS.
  split; [|split; [|split]].
  - intros n Hn. unfold collect. apply map_lookup_filter_Some. split; [by apply K|].
    cbn. apply S. right. by exists n.
  - intros uid n [H|H]%TI; [by rewrite lookup_empty in H|done].
  - intros n Hn. apply I. right. by exists n.
  - intros k v [Hk _]%map_lookup_filter_Some.
    apply TS in Hk as [?|(_ & c & _ & ->)]; [by left|right; by exists c].
Qed.

Lemma snapshotInv_capture verbose data target rootNode fetched s :
  reachable s → holds snapshotInv s →
  holds snapshotInv (createTextSnapshot verbose data target rootNode fetched s).2.
Proof.
  intros Hsticky%reachable_stickyInv Hs.
  destruct (createTextSnapshot_cases verbose data target rootNode fetched s)
    as [->|(page & mp & tree & t & Hmp & _ & _ & Hc)]; [exact Hs|].
  cbv zeta in Hc. destruct Hc as (-> & Hroot & Hidx). unfold holds. cbn.
  destruct Hs as [HA HB]. pose proof (omap_get_elem_of _ _ _ Hmp) as Hin.
  destruct (capture_index (nextSnapshotId s) tree (uniqueBackendNodeIdToMcpId mp))
    as (C1 & C2 & C3 & C4).
  cbv zeta in C1, C2, C3, C4. rewrite <- Hroot, <- Hidx in *.
  assert (∀ q mq k1 k2 v, (q, mq) ∈ mcpPages s → page ≠ q →
            collect (assignIds (nextSnapshotId s) tree
                       (initialAssignState (uniqueBackendNodeIdToMcpId mp))).2
              !! k1 = Some v →
            uniqueBackendNodeIdToMcpId mq !! k2 = Some v → False) as Hfresh.
  { intros q mq k1 k2 v Hq Hne [H1|[c ->]]%C4 H2.
    - by apply (HB page mp q mq k1 k2 v).
    - destruct (Hsticky q mq Hq) as [Hm _].
      destruct (Hm k2 _ H2) as (sid' & c' & [-> ->]%mintId_inj & Hlt). lia. }
  split.
  - intros q mq t' [[= -> ->]|Hq]%elem_of_omap_set; [|by apply (HA q)].
    cbn. intros [= <-]. done.
  - intros p1 mp1 p2 mp2 k1 k2 v [[= -> ->]|H1]%elem_of_omap_set
      [[= -> ->]|H2]%elem_of_omap_set; cbn; [done| | |by apply HB].
    + intros Hne Hv1 Hv2. by apply (Hfresh p2 mp2 k1 k2 v).
    + intros Hne Hv1 Hv2. apply (Hfresh p1 mp1 k2 k1 v); [done|congruence|done..].
Qed.

Lemma reachable_snapshotInv (s : McpContext) : reachable s → holds snapshotInv s.
Proof.
  apply (reachable_holds snapshotInv sameSnapshot).
  - done.
  - done.
  - apply snapshotInv_filter.
  - apply snapshotInv_update.
  - apply snapshotInv_new.
  - split; [by intros ? ? ? ?%elem_of_nil|by intros ? ? ? ? ? ? ? ?%elem_of_nil].
  - apply snapshotInv_capture.
Qed.

Lemma nodesOf_head (n : TextSnapshotNode) : n ∈ nodesOf n.
Proof. destruct n. apply list_elem_of_here. Qed.

(** The record behind a stored snapshot. *)
Lemma getTextSnapshot_record (s : McpContext) (p : Page) (t : TextSnapshot) :
  getTextSnapshot s (Some p) = Some t →
  ∃ mp, omap_get p (mcpPages s) = Some mp ∧ (p, mp) ∈ mcpPages s
        ∧ textSnapshot mp = Some t.
Proof.
  unfold getTextSnapshot. destruct (omap_get p (mcpPages s)) as [mp|] eqn:E; [|done].
  cbn. intros Ht. exists mp. split; [done|]. split; [by apply omap_get_elem_of|done].
Qed.

(** X10. The uids of a stored snapshot, in a reachable session. The index
    of the snapshot holds exactly the nodes of its tree: a uid it
    resolves leads to a node of the tree that carries this uid, and the
    uid of every node of the tree resolves, to a node with the same
    unique backend key. Within the snapshot a uid names one element: two
    nodes have the same uid if and only if they have the same unique
    backend key. *)
Theorem reachable_snapshot_uids (s : McpContext) (p : Page) (t : TextSnapshot) :
  reachable s →
  getTextSnapshot s (Some p) = Some t →
  (∀ uid n, idToNode t !! uid = Some n → n ∈ nodesOf (root t) ∧ node_id n = uid)
  ∧ (∀ n, n ∈ nodesOf (root t) →
       ∃ n', idToNode t !! node_id n = Some n' ∧ n' ∈ nodesOf (root t)
             ∧ nodeKey n' = nodeKey n)
  ∧ (∀ n1 n2, n1 ∈ nodesOf (root t) → n2 ∈ nodesOf (root t) →
       (node_id n1 = node_id n2 ↔ nodeKey n1 = nodeKey n2)).
Proof.
  intros Hr (mp & _ & Hin & Ht)%getTextSnapshot_record.
  destruct (reachable_snapshotInv s Hr) as [HA _].
  destruct (HA p mp t Hin Ht) as (A1 & A2 & A3).
  destruct (reachable_stickyInv s Hr p mp Hin) as [_ Hinj].
  assert (∀ n1 n2, n1 ∈ nodesOf (root t) → n2 ∈ nodesOf (root t) →
            (node_id n1 = node_id n2 ↔ nodeKey n1 = nodeKey n2)) as Hiff.
  { intros n1 n2 H1%A1 H2%A1. split.
    - intros Heq. rewrite Heq in H1. by eapply Hinj.
    - intros Heq. rewrite Heq in H1. congruence. }
  split; [exact A2|]. split; [|exact Hiff].
  intros n Hn. destruct (A3 n Hn) as [n' Hn']. exists n'.
  destruct (A2 _ _ Hn') as [Hin' Hid']. split; [done|]. split; [done|].
  by apply Hiff.
Qed.

Lemma reachable_snapshot_uids_witness :
  ∃ n', idToNode snapshot0 !! node_id (root snapshot0) = Some n'
        ∧ nodeKey n' = nodeKey (root snapshot0).
Proof.
  destruct (reachable_snapshot_uids session0captured page0 snapshot0) as (_ & H & _).
  - exact (reachable_run _ _ (reachable_from sampleBrowser sampleOptions)).
  - evaluate.
  - destruct (H (root snapshot0)) as (n' & H1 & _ & H2).
    + apply nodesOf_head.
    + exists n'. split; [exact H1|exact H2].
Defined.

(** X11. In a reachable session a uid belongs to one page: if it resolves
    on two pages, they are the same page. The linear scan of
    [McpContext.getAXNodeByUid] therefore finds a node exactly when the
    uid resolves on some registered page, and then it finds what the uid
    resolves to on that page, whatever the order of the records. *)
Theorem reachable_uid_one_page (s : McpContext) (uid : string) :
  reachable s →
  (∀ p1 p2, is_Some (resolveOnPage s p1 uid) → is_Some (resolveOnPage s p2 uid) →
     p1 = p2)
  ∧ (∀ n, McpContext_getAXNodeByUid s uid = Some n
          ↔ ∃ p, resolveOnPage s p uid = Some n).
Proof.
  intros Hr.
  destruct (reachable_snapshotInv s Hr) as [HA HB].
  destruct (reachable_pageIdsInv s Hr) as (Hnd & _).
  (* a record that resolves the uid holds it in its sticky map *)
  assert (∀ p mp n, (p, mp) ∈ mcpPages s → getAXNodeByUid mp uid = Some n →
            ∃ k, uniqueBackendNodeIdToMcpId mp !! k = Some uid) as Hsticky.
  { intros p mp n Hin. unfold getAXNodeByUid.
    destruct (textSnapshot mp) as [t|] eqn:Ht; [|done]. cbn. intros Hn.
    destruct (HA p mp t Hin Ht) as (A1 & A2 & _).
    destruct (A2 _ _ Hn) as [Hnode <-]. exists (nodeKey n). by apply A1. }
  assert (∀ p1 mp1 n1 p2 mp2 n2,
            (p1, mp1) ∈ mcpPages s → getAXNodeByUid mp1 uid = Some n1 →
            (p2, mp2) ∈ mcpPages s → getAXNodeByUid mp2 uid = Some n2 →
            p1 = p2) as Hone.
  { intros p1 mp1 n1 p2 mp2 n2 H1 [k1 Hk1]%(Hsticky p1) H2 [k2 Hk2]%(Hsticky p2);
      [|done..].
    destruct (decide (p1 = p2)) as [|Hne]; [done|].
    by destruct (HB p1 mp1 p2 mp2 k1 k2 uid). }
  assert (∀ p n, resolveOnPage s p uid = Some n →
            ∃ mp, (p, mp) ∈ mcpPages s ∧ getAXNodeByUid mp uid = Some n) as Hres.
  { intros p n. unfold resolveOnPage.
    destruct (omap_get p (mcpPages s)) as [mp|] eqn:E; [|done]. cbn.
    intros Hn. exists mp. split; [by apply omap_get_elem_of|done]. }
  split.
  - intros p1 p2 [n1 (mp1 & H1 & G1)%Hres] [n2 (mp2 & H2 & G2)%Hres].
    by eapply Hone.
  - intros n. unfold McpContext_getAXNodeByUid.
    assert (∀ l, (∀ e, e ∈ l → e ∈ mcpPages s) →
              (scanAXNodeByUid uid l = Some n →
               ∃ p mp, (p, mp) ∈ l ∧ getAXNodeByUid mp uid = Some n)
              ∧ (∀ p mp, (p, mp) ∈ l → getAXNodeByUid mp uid = Some n →
                 scanAXNodeByUid uid l = Some n)) as Hscan.
    { induction l as [|[q mq] l IH]; intros Hsub.
      - split; [done|]. by intros ? ? ?%elem_of_nil.
      - cbn [scanAXNodeByUid].
        destruct IH as [IH1 IH2]; [intros e He; apply Hsub; by right|].
        destruct (getAXNodeByUid mq uid) as [nq|] eqn:Eq.
        + split.
          * intros [= <-]. exists q, mq. split; [apply list_elem_of_here|done].
          * intros p mp [[= -> ->]|Hin]%elem_of_cons Hn; [congruence|].
            assert (p = q) as ->.
            { eapply (Hone p mp n q mq nq); [apply Hsub; by right|done| |done].
              apply Hsub, list_elem_of_here. }
            assert (omap_get q (mcpPages s) = Some mp) as E1.
            { apply omap_get_NoDup; [done|]. apply Hsub. by right. }
            assert (omap_get q (mcpPages s) = Some mq) as E2.
            { apply omap_get_NoDup; [done|]. apply Hsub, list_elem_of_here. }
            congruence.
        + split.
          * intros (p & mp & Hin & Hn)%IH1. exists p, mp. split; [by right|done].
          * intros p mp [[= -> ->]|Hin]%elem_of_cons Hn; [congruence|].
            by eapply IH2. }
    destruct (Hscan (mcpPages s)) as [S1 S2]; [done|]. split.
    + intros (p & mp & Hin & Hn)%S1. exists p. unfold resolveOnPage.
      by rewrite (omap_get_NoDup p mp (mcpPages s) Hnd Hin).
    + intros [p (mp & Hin & Hn)%Hres]. by eapply S2.
Qed.

Lemma reachable_uid_one_page_witness :
  McpContext_getAXNodeByUid session0captured "1_0"
  = resolveOnPage session0captured page0 "1_0".
Proof.
  destruct (reachable_uid_one_page session0captured "1_0") as [_ H].
  - exact (reachable_run _ _ (reachable_from sampleBrowser sampleOptions)).
  - destruct (resolveOnPage session0captured page0 "1_0") as [n|] eqn:E.
    + apply H. by exists page0.
    + vm_compute in E. discriminate E.
Defined.

(** ** Captures *)

Lemma TextSnapshotNode_ind (P : TextSnapshotNode → Prop) :
  (∀ id role name value loaderId backendNodeId children,
     Forall P children →
     P (mkNode id role name value loaderId backendNodeId children)) →
  ∀ node, P node.
Proof.
  intros H. fix IH 1. intros [i r n v l b cs]. apply H.
  induction cs as [|c cs IHcs]; constructor; [apply IH | exact IHcs].
Qed.

(** The stack loop of [resolveCdpElementId] returns the uid of a node of
    the tree with the wanted backend node id, and finds one whenever the
    tree has one. *)
Lemma findBackendNode_spec (n : nat) (node : TextSnapshotNode) :
  (∀ uid, findBackendNode n node = Some uid →
     ∃ m, m ∈ nodesOf node ∧ node_backendNodeId m = Some n ∧ node_id m = uid)
  ∧ (findBackendNode n node = None ↔
     ∀ m, m ∈ nodesOf node → node_backendNodeId m ≠ Some n).
Proof.
  induction node as [i r na v l b cs IH] using TextSnapshotNode_ind.
  cbn [findBackendNode nodesOf node_backendNodeId node_id node_children].
  set (children := fix children (cs : list TextSnapshotNode) : option string :=
         match cs with
         | [] => None
         | c :: cs' =>
             match children cs' with
             | Some id => Some id
             | None => findBackendNode n c
             end
         end).
  assert ((∀ uid, children cs = Some uid →
             ∃ m, m ∈ flat_map nodesOf cs ∧ node_backendNodeId m = Some n
                  ∧ node_id m = uid)
          ∧ (children cs = None ↔
             ∀ m, m ∈ flat_map nodesOf cs → node_backendNodeId m ≠ Some n))
    as [Hsome Hnone].
  { clear -IH. induction cs as [|c cs IHcs].
    - split; [done|]. split; [by intros _ m ?%elem_of_nil|done].
    - apply Forall_cons in IH as [[Hc1 Hc2] Hcs].
      destruct (IHcs Hcs) as [H1 H2]. cbn [flat_map].
      change (children (c :: cs)) with
        (match children cs with Some id => Some id | None => findBackendNode n c end).
      destruct (children cs) as [id|] eqn:E.
      + split.
        * intros uid [= <-]. destruct (H1 id eq_refl) as (m & Hm & ?).
          exists m. split; [apply elem_of_app; by right|done].
        * split; [done|]. intros Hall. destruct (H1 id eq_refl) as (m & Hm & Hb & _).
          destruct (Hall m); [apply elem_of_app; by right|done].
      + split.
        * intros uid (m & Hm & ?)%Hc1. exists m. split; [apply elem_of_app; by left|done].
        * rewrite Hc2. split.
          -- intros Hc m [?|?]%elem_of_app; [by apply Hc|by apply H2].
          -- intros Hall m Hm. apply Hall, elem_of_app. by left. }
  destruct (decide (b = Some n)) as [->|Hb].
  - split.
    + intros uid [= <-]. eexists. split; [apply list_elem_of_here|done].
    + split; [done|]. intros Hall. by destruct (Hall _ (list_elem_of_here _ _)).
  - split.
    + intros uid (m & Hm & ?)%Hsome. exists m. split; [by right|done].
    + rewrite Hnone. split.
      * intros Hall m [->|Hm]%elem_of_cons; [done|by apply Hall].
      * intros Hall m Hm. apply Hall. by right.
Qed.

(** The snapshot a capture of a registered page stores, field by field. *)
Lemma createTextSnapshot_stored (verbose0 : bool) (devtoolsData : option DevToolsData)
    (page : Page) (tree : SerializedAXNode) (fetched : DevToolsData)
    (s : McpContext) (mp : McpPage) :
  omap_get page (mcpPages s) = Some mp →
  let sid := nextSnapshotId s in
  let r := assignIds sid tree (initialAssignState (uniqueBackendNodeIdToMcpId mp)) in
  let selected :=
    match cdpBackendNodeId (default fetched devtoolsData) with
    | Some n => if decide (n = 0) then None else Some n
    | None => None
    end in
  createTextSnapshot verbose0 devtoolsData (Some page) (Some tree) fetched s
  = (Ok tt,
     set_mcpPages
       (omap_set page
          (set_snapshot
             (Some {| root := r.1; idToNode := as_idToNode r.2;
                      snapshotId := pretty sid;
                      selectedElementUid := selected ≫= λ n, findBackendNode n r.1;
                      hasSelectedElement := bool_decide (selected ≠ None);
                      verbose := verbose0 |})
             (collect r.2) mp)
          (mcpPages s))
       (set_nextSnapshotId (S sid) s)).
Proof.
  intros Hmp sid r selected. subst selected.
  unfold createTextSnapshot, getMcpPage. munfold. rewrite Hmp.
  fold sid. change (assignIds sid tree _) with r.
  destruct r as [n a]. cbn [fst snd].
  destruct (cdpBackendNodeId (default fetched devtoolsData)) as [k|];
    [destruct (decide (k = 0)) as [->|Hk]|];
    cbn [mcpPages set_mcpPages set_nextSnapshotId]; rewrite ?omap_set_set; try done.
  unfold resolveCdpElementId. rewrite decide_False by done.
  cbn [mcpPages set_mcpPages set_nextSnapshotId].
  rewrite omap_get_set_eq. cbn. by destruct (findBackendNode k n).
Qed.

(** X12. The selected element of a capture. The DevTools data the caller
    passes takes precedence over the data fetched from the DevTools
    window. Without a backend node id in it (absent, or 0) the snapshot
    has no selected element. With one, the snapshot is marked as having a
    selected element even when no uid is found for it; a uid that is
    stored belongs to a node of the snapshot with that backend node id,
    and none is stored only if the snapshot has no such node. *)
Theorem createTextSnapshot_selected_element (verbose0 : bool)
    (devtoolsData : option DevToolsData) (page : Page) (tree : SerializedAXNode)
    (fetched : DevToolsData) (s : McpContext) :
  is_Some (omap_get page (mcpPages s)) →
  ∃ t,
    getTextSnapshot
      (createTextSnapshot verbose0 devtoolsData (Some page) (Some tree) fetched s).2
      (Some page) = Some t
    ∧ let selected := cdpBackendNodeId (default fetched devtoolsData) in
      (selected = None ∨ selected = Some 0 →
         hasSelectedElement t = false ∧ selectedElementUid t = None)
      ∧ (∀ n, selected = Some n → n ≠ 0 →
           hasSelectedElement t = true
           ∧ (∀ uid, selectedElementUid t = Some uid →
                ∃ node, node ∈ nodesOf (root t)
                        ∧ node_backendNodeId node = Some n ∧ node_id node = uid)
           ∧ (selectedElementUid t = None ↔
              ∀ node, node ∈ nodesOf (root t) → node_backendNodeId node ≠ Some n)).
Proof.
  intros [mp Hmp].
  rewrite (createTextSnapshot_stored verbose0 devtoolsData page tree fetched s mp Hmp).
  eexists. split.
  { unfold getTextSnapshot. cbn [snd mcpPages set_mcpPages].
    rewrite omap_get_set_eq. reflexivity. }
  cbv zeta. cbn [hasSelectedElement selectedElementUid root].
  destruct (cdpBackendNodeId (default fetched devtoolsData)) as [k|].
  - split.
    + intros [?|[= ->]]; [done|]. by rewrite decide_True.
    + intros n [= <-] Hn. rewrite decide_False by done. cbn.
      split; [done|]. apply findBackendNode_spec.
  - split; [done|]. by intros n.
Qed.

(** The DevTools window has the second option of [sampleTree] selected. *)
Lemma createTextSnapshot_selected_element_witness :
  ∃ t,
    getTextSnapshot
      (createTextSnapshot false
         (Some {| cdpRequestId := None; cdpBackendNodeId := Some 9 |})
         (Some page0) (Some sampleTree) noDevToolsData session0).2
      (Some page0) = Some t
    ∧ hasSelectedElement t = true.
Proof.
  destruct (createTextSnapshot_selected_element false
              (Some {| cdpRequestId := None; cdpBackendNodeId := Some 9 |})
              page0 sampleTree noDevToolsData session0) as (t & Ht & _ & H).
  - vm_compute. by eexists.
  - exists t. split; [exact Ht|]. by apply (H 9).
Defined.

(** X13. What a capture touches. On a page without a record it throws
    'No McpPage found'; when the driver delivers no tree it returns and
    changes nothing, and takes no capture number. Otherwise it returns
    and takes exactly one capture number, which becomes the snapshot id;
    the record of the page keeps its page id, its emulation settings and
    the name of its isolated context; and the records of the other
    pages, the page list, the selected page, the focus map, the request
    page, the page-id counter and the driver are as before. *)
Theorem createTextSnapshot_frame (verbose0 : bool) (devtoolsData : option DevToolsData)
    (page : Page) (rootNode : option SerializedAXNode) (fetched : DevToolsData)
    (s : McpContext) :
  let r := createTextSnapshot verbose0 devtoolsData (Some page) rootNode fetched s in
  (omap_get page (mcpPages s) = None → r = (Throw NoMcpPageFound, s))
  ∧ (is_Some (omap_get page (mcpPages s)) → rootNode = None → r = (Ok tt, s))
  ∧ (∀ mp tree, omap_get page (mcpPages s) = Some mp → rootNode = Some tree →
       r.1 = Ok tt
       ∧ nextSnapshotId r.2 = S (nextSnapshotId s)
       ∧ (∃ mp' t, omap_get page (mcpPages r.2) = Some mp'
                   ∧ textSnapshot mp' = Some t
                   ∧ snapshotId t = pretty (nextSnapshotId s)
                   ∧ verbose t = verbose0
                   ∧ mp_id mp' = mp_id mp
                   ∧ emulationSettings mp' = emulationSettings mp
                   ∧ isolatedContextName mp' = isolatedContextName mp)
       ∧ (∀ q, q ≠ page → omap_get q (mcpPages r.2) = omap_get q (mcpPages s))
       ∧ pages r.2 = pages s
       ∧ selectedPage r.2 = selectedPage s
       ∧ focusedPagePerContext r.2 = focusedPagePerContext s
       ∧ requestPage r.2 = requestPage s
       ∧ nextPageId r.2 = nextPageId s
       ∧ browser r.2 = browser s).
Proof.
  cbv zeta. split; [|split].
  - intros Hmp. unfold createTextSnapshot, getMcpPage. munfold. by rewrite Hmp.
  - intros [mp Hmp] ->. unfold createTextSnapshot, getMcpPage. munfold. by rewrite Hmp.
  - intros mp tree Hmp ->.
    rewrite (createTextSnapshot_stored verbose0 devtoolsData page tree fetched s mp Hmp).
    cbn [fst snd mcpPages set_mcpPages set_nextSnapshotId nextSnapshotId pages
         selectedPage focusedPagePerContext requestPage nextPageId browser].
    split; [done|]. split; [done|]. split.
    { eexists _, _. split; [apply omap_get_set_eq|]. by cbn. }
    split; [|done]. intros q Hq. by apply omap_get_set_ne.
Qed.

(** A run of the indexer over nodes with pairwise different keys that the
    sticky map does not hold yet mints the identifiers in order. *)
Lemma assignIds_numbering (sid : nat) (node : SerializedAXNode) (a : AssignState) :
  let r := assignIds sid node a in
  (∀ m, m ∈ nodesOf r.1 → as_sticky a !! nodeKey m = None) →
  NoDup (nodeKey <$> nodesOf r.1) →
  node_id <$> nodesOf r.1
  = mintId sid <$> seq (as_idCounter a) (length (nodesOf r.1))
  ∧ as_idCounter r.2 = as_idCounter a + length (nodesOf r.1)
  ∧ (∀ k, as_sticky r.2 !! k = None
          ↔ as_sticky a !! k = None ∧ k ∉ nodeKey <$> nodesOf r.1).
Proof.
  cbv zeta. revert node a.
  apply (assignIds_run sid (λ a ns a',
    (∀ m, m ∈ ns → as_sticky a !! nodeKey m = None) →
    NoDup (nodeKey <$> ns) →
    node_id <$> ns = mintId sid <$> seq (as_idCounter a) (length ns)
    ∧ as_idCounter a' = as_idCounter a + length ns
    ∧ (∀ k, as_sticky a' !! k = None
            ↔ as_sticky a !! k = None ∧ k ∉ nodeKey <$> ns))).
  - intros a _ _. split; [done|]. split; [cbn; lia|].
    intros k. split; [|by intros [? _]]. intros Hk. split; [done|].
    apply not_elem_of_nil.
  - intros a a1 a2 ns1 ns2 H1 H2 Hfresh Hnd.
    rewrite fmap_app in Hnd. apply NoDup_app in Hnd as (Hnd1 & Hdisj & Hnd2).
    destruct H1 as (I1 & C1 & S1); [|done|].
    { intros m Hm. apply Hfresh, elem_of_app. by left. }
    destruct H2 as (I2 & C2 & S2); [|done|].
    { intros m Hm. apply S1. split; [apply Hfresh, elem_of_app; by right|].
      intros Hin. apply (Hdisj (nodeKey m)); [done|].
      apply list_elem_of_fmap. by exists m. }
    split; [|split].
    + rewrite fmap_app, I1, I2, C1, length_app, seq_app, fmap_app. done.
    + rewrite C2, C1, length_app. lia.
    + intros k. rewrite S2, S1, fmap_app, not_elem_of_app. tauto.
  - intros a node children c2 k n Hc Hfresh Hnd.
    rewrite fmap_cons in Hnd. apply NoDup_cons in Hnd as [Hhead Hnd].
    assert (nodeKey n = uniqueBackendId node) as Hkey by reflexivity.
    assert (as_sticky a !! uniqueBackendId node = None) as Hnone.
    { rewrite <- Hkey. apply Hfresh, list_elem_of_here. }
    assert (k = (mintId sid (as_idCounter a),
                 {| as_sticky := <[uniqueBackendId node := mintId sid (as_idCounter a)]>
                                   (as_sticky a);
                    as_idCounter := S (as_idCounter a);
                    as_idToNode := as_idToNode a;
                    as_seenUniqueIds := {[uniqueBackendId node]} ∪ as_seenUniqueIds a |}))
      as Hk.
    { subst k. unfold assignKey. by rewrite Hnone. }
    clearbody k. subst k. cbn [fst snd as_sticky as_idCounter] in *.
    destruct Hc as (Ic & Cc & Sc); [|done|].
    { intros m Hm. rewrite lookup_insert_ne.
      - apply Hfresh. by right.
      - intros Heq. apply Hhead. rewrite Hkey, Heq.
        apply list_elem_of_fmap. by exists m. }
    change (as_sticky (recordNode n c2)) with (as_sticky c2).
    change (as_idCounter (recordNode n c2)) with (as_idCounter c2).
    split; [|split].
    + cbn [length seq fmap list_fmap]. rewrite <- Ic. done.
    + rewrite Cc. cbn [length]. lia.
    + intros key. rewrite Sc, fmap_cons, not_elem_of_cons, Hkey.
      rewrite lookup_insert_None.
      split; [intros [[? ?] ?]|intros (? & ? & ?)]; repeat split; congruence.
Qed.

(** X14. Numbering of a first capture. When the page has no sticky
    identifiers yet and the nodes of the captured tree have pairwise
    different unique backend keys, the capture numbered [k] gives its
    nodes the uids [k_0], [k_1], [k_2], ... in depth-first order, parents
    before children. *)
Theorem first_capture_numbering (verbose0 : bool) (devtoolsData : option DevToolsData)
    (page : Page) (tree : SerializedAXNode) (fetched : DevToolsData) (s : McpContext) :
  stickyMap s page = Some ∅ →
  NoDup (uniqueBackendId <$> flattenAX tree) →
  ∃ t,
    getTextSnapshot
      (createTextSnapshot verbose0 devtoolsData (Some page) (Some tree) fetched s).2
      (Some page) = Some t
    ∧ node_id <$> nodesOf (root t)
      = mintId (nextSnapshotId s) <$> seq 0 (length (flattenAX tree)).
Proof.
  unfold stickyMap. destruct (omap_get page (mcpPages s)) as [mp|] eqn:Hmp; [|done].
  intros [= Hempty] Hnd.
  rewrite (createTextSnapshot_stored verbose0 devtoolsData page tree fetched s mp Hmp).
  eexists. split.
  { unfold getTextSnapshot. cbn [snd mcpPages set_mcpPages].
    rewrite omap_get_set_eq. reflexivity. }
  cbn [root]. rewrite Hempty.
  destruct (assignIds_spec (nextSnapshotId s) tree (initialAssignState ∅)) as [_ Hmir].
  pose proof (mirrors_keys _ _ Hmir) as Hkeys.
  destruct (assignIds_numbering (nextSnapshotId s) tree (initialAssignState ∅))
    as (Hids & _ & _).
  - intros m _. apply lookup_empty.
  - by rewrite Hkeys.
  - rewrite Hids. cbn [initialAssignState as_idCounter].
    by rewrite <- (length_fmap nodeKey), Hkeys, length_fmap.
Qed.

Lemma first_capture_numbering_witness :
  ∃ t,
    getTextSnapshot
      (createTextSnapshot false None (Some page0) (Some sampleTree)
         noDevToolsData session0).2 (Some page0) = Some t
    ∧ node_id <$> nodesOf (root t) = ["1_0"; "1_1"; "1_2"].
Proof.
  destruct (first_capture_numbering false None page0 sampleTree noDevToolsData session0)
    as (t & Ht & Hids).
  - evaluate.
  - apply (bool_decide_unpack _). vm_compute. exact I.
  - exists t. split; [exact Ht|]. rewrite Hids. evaluate.
Defined.

(** ** Emulation settings *)

Lemma ranTo_ret (s : McpContext) (e : EmulationSettings) : ranTo s (ret e s) e.
Proof. exists []. by rewrite appendLog_nil, set_browser_id. Qed.

Lemma ranTo_send (s : McpContext) (page : Page) (c : DriverCall) (e : EmulationSettings) :
  ranTo s ((send page c ;;; ret e) s) e.
Proof. by exists [(page, c)]. Qed.

Lemma emulateNetwork_run page o e s :
  ranTo s (emulateNetwork page o e s)
    {| es_networkConditions :=
         match o with
         | None => es_networkConditions e
         | Some None => None
         | Some (Some l) =>
             if decide (l = "No emulation") then None
             else if decide (l = "Offline") then Some "Offline"
             else if decide (l ∈ b_predefinedNetworkConditions (browser s)) then Some l
             else es_networkConditions e
         end;
       es_cpuThrottlingRate := es_cpuThrottlingRate e;
       es_geolocation := es_geolocation e; es_userAgent := es_userAgent e;
       es_colorScheme := es_colorScheme e; es_viewport := es_viewport e |}.
Proof.
  unfold emulateNetwork. destruct o as [[l|]|].
  - destruct (decide (l = "No emulation")); [apply ranTo_send|].
    destruct (decide (l = "Offline")); [apply ranTo_send|].
    unfold bind at 1. unfold get.
    destruct (decide (l ∈ _)); [apply ranTo_send|].
    destruct e. apply ranTo_ret.
  - apply ranTo_send.
  - destruct e. apply ranTo_ret.
Qed.

Lemma emulateCpu_run page o e s :
  ranTo s (emulateCpu page o e s)
    {| es_networkConditions := es_networkConditions e;
       es_cpuThrottlingRate :=
         match o with None => es_cpuThrottlingRate e | Some r => r end;
       es_geolocation := es_geolocation e; es_userAgent := es_userAgent e;
       es_colorScheme := es_colorScheme e; es_viewport := es_viewport e |}.
Proof.
  unfold emulateCpu. destruct o; [apply ranTo_send|]. destruct e. apply ranTo_ret.
Qed.

Lemma emulateGeolocation_run page o e s :
  ranTo s (emulateGeolocation page o e s)
    {| es_networkConditions := es_networkConditions e;
       es_cpuThrottlingRate := es_cpuThrottlingRate e;
       es_geolocation := match o with None => es_geolocation e | Some g => g end;
       es_userAgent := es_userAgent e;
       es_colorScheme := es_colorScheme e; es_viewport := es_viewport e |}.
Proof.
  unfold emulateGeolocation. destruct o; [apply ranTo_send|]. destruct e.
  apply ranTo_ret.
Qed.

Lemma emulateUserAgent_run page o e s :
  ranTo s (emulateUserAgent page o e s)
    {| es_networkConditions := es_networkConditions e;
       es_cpuThrottlingRate := es_cpuThrottlingRate e;
       es_geolocation := es_geolocation e;
       es_userAgent := match o with None => es_userAgent e | Some ua => ua end;
       es_colorScheme := es_colorScheme e; es_viewport := es_viewport e |}.
Proof.
  unfold emulateUserAgent. destruct o; [apply ranTo_send|]. destruct e.
  apply ranTo_ret.
Qed.

Lemma emulateColorScheme_run page o e s :
  ranTo s (emulateColorScheme page o e s)
    {| es_networkConditions := es_networkConditions e;
       es_cpuThrottlingRate := es_cpuThrottlingRate e;
       es_geolocation := es_geolocation e; es_userAgent := es_userAgent e;
       es_colorScheme :=
         match o with
         | None => es_colorScheme e
         | Some (Some cs_dark) => Some dark
         | Some (Some cs_light) => Some light
         | Some (Some cs_auto) | Some None => None
         end;
       es_viewport := es_viewport e |}.
Proof.
  unfold emulateColorScheme. destruct o as [[[]|]|]; try apply ranTo_send.
  destruct e. apply ranTo_ret.
Qed.

Lemma emulateViewport_run page o e s :
  ranTo s (emulateViewport page o e s)
    {| es_networkConditions := es_networkConditions e;
       es_cpuThrottlingRate := es_cpuThrottlingRate e;
       es_geolocation := es_geolocation e; es_userAgent := es_userAgent e;
       es_colorScheme := es_colorScheme e;
       es_viewport :=
         match o with None => es_viewport e | Some v => withDefaults <$> v end |}.
Proof.
  unfold emulateViewport. destruct o; [apply ranTo_send|]. destruct e.
  apply ranTo_ret.
Qed.

(** [emulate], with the settings it stores written out. *)
Lemma emulate_run (options : EmulateOptions) (target : option Page) (s : McpContext) :
  (∃ e, emulate options target s = (Throw e, s))
  ∨ ∃ page mp l,
      (target = Some page ∨ target = None ∧ getSelectedPage s = (Ok page, s))
      ∧ omap_get page (mcpPages s) = Some mp
      ∧ emulate options target s
        = (if timeoutsNeedUpdate options then updateSelectedPageTimeouts else ret tt)
            (set_mcpPages
               (omap_set page
                  (set_emulationSettings
                     (emulated (b_predefinedNetworkConditions (browser s)) options
                        (emulationSettings mp)) mp)
                  (mcpPages s))
               (set_browser (appendLog (browser s) l) s)).
Proof.
  remember (emulate options target s) as r eqn:Er.
  unfold emulate in Er. unfold bind at 1 in Er.
  set (resolve := match target with Some p => ret p | None => getSelectedPage end) in Er.
  assert ((∃ e, resolve s = (Throw e, s))
          ∨ ∃ page, resolve s = (Ok page, s)
                    ∧ (target = Some page
                       ∨ target = None ∧ getSelectedPage s = (Ok page, s)))
    as [[e He]|(page & He & Htarget)].
  { subst resolve. destruct target as [p|].
    - right. exists p. split; [done|by left].
    - unfold getSelectedPage. destruct (selectedPage s) as [p|]; [|left; by eexists].
      destruct (isClosed (browser s) p); [left; by eexists|].
      right. exists p. split; [done|by right]. }
  { rewrite He in Er. left. by exists e. }
  rewrite He in Er. clear He resolve.
  unfold bind at 1 in Er. unfold getMcpPage in Er.
  destruct (omap_get page (mcpPages s)) as [mp|] eqn:Hmp; [|left; by eexists].
  unfold bind at 1 in Er.
  destruct (emulateNetwork_run page (eo_networkConditions options)
              (emulationSettings mp) s) as (l1 & E1).
  rewrite E1 in Er. clear E1. unfold bind at 1 in Er.
  match type of Er with context [emulateCpu ?p ?o ?e ?t] =>
    destruct (emulateCpu_run p o e t) as (l2 & E2) end.
  cbn [es_networkConditions es_cpuThrottlingRate es_geolocation es_userAgent
       es_colorScheme es_viewport] in E2.
  rewrite E2 in Er. clear E2. unfold bind at 1 in Er.
  match type of Er with context [emulateGeolocation ?p ?o ?e ?t] =>
    destruct (emulateGeolocation_run p o e t) as (l3 & E3) end.
  cbn [es_networkConditions es_cpuThrottlingRate es_geolocation es_userAgent
       es_colorScheme es_viewport] in E3.
  rewrite E3 in Er. clear E3. unfold bind at 1 in Er.
  match type of Er with context [emulateUserAgent ?p ?o ?e ?t] =>
    destruct (emulateUserAgent_run p o e t) as (l4 & E4) end.
  cbn [es_networkConditions es_cpuThrottlingRate es_geolocation es_userAgent
       es_colorScheme es_viewport] in E4.
  rewrite E4 in Er. clear E4. unfold bind at 1 in Er.
  match type of Er with context [emulateColorScheme ?p ?o ?e ?t] =>
    destruct (emulateColorScheme_run p o e t) as (l5 & E5) end.
  cbn [es_networkConditions es_cpuThrottlingRate es_geolocation es_userAgent
       es_colorScheme es_viewport] in E5.
  rewrite E5 in Er. clear E5. unfold bind at 1 in Er.
  match type of Er with context [emulateViewport ?p ?o ?e ?t] =>
    destruct (emulateViewport_run p o e t) as (l6 & E6) end.
  cbn [es_networkConditions es_cpuThrottlingRate es_geolocation es_userAgent
       es_colorScheme es_viewport] in E6.
  rewrite E6 in Er. clear E6. unfold bind at 1 in Er. unfold modify at 1 in Er.
  cbn [browser set_browser mcpPages] in Er.
  rewrite !appendLog_app in Er.
  right. exists page, mp, (l1 ++ l2 ++ l3 ++ l4 ++ l5 ++ l6)%list.
  split; [done|]. split; [done|].
  rewrite Er. unfold emulated. destruct (timeoutsNeedUpdate options); reflexivity.
Qed.

Lemma withDefaults_idem (v : Viewport) : withDefaults (withDefaults v) = withDefaults v.
Proof. done. Qed.


(** The session after an [emulate] that returns. *)
Lemma emulate_returns (options : EmulateOptions) (target : option Page)
    (s s' : McpContext) :
  emulate options target s = (Ok tt, s') →
  ∃ page mp b,
    (target = Some page ∨ target = None ∧ getSelectedPage s = (Ok page, s))
    ∧ omap_get page (mcpPages s) = Some mp
    ∧ s' = set_mcpPages
             (omap_set page
                (set_emulationSettings
                   (emulated (b_predefinedNetworkConditions (browser s)) options
                      (emulationSettings mp)) mp)
                (mcpPages s))
             (set_browser b s).
Proof.
  intros Hok.
  destruct (emulate_run options target s)
    as [[e He]|(page & mp & l & Htarget & Hmp & He)]; [congruence|].
  exists page, mp. rewrite He in Hok.
  destruct (timeoutsNeedUpdate options).
  - pose proof (driverOnly_updateSelectedPageTimeouts
                  (set_mcpPages
                     (omap_set page
                        (set_emulationSettings
                           (emulated (b_predefinedNetworkConditions (browser s)) options
                              (emulationSettings mp)) mp)
                        (mcpPages s))
                     (set_browser (appendLog (browser s) l) s))) as [b Hb].
    rewrite Hok in Hb. cbn [snd] in Hb. exists b. by rewrite Hb.
  - unfold ret in Hok. injection Hok as <-. by eexists.
Qed.



Lemma omap_set_same {K V} `{EqDecision K} (k : K) (v : V) (l : list (K * V)) :
  omap_get k l = Some v → omap_set k v l = l.
Proof.
  induction l as [|[k0 v0] l IH]; [done|]. cbn [omap_get omap_set].
  destruct (decide (k0 = k)) as [->|Hne]; [by intros [= ->]|].
  intros H. by rewrite IH.
Qed.

(** X16. [restoreEmulation] re-applies the stored settings of a page and
    stores what it applied. When the stored settings are normalized, as
    the settings that [emulate] writes are, this leaves every page
    record as it was: the call changes nothing but the driver, to which
    the settings are sent again. *)
Theorem restoreEmulation_keeps_settings (target : option Page) (page : Page)
    (e : EmulationSettings) (s s' : McpContext) :
  restoreEmulation target s = (Ok tt, s') →
  target = Some page ∨ target = None ∧ getSelectedPage s = (Ok page, s) →
  settingsOf s page = Some e →
  normalized e →
  mcpPages s' = mcpPages s ∧ ∃ b, s' = set_browser b s.
Proof.
  intros Hok Htarget He [Hnet Hvp].
  unfold settingsOf in He.
  destruct (omap_get page (mcpPages s)) as [mp|] eqn:Hmp; [|done].
  injection He as He.
  assert (restoreEmulation target s
          = emulate {| eo_networkConditions := Some <$> es_networkConditions e;
                       eo_cpuThrottlingRate := Some <$> es_cpuThrottlingRate e;
                       eo_geolocation := Some <$> es_geolocation e;
                       eo_userAgent := Some <$> es_userAgent e;
                       eo_colorScheme :=
                         (λ c, Some match c with dark => cs_dark | light => cs_light end)
                           <$> es_colorScheme e;
                       eo_viewport := Some <$> es_viewport e |} target s) as Hre.
  { unfold restoreEmulation. unfold bind at 1.
    assert ((match target with Some p => ret p | None => getSelectedPage end) s
            = (Ok page, s)) as ->.
    { by destruct Htarget as [->|[-> ?]]. }
    unfold bind at 1. unfold getMcpPage. by rewrite Hmp, He. }
  rewrite Hre in Hok.
  apply emulate_returns in Hok as (page' & mp' & b & Htarget' & Hmp' & ->).
  assert (page' = page) as ->.
  { destruct Htarget as [->|[-> Hsel]], Htarget' as [[= ->]|[? Hsel']]; try done.
    congruence. }
  assert (mp' = mp) as -> by congruence.
  assert (set_emulationSettings
            (emulated (b_predefinedNetworkConditions (browser s))
               {| eo_networkConditions := Some <$> es_networkConditions e;
                  eo_cpuThrottlingRate := Some <$> es_cpuThrottlingRate e;
                  eo_geolocation := Some <$> es_geolocation e;
                  eo_userAgent := Some <$> es_userAgent e;
                  eo_colorScheme :=
                    (λ c, Some match c with dark => cs_dark | light => cs_light end)
                      <$> es_colorScheme e;
                  eo_viewport := Some <$> es_viewport e |}
               (emulationSettings mp)) mp = mp) as ->.
  { rewrite He. destruct mp as [i t u e0 n]. cbn in He. subst e0.
    unfold set_emulationSettings. cbn [mp_id textSnapshot uniqueBackendNodeIdToMcpId
      isolatedContextName]. f_equal.
    destruct e as [net cpu geo ua cs vp]. unfold emulated.
    cbn [eo_networkConditions eo_cpuThrottlingRate eo_geolocation eo_userAgent
         eo_colorScheme eo_viewport es_networkConditions es_cpuThrottlingRate
         es_geolocation es_userAgent es_colorScheme es_viewport] in *.
    f_equal.
    - destruct net as [l|]; [|done]. cbn.
      rewrite decide_False by congruence. by repeat case_decide; subst.
    - by destruct cpu.
    - by destruct geo.
    - by destruct ua.
    - by destruct cs as [[]|].
    - destruct vp as [v|]; [|done]. cbn. by rewrite (Hvp v). }
  rewrite (omap_set_same _ _ _ Hmp).
  split; [done|]. exists b. by destruct s.
Qed.

Lemma restoreEmulation_keeps_settings_witness :
  mcpPages (restoreEmulation None sessionThrottled).2 = mcpPages sessionThrottled.
Proof.
  apply (restoreEmulation_keeps_settings None page1 (cpuSettings 4) sessionThrottled
           (restoreEmulation None sessionThrottled).2).
  - evaluate.
  - right. split; [done|evaluate].
  - evaluate.
  - split; [discriminate|]. intros v. discriminate.
Defined.

(** ** Operations in sequence *)

(** X17. Selecting, then asserting focus. After [selectPage p], whatever
    its outcome, [assertPageIsFocused] accepts [p], rejects every other
    page of the context of [p], naming [p] as the active page, and
    answers for the pages of the other contexts as it did before. *)
Theorem selectPage_then_assert (s : McpContext) (p q : Page) :
  let s' := (selectPage p s).2 in
  assertPageIsFocused p s' = (Ok tt, s')
  ∧ (q ≠ p → browserContext q = browserContext p →
       assertPageIsFocused q s'
       = (Throw (FocusViolationError (getPageId s q) (getPageId s p)), s'))
  ∧ (browserContext q ≠ browserContext p →
       (assertPageIsFocused q s').1 = (assertPageIsFocused q s).1).
Proof.
  cbv zeta. destruct (selectPage_focusMap s p) as [Hmap _].
  pose proof (leaves_selectPage p s) as Hreg. unfold registry in Hreg.
  injection Hreg as _ _ _ _ Hrec _ _ _.
  unfold assertPageIsFocused, getPageId. rewrite Hmap, Hrec.
  split; [|split].
  - rewrite lookup_insert_eq. by rewrite decide_False by (by intros ?).
  - intros Hne Hctx. rewrite Hctx, lookup_insert_eq. by rewrite decide_True by done.
  - intros Hctx. rewrite lookup_insert_ne by done.
    destruct (focusedPagePerContext s !! browserContext q) as [f|]; [|done].
    by destruct (decide (f ≠ q)).
Qed.

(** X18. Closing a page and refreshing the registry. After a [closePage]
    that returns and a [createPagesSnapshot] that returns, the closed
    page is not in the page list, has no id and is no focus entry; and if
    pages are left, the selected page is one of them, so that closing the
    selected page makes the refresh select another page. *)
Theorem closePage_then_refresh (s s2 : McpContext) (pageId : nat) (page : Page)
    (l : list Page) :
  length (pages s) ≠ 1 →
  getPageById pageId s = (Ok page, s) →
  createPagesSnapshot (closePage pageId s).2 = (Ok l, s2) →
  (page ∉ l)
  ∧ getPageId s2 page = None
  ∧ (∀ ctx, focusedPagePerContext s2 !! ctx ≠ Some page)
  ∧ (l ≠ [] → ∃ sel, selectedPage s2 = Some sel ∧ sel ∈ l ∧ sel ≠ page).
Proof.
  intros Hlen Hget Hsnap.
  pose proof (closePage_ok s pageId page Hlen Hget) as Hclose.
  destruct (createPagesSnapshot_post (closePage pageId s).2)
    as (_ & Hrec & Hfoc & Hpages & Hret).
  cbv zeta in *. rewrite Hsnap in Hrec, Hfoc, Hpages, Hret. cbn [fst snd] in *.
  assert (page ∉ b_pages (browser (closePage pageId s).2)) as Hgone.
  { rewrite Hclose. cbn [snd browser set_browser]. unfold closeDriverPage.
    cbn [b_pages]. rewrite list_elem_of_filter. by intros [? _]. }
  destruct (Hret l eq_refl) as [-> Hsel].
  assert (page ∉ pages s2) as Hnot.
  { rewrite Hpages. unfold visiblePages. rewrite list_elem_of_filter.
    by intros [_ ?]. }
  split; [exact Hnot|]. split.
  - unfold getPageId. destruct (omap_get page (mcpPages s2)) as [mp|] eqn:E; [|done].
    destruct Hgone. apply Hrec. by rewrite E.
  - split.
    + intros ctx Hctx. by apply Hgone, (Hfoc ctx).
    + intros Hne. destruct (Hsel Hne) as (sel & Hs & Hin).
      exists sel. split; [done|]. split; [done|]. by intros ->.
Qed.

(** Closing the selected page [page1] of [sessionTwo] and refreshing
    selects [page0]. *)
Lemma closePage_then_refresh_witness :
  selectedPage (createPagesSnapshot (closePage 2 sessionTwo).2).2 = Some page0.
Proof.
  destruct (closePage_then_refresh sessionTwo
              (createPagesSnapshot (closePage 2 sessionTwo).2).2 2 page1 [page0])
    as (_ & _ & _ & H).
  - evaluate.
  - evaluate.
  - evaluate.
  - destruct H as (sel & Hsel & Hin & _); [done|].
    apply list_elem_of_singleton in Hin as ->. exact Hsel.
Defined.

(** The registration loop over pages that are pairwise different and not
    registered yet numbers them in order. *)
Lemma registerAll_numbers names (l : list Page) (s : McpContext) :
  NoDup l →
  (∀ p, p ∈ l → omap_get p (mcpPages s) = None) →
  let s1 := (forEach (registerPage names) l s).2 in
  nextPageId s1 = nextPageId s + length l
  ∧ ∀ i p, l !! i = Some p →
      omap_get p (mcpPages s1)
      = Some (set_isolatedContextName (names !! p) (newMcpPage (nextPageId s + i))).
Proof.
  revert s. induction l as [|a l IH]; intros s Hnd Hnew; cbv zeta.
  { split; [cbn; lia|]. by intros i p. }
  apply NoDup_cons in Hnd as [Ha Hnd].
  cbn [forEach]. unfold bind.
  assert (registerPage names a s
          = (Ok tt, set_mcpPages
                      (omap_set a (set_isolatedContextName (names !! a)
                                     (newMcpPage (nextPageId s))) (mcpPages s))
                      (set_nextPageId (S (nextPageId s)) s))) as ->.
  { unfold registerPage. by rewrite (Hnew a (list_elem_of_here _ _)). }
  set (sa := set_mcpPages _ _).
  destruct (IH sa Hnd) as [Hn Hids].
  { intros p Hp. subst sa. cbn [mcpPages set_mcpPages set_nextPageId].
    rewrite omap_get_set_ne; [apply Hnew; by right|]. by intros ->. }
  cbv zeta in Hn, Hids. split.
  - rewrite Hn. subst sa. cbn. lia.
  - intros [|i] p; cbn [lookup list_lookup].
    + intros [= <-].
      destruct (registerAll_records names l sa) as [_ Hrec]. specialize (Hrec a).
      cbv zeta in Hrec. subst sa. cbn [mcpPages set_mcpPages set_nextPageId] in Hrec.
      rewrite omap_get_set_eq in Hrec. rewrite decide_False in Hrec by done.
      rewrite Hrec. by rewrite Nat.add_0_r.
    + intros Hp. rewrite (Hids i p Hp). subst sa. cbn [nextPageId set_mcpPages
        set_nextPageId]. do 3 f_equal. lia.
Qed.

(** X19. The first registration. [McpContext.from] numbers the driver's
    pages 1, 2, 3, ... in the order in which the driver lists them
    (when it lists no page twice), and leaves the page-id counter at the
    next number. *)
Theorem from_numbers_pages (b : Browser) (o : McpContextOptions) :
  NoDup (b_pages b) →
  nextPageId (from b o).2 = S (length (b_pages b))
  ∧ ∀ i p, b_pages b !! i = Some p → getPageId (from b o).2 p = Some (S i).
Proof.
  intros Hnd. unfold from.
  destruct (createPagesSnapshot_state (emptyContext b o))
    as (names & s1 & r3 & s3 & Hs1 & E3 & H0 & H1 & H3 & H' & Hres).
  cbv zeta in *.
  unfold exceptContextNames in H0, H'. unfold registry in H3.
  injection H0 as _ _ _ Hm0 _ _ _ Hn0 _.
  injection H3 as _ _ _ _ Hm3 _ Hn3 _.
  injection H' as _ _ _ Hm' _ _ _ Hn' _.
  cbn [pruned mcpPages nextPageId set_pages set_focusedPagePerContext set_mcpPages
       emptyContext browser] in *.
  destruct (registerAll_numbers names (b_pages b) (getAllPages (emptyContext b o)).2)
    as [Hn Hids]; [done| |].
  { intros p _. by rewrite Hm0. }
  cbv zeta in Hn, Hids. rewrite <- Hs1 in Hn, Hids. rewrite Hn0 in Hn, Hids.
  split; [by rewrite Hn', Hn3, Hn|].
  intros i p Hp. unfold getPageId. rewrite Hm', Hm3.
  pose proof (omap_get_filter_key (λ q, q ∈ b_pages b) p (mcpPages s1)) as Hfk.
  cbv beta in Hfk. rewrite Hfk, decide_True by by eapply list_elem_of_lookup_2.
  by rewrite (Hids i p Hp).
Qed.

Lemma from_numbers_pages_witness :
  getPageId (from sampleBrowser sampleOptions).2 page0 = Some 1.
Proof.
  apply (from_numbers_pages sampleBrowser sampleOptions).
  - apply (bool_decide_unpack _). vm_compute. exact I.
  - reflexivity.
Defined.

(** ** Page creation *)

Lemma newPage_unfold (background : option bool) (name : option string)
    (s : McpContext) :
  newPage background name s =
  match createPagesSnapshot (openPage background name s).2 with
  | (Ok _, s1) =>
      match selectPage (openPage background name s).1 s1 with
      | (Ok _, s2) => (Ok (openPage background name s).1, s2)
      | (Throw e, s2) => (Throw e, s2)
      end
  | (Throw e, s1) => (Throw e, s1)
  end.
Proof.
  unfold newPage, openPage. destruct name as [name|].
  - unfold bind at 1. unfold bind at 1. unfold get at 1.
    destruct (omap_get name (isolatedContexts s)) as [ctx|]; reflexivity.
  - reflexivity.
Qed.

(** The page [newPage] opens: a live, open page with a handle the driver
    had not used, in the default context, in the context of the given
    name, or in a new context if the name is new. *)
Lemma openPage_spec (background : option bool) (name : option string)
    (s : McpContext) :
  let page := (openPage background name s).1 in
  let sa := (openPage background name s).2 in
  (b_next (browser s) ≤ page_handle page < b_next (browser sa))%nat
  ∧ browserContext page
    = match name with
      | None => b_defaultContext (browser s)
      | Some n => default (b_next (browser s)) (omap_get n (isolatedContexts s))
      end
  ∧ page ∈ b_pages (browser sa)
  ∧ pageState (browser sa) page = initialPageState
  ∧ (∀ n, name = Some n → omap_get n (isolatedContexts sa) = Some (browserContext page))
  ∧ registry sa
    = (opts s, isolatedContexts sa, nextIsolatedContextId s, pages s, mcpPages s,
       requestPage s, nextPageId s, nextSnapshotId s)
  ∧ selectedPage sa = selectedPage s
  ∧ focusedPagePerContext sa = focusedPagePerContext s.
Proof.
  cbv zeta. unfold openPage. destruct name as [n|].
  - destruct (omap_get n (isolatedContexts s)) as [ctx|] eqn:E; cbn.
    + split; [lia|]. split; [done|]. split; [apply elem_of_app; right; apply list_elem_of_here|].
      split; [unfold pageState; cbn; by rewrite lookup_insert_eq|].
      split; [by intros ? [= <-]|done].
    + split; [lia|]. split; [done|]. split; [apply elem_of_app; right; apply list_elem_of_here|].
      split; [unfold pageState; cbn; by rewrite lookup_insert_eq|].
      split; [|done]. intros ? [= <-]. apply omap_get_set_eq.
  - cbn. split; [lia|]. split; [done|].
    split; [apply elem_of_app; right; apply list_elem_of_here|].
    split; [unfold pageState; cbn; by rewrite lookup_insert_eq|]. by split.
Qed.

(** The discovery loop only writes generated names. *)
Lemma discoverContexts_get (n : string) defaultCtx known ctxs named next c2n :
  (∀ k, n ≠ generatedName k) →
  omap_get n (discoverContexts defaultCtx known ctxs named next c2n).1.1
  = omap_get n named.
Proof.
  intros Hn. revert named next c2n.
  induction ctxs as [|[ctx closed] ctxs IH]; intros named next c2n; [done|].
  cbn [discoverContexts]. case_decide; [|apply IH].
  rewrite IH. apply omap_get_set_ne. intros Heq. by apply (Hn next).
Qed.

Lemma getAllPages_keeps_name (n : string) (s : McpContext) :
  (∀ k, n ≠ generatedName k) →
  omap_get n (isolatedContexts (getAllPages s).2) = omap_get n (isolatedContexts s).
Proof.
  intros Hn. unfold getAllPages.
  pose proof (discoverContexts_get n (b_defaultContext (browser s))
    (isolatedContexts s).*2 (b_contexts (browser s)) (isolatedContexts s)
    (nextIsolatedContextId s)
    (foldl (λ m e, <[e.2 := e.1]> m) ∅ (isolatedContexts s)) Hn) as H.
  by destruct (discoverContexts _ _ _ _ _ _) as [[? ?] ?].
Qed.

Lemma createPagesSnapshot_keeps_name (n : string) (s : McpContext) :
  (∀ k, n ≠ generatedName k) →
  omap_get n (isolatedContexts (createPagesSnapshot s).2)
  = omap_get n (isolatedContexts s).
Proof.
  intros Hn.
  destruct (createPagesSnapshot_unfold s) as (names & _ & Heq). cbv zeta in Heq.
  set (s1 := (forEach (registerPage names) (b_pages (browser s)) (getAllPages s).2).2)
    in *.
  assert (isolatedContexts s1 = isolatedContexts (getAllPages s).2) as H1.
  { pose proof (leaves_forEach exceptPageRecords (registerPage names)
                  (b_pages (browser s)) (leaves_registerPage names) (getAllPages s).2)
      as H. unfold exceptPageRecords in H. by injection H. }
  pose proof (leaves_selectFallback (pruned s1 (b_pages (browser s)))
                (pruned s1 (b_pages (browser s)))) as H3.
  unfold registry in H3. injection H3 as _ H3 _ _ _ _ _ _.
  cbn [pruned isolatedContexts set_pages set_focusedPagePerContext set_mcpPages] in H3.
  rewrite Heq.
  destruct (selectFallback _ _) as [[[]|e] s3]; cbn [snd] in *.
  - rewrite getAllPages_keeps_name by done.
    by rewrite H3, H1, getAllPages_keeps_name.
  - by rewrite H3, H1, getAllPages_keeps_name.
Qed.

Lemma leaves_createPagesSnapshot_shape :
  leaves (λ s, driverShape (browser s)) createPagesSnapshot.
Proof.
  intros s.
  destruct (createPagesSnapshot_state s)
    as (names & s1 & r3 & s3 & Hs1 & E3 & H0 & H1 & H3 & H' & Hres).
  cbv zeta in *.
  unfold exceptContextNames in H0, H'. unfold exceptPageRecords in H1.
  injection H0 as Hb0 _ _ _ _ _ _ _ _.
  injection H1 as Hb1 _ _ _ _ _ _ _ _.
  injection H' as Hb' _ _ _ _ _ _ _ _.
  rewrite Hb'.
  assert (driverShape (browser s3) = driverShape (browser (pruned s1 (b_pages (browser s)))))
    as ->.
  { unfold selectFallback in E3.
    assert (∀ first, selectPage first (pruned s1 (b_pages (browser s))) = (r3, s3) →
              driverShape (browser s3)
              = driverShape (browser (pruned s1 (b_pages (browser s))))) as Hsel.
    { intros first E. pose proof (leaves_selectPage_shape first
        (pruned s1 (b_pages (browser s)))) as H. by rewrite E in H. }
    destruct (pages (pruned s1 (b_pages (browser s)))) as [|first rest];
      [by injection E3 as _ <-|].
    destruct (selectedPage (pruned s1 (b_pages (browser s)))) as [sel|];
      [|by apply (Hsel first)].
    destruct (decide (sel ∈ first :: rest)); [by injection E3 as _ <-|].
    by apply (Hsel first). }
  cbn [pruned browser set_pages set_focusedPagePerContext set_mcpPages].
  by rewrite Hb1, Hb0.
Qed.

(** The session after a [newPage] that returns. *)
Lemma newPage_returns (background : option bool) (name : option string)
    (s s' : McpContext) (page : Page) :
  newPage background name s = (Ok page, s') →
  let sa := (openPage background name s).2 in
  ∃ l s1,
    page = (openPage background name s).1
    ∧ createPagesSnapshot sa = (Ok l, s1)
    ∧ selectPage page s1 = (Ok tt, s').
Proof.
  rewrite newPage_unfold. cbv zeta.
  destruct (createPagesSnapshot _) as [[l|e] s1] eqn:E1; [|done].
  destruct (selectPage _ s1) as [[[]|e] s2] eqn:E2; [|done].
  intros [= <- <-]. by exists l, s1.
Qed.

(** What holds after a [newPage] that returns. *)
Lemma newPage_post (background : option bool) (name : option string)
    (s s' : McpContext) (page : Page) :
  newPage background name s = (Ok page, s') →
  (b_next (browser s) ≤ page_handle page < b_next (browser s'))%nat
  ∧ browserContext page
    = match name with
      | None => b_defaultContext (browser s)
      | Some n => default (b_next (browser s)) (omap_get n (isolatedContexts s))
      end
  ∧ page ∈ b_pages (browser s')
  ∧ isClosed (browser s') page = false
  ∧ page ∈ pages s'
  ∧ is_Some (getPageId s' page)
  ∧ selectedPage s' = Some page
  ∧ focusedPagePerContext s' !! browserContext page = Some page
  ∧ ps_focusEmulation (pageState (browser s') page) = true
  ∧ (∀ n, name = Some n → (∀ k, n ≠ generatedName k) →
       omap_get n (isolatedContexts s') = Some (browserContext page)).
Proof.
  intros (l & s1 & Hpage & Hsnap & Hsel)%newPage_returns.
  destruct (openPage_spec background name s)
    as (Hhandle & Hctx & Hlive & Hstate & Hname & _).
  cbv zeta in *. rewrite <- Hpage in *.
  set (sa := (openPage background name s).2) in *.
  destruct (createPagesSnapshot_post sa) as (Hb1 & Hrec1 & _ & Hpages1 & _).
  cbv zeta in *. rewrite Hsnap in Hb1, Hrec1, Hpages1. cbn [snd] in *.
  pose proof (leaves_createPagesSnapshot_shape sa) as Hshape1.
  rewrite Hsnap in Hshape1. cbn [snd] in Hshape1.
  pose proof (leaves_selectPage_shape page s1) as Hshape2.
  rewrite Hsel in Hshape2. cbn [snd] in Hshape2.
  rewrite Hshape1 in Hshape2. unfold driverShape in Hshape2.
  injection Hshape2 as Hpages2 _ _ Hnext2 _ _ _.
  pose proof (leaves_selectPage page s1) as Hreg. rewrite Hsel in Hreg.
  cbn [snd] in Hreg. unfold registry in Hreg.
  injection Hreg as _ Hiso _ Hp Hm _ _ _.
  destruct (selectPage_focusMap s1 page) as [Hmap Hselected].
  rewrite Hsel in Hmap, Hselected. cbn [snd] in Hmap, Hselected.
  pose proof (selectPage_outcome s1 page) as Hout. rewrite Hsel in Hout.
  cbn [fst] in Hout.
  assert (isClosed (browser s1) page = false) as Hopen
    by by destruct (isClosed (browser s1) page).
  pose proof (selectPage_shape page s1 s' Hsel) as (_ & _ & _ & Hclosed).
  split; [rewrite Hnext2; lia|]. split; [exact Hctx|].
  split; [by rewrite Hpages2|]. split; [by rewrite Hclosed|].
  split.
  { rewrite Hp, Hpages1. unfold visiblePages. apply list_elem_of_filter.
    split; [right; by rewrite Hstate|done]. }
  split.
  { unfold getPageId. rewrite Hm. apply fmap_is_Some. by apply Hrec1. }
  split; [exact Hselected|]. split; [by rewrite Hmap, lookup_insert_eq|].
  split.
  { rewrite (selectPage_flag page page s1 s' Hsel Hopen).
    by rewrite decide_True, Hopen. }
  intros n -> Hn. rewrite Hiso.
  pose proof (createPagesSnapshot_keeps_name n sa Hn) as Hk.
  rewrite Hsnap in Hk. cbn [snd] in Hk. rewrite Hk. by apply Hname.
Qed.

(** X20. A [newPage] that returns. The page it returns is a live, open
    page with a handle the driver had not used before; it is in the
    default context when no name is given, in the context the name
    stands for when the name is known, and in a new context otherwise.
    The page is in the page list and has a page id, it is the selected
    page and the focus entry of its context, and its focus emulation is
    on. A name that is not one of the generated names stands for the
    context of the page from then on. *)
Theorem newPage_result (background : option bool) (name : option string)
    (s s' : McpContext) (page : Page) :
  newPage background name s = (Ok page, s') →
  (b_next (browser s) ≤ page_handle page < b_next (browser s'))%nat
  ∧ browserContext page
    = match name with
      | None => b_defaultContext (browser s)
      | Some n => default (b_next (browser s)) (omap_get n (isolatedContexts s))
      end
  ∧ page ∈ b_pages (browser s')
  ∧ isClosed (browser s') page = false
  ∧ page ∈ pages s'
  ∧ is_Some (getPageId s' page)
  ∧ selectedPage s' = Some page
  ∧ focusedPagePerContext s' !! browserContext page = Some page
  ∧ ps_focusEmulation (pageState (browser s') page) = true
  ∧ (∀ n, name = Some n → (∀ k, n ≠ generatedName k) →
       omap_get n (isolatedContexts s') = Some (browserContext page)).
Proof. apply newPage_post. Qed.

Lemma newPage_result_witness :
  selectedPage (newPage None (Some "ctx-a") session0).2 = Some pageA1
  ∧ browserContext pageA1 = 1.
Proof.
  destruct (newPage_result None (Some "ctx-a") session0
              (newPage None (Some "ctx-a") session0).2 pageA1)
    as (_ & Hctx & _ & _ & _ & _ & Hsel & _).
  - evaluate.
  - split; [exact Hsel|]. rewrite Hctx. evaluate.
Defined.

(** X21. Two pages opened under the same name. When [newPage] is called
    twice with a name that is not one of the generated names, the second
    page is another page in the browser context of the first. It takes
    the focus of that context from the first page: it is the selected
    page and the focus entry, and [assertPageIsFocused] now rejects the
    first page. *)
Theorem newPage_reuses_named_context (bg1 bg2 : option bool) (n : string)
    (s s1 s2 : McpContext) (p1 p2 : Page) :
  (∀ k, n ≠ generatedName k) →
  newPage bg1 (Some n) s = (Ok p1, s1) →
  newPage bg2 (Some n) s1 = (Ok p2, s2) →
  browserContext p2 = browserContext p1
  ∧ p2 ≠ p1
  ∧ selectedPage s2 = Some p2
  ∧ focusedPagePerContext s2 !! browserContext p1 = Some p2
  ∧ assertPageIsFocused p1 s2
    = (Throw (FocusViolationError (getPageId s2 p1) (getPageId s2 p2)), s2).
Proof.
  intros Hn H1 H2.
  destruct (newPage_post bg1 (Some n) s s1 p1 H1)
    as (Hh1 & _ & _ & _ & _ & _ & _ & _ & _ & Hname1).
  destruct (newPage_post bg2 (Some n) s1 s2 p2 H2)
    as (Hh2 & Hctx2 & _ & _ & _ & _ & Hsel2 & Hfoc2 & _).
  rewrite (Hname1 n eq_refl Hn) in Hctx2. simpl in Hctx2.
  assert (p2 ≠ p1) as Hne by (intros ->; lia).
  split; [exact Hctx2|]. split; [exact Hne|]. split; [exact Hsel2|].
  rewrite <- Hctx2. split; [exact Hfoc2|].
  unfold assertPageIsFocused. rewrite <- Hctx2, Hfoc2.
  by rewrite decide_True.
Qed.

Lemma newPage_reuses_named_context_witness :
  browserContext pageA2 = browserContext pageA1
  ∧ selectedPage (newPage None (Some "ctx-a")
                    (newPage None (Some "ctx-a") session0).2).2 = Some pageA2.
Proof.
  destruct (newPage_reuses_named_context None None "ctx-a" session0
              (newPage None (Some "ctx-a") session0).2
              (newPage None (Some "ctx-a")
                 (newPage None (Some "ctx-a") session0).2).2 pageA1 pageA2)
    as (H1 & _ & H2 & _).
  - intros k H. discriminate H.
  - evaluate.
  - evaluate.
  - split; [exact H1|exact H2].
Defined.

(** ** Extension service workers *)

Lemma workerId_inj (k1 k2 : nat) :
  "sw-" +:+ pretty k1 = "sw-" +:+ pretty k2 → k1 = k2.
Proof.
  intros H. cbn in H. injection H as H.
  apply (inj (pretty : nat → string)). exact H.
Qed.

Lemma assignWorkerIds_spec (l : list TargetInfo) (m : gmap Target string) (next : nat) :
  let a := assignWorkerIds l m next in
  (next ≤ a.2)%nat
  ∧ (∀ t id, m !! t = Some id → a.1 !! t = Some id)
  ∧ (∀ sw, sw ∈ l → is_Some (a.1 !! target sw))
  ∧ (∀ t id, a.1 !! t = Some id →
       m !! t = Some id
       ∨ (m !! t = None ∧ t ∈ target <$> l
          ∧ ∃ k, (next ≤ k < a.2)%nat ∧ id = "sw-" +:+ pretty k))
  ∧ (∀ t1 t2 id, a.1 !! t1 = Some id → a.1 !! t2 = Some id →
       m !! t1 = None → m !! t2 = None → t1 = t2).
Proof.
  revert m next. induction l as [|sw l IH]; intros m next; cbv zeta.
  { cbn. split; [lia|]. split; [done|]. split; [by intros ? ?%elem_of_nil|].
    split; [by left|]. intros t1 t2 id H1 H2 N1. congruence. }
  cbn [assignWorkerIds]. destruct (m !! target sw) as [id0|] eqn:E.
  - destruct (IH m next) as (Hle & Hkeep & Hall & Hfrom & Hinj). cbv zeta in *.
    split; [done|]. split; [done|]. split.
    + intros sw' [->|Hin]%elem_of_cons; [|by apply Hall].
      rewrite (Hkeep _ _ E). by eexists.
    + split; [|done]. intros t id [?|(Hn & Hin & Hk)]%Hfrom; [by left|].
      right. split; [done|]. split; [|done]. rewrite fmap_cons. by right.
  - destruct (IH (<[target sw := "sw-" +:+ pretty next]> m) (S next))
      as (Hle & Hkeep & Hall & Hfrom & Hinj). cbv zeta in *.
    split; [lia|]. split.
    { intros t id Ht. apply Hkeep. rewrite lookup_insert_ne; [done|]. congruence. }
    split.
    { intros sw' [->|Hin]%elem_of_cons; [|by apply Hall].
      rewrite (Hkeep (target sw) ("sw-" +:+ pretty next)); [by eexists|].
      apply lookup_insert_eq. }
    split.
    { intros t id [Ht|(Hn & Hin & k & Hk & ->)]%Hfrom.
      - rewrite lookup_insert in Ht. case_decide as Ht'.
        + injection Ht as <-. subst t. right. split; [done|].
          split; [rewrite fmap_cons; apply list_elem_of_here|].
          exists next. split; [lia|done].
        + by left.
      - apply lookup_insert_None in Hn as [Hn Hne]. right. split; [done|].
        split; [rewrite fmap_cons; by right|]. exists k. split; [lia|done]. }
    intros t1 t2 id H1 H2 N1 N2.
    destruct (decide (t1 = t2)) as [|Hne]; [done|]. exfalso.
    destruct (Hfrom _ _ H1) as [G1|(G1 & _ & k1 & Hk1 & E1)],
             (Hfrom _ _ H2) as [G2|(G2 & _ & k2 & Hk2 & E2)].
    + rewrite lookup_insert in G1, G2. repeat case_decide; congruence.
    + rewrite lookup_insert in G1. case_decide; [|congruence].
      injection G1 as <-. apply workerId_inj in E2. lia.
    + rewrite lookup_insert in G2. case_decide; [|congruence].
      injection G2 as <-. apply workerId_inj in E1. lia.
    + apply Hne. by apply (Hinj t1 t2 id).
Qed.

(** [includes] is the substring test. *)
Lemma prefix_append (p s : string) :
  String.prefix p s = true ↔ ∃ post, s = p +:+ post.
Proof.
  revert s. induction p as [|c p IH]; intros s.
  - split; [by exists s|]. by destruct s.
  - destruct s as [|c' s]; cbn.
    + split; [done|]. by intros [post [=]].
    + destruct (Ascii.ascii_dec c c') as [->|Hne].
      * rewrite IH. split; intros [post H]; exists post; [by rewrite H|].
        by injection H.
      * split; [done|]. intros [post [= ? ?]]. done.
Qed.

Lemma includes_spec (needle s : string) :
  includes needle s = true ↔ ∃ pre post, s = pre +:+ needle +:+ post.
Proof.
  induction s as [|c s IH]; cbn [includes].
  - rewrite orb_false_r, prefix_append. split.
    + intros [post H]. by exists EmptyString, post.
    + intros (pre & post & H). destruct pre as [|? ?]; [by exists post|done].
  - rewrite orb_true_iff, prefix_append, IH. split.
    + intros [[post H]|(pre & post & H)].
      * by exists EmptyString, post.
      * exists (String c pre), post. cbn. by rewrite H.
    + intros (pre & post & H). destruct pre as [|c' pre].
      * left. by exists post.
      * right. exists pre, post. cbn in H. by injection H.
Qed.

(** X22. One snapshot of the extension service workers. The list it
    returns, which is also the list it stores, has one entry for each
    target that reports the type 'service_worker' and a URL containing
    'chrome-extension://', in the driver's order and with the URL
    reported. Every entry carries an id, the id under which
    [getExtensionServiceWorkerId] knows its target. A target that had an
    id keeps it, no other target gets or loses an id, and the counter
    does not go back. *)
Theorem createExtensionServiceWorkersSnapshot_spec (allTargets : list TargetInfo)
    (r : WorkerRegistry) :
  let res := createExtensionServiceWorkersSnapshot allTargets r in
  let serviceWorkers := filter (λ t, isExtensionServiceWorker t = true) allTargets in
  getExtensionServiceWorkers res.2 = res.1
  ∧ esw_target <$> res.1 = target <$> serviceWorkers
  ∧ esw_url <$> res.1 = target_url <$> serviceWorkers
  ∧ (∀ t, t ∈ serviceWorkers ↔
          t ∈ allTargets ∧ target_type t = "service_worker"
          ∧ ∃ pre post, target_url t = pre +:+ "chrome-extension://" +:+ post)
  ∧ (∀ w, w ∈ res.1 →
       is_Some (esw_id w) ∧ getExtensionServiceWorkerId res.2 w = esw_id w)
  ∧ (∀ t id, extensionServiceWorkerMap r !! t = Some id →
       extensionServiceWorkerMap res.2 !! t = Some id)
  ∧ (∀ t, t ∉ target <$> serviceWorkers →
       extensionServiceWorkerMap res.2 !! t = extensionServiceWorkerMap r !! t)
  ∧ (nextExtensionServiceWorkerId r ≤ nextExtensionServiceWorkerId res.2)%nat.
Proof.
  cbv zeta. unfold createExtensionServiceWorkersSnapshot, getExtensionServiceWorkers,
    getExtensionServiceWorkerId.
  cbn [fst snd extensionServiceWorkers extensionServiceWorkerMap
       nextExtensionServiceWorkerId].
  set (sws := filter (λ t, isExtensionServiceWorker t = true) allTargets).
  destruct (assignWorkerIds_spec sws (extensionServiceWorkerMap r)
              (nextExtensionServiceWorkerId r)) as (Hle & Hkeep & Hall & Hfrom & _).
  cbv zeta in *.
  split; [done|]. split; [by rewrite <- list_fmap_compose|].
  split; [by rewrite <- list_fmap_compose|]. split.
  { intros t. subst sws. rewrite list_elem_of_filter. unfold isExtensionServiceWorker.
    rewrite andb_true_iff, bool_decide_eq_true, includes_spec. tauto. }
  split.
  { intros w (sw & -> & Hsw)%list_elem_of_fmap. cbn. split; [by apply Hall|done]. }
  split; [exact Hkeep|]. split; [|exact Hle].
  intros t Ht.
  destruct ((assignWorkerIds sws (extensionServiceWorkerMap r)
              (nextExtensionServiceWorkerId r)).1 !! t) as [id|] eqn:E.
  - apply Hfrom in E as [?|(_ & Hin & _)]; [done|]. by destruct Ht.
  - destruct (extensionServiceWorkerMap r !! t) as [id|] eqn:E'; [|done].
    apply Hkeep in E'. congruence.
Qed.

Lemma workersReachable_inv (r : WorkerRegistry) :
  workersReachable r →
  (1 ≤ nextExtensionServiceWorkerId r)%nat
  ∧ (∀ t id, extensionServiceWorkerMap r !! t = Some id →
       ∃ k, (1 ≤ k < nextExtensionServiceWorkerId r)%nat ∧ id = "sw-" +:+ pretty k)
  ∧ (∀ t1 t2 id, extensionServiceWorkerMap r !! t1 = Some id →
       extensionServiceWorkerMap r !! t2 = Some id → t1 = t2)
  ∧ (∀ w, w ∈ extensionServiceWorkers r →
       is_Some (esw_id w) ∧ extensionServiceWorkerMap r !! esw_target w = esw_id w).
Proof.
  induction 1 as [|allTargets r _ (Hn & Hform & Hinj & _)].
  - cbn. split; [lia|]. split; [done|]. split; [done|]. by intros ? ?%elem_of_nil.
  - unfold createExtensionServiceWorkersSnapshot.
    cbn [snd extensionServiceWorkers extensionServiceWorkerMap
         nextExtensionServiceWorkerId].
    set (sws := filter (λ t, isExtensionServiceWorker t = true) allTargets).
    destruct (assignWorkerIds_spec sws (extensionServiceWorkerMap r)
                (nextExtensionServiceWorkerId r)) as (Hle & Hkeep & Hall & Hfrom & Hnew).
    cbv zeta in *.
    split; [lia|]. split; [|split].
    + intros t id [Ht|(_ & _ & k & Hk & ->)]%Hfrom.
      * destruct (Hform t id Ht) as (k & Hk & ->). exists k. split; [lia|done].
      * exists k. split; [lia|done].
    + intros t1 t2 id H1 H2.
      destruct (Hfrom _ _ H1) as [G1|(G1 & _ & k1 & Hk1 & E1)],
               (Hfrom _ _ H2) as [G2|(G2 & _ & k2 & Hk2 & E2)].
      * by apply (Hinj t1 t2 id).
      * destruct (Hform _ _ G1) as (k & Hk & ->). apply workerId_inj in E2. lia.
      * destruct (Hform _ _ G2) as (k & Hk & ->). apply workerId_inj in E1. lia.
      * by apply (Hnew t1 t2 id).
    + intros w (sw & -> & Hsw)%list_elem_of_fmap. cbn. split; [by apply Hall|done].
Qed.

(** X23. Ids of extension service workers, over any number of snapshots
    taken from a new context. Every id is 'sw-' followed by a number that
    the counter (which starts at 1) has passed, no two targets have the
    same id, and so no two listed workers with different targets carry
    the same id; and once a target has an id, every later snapshot
    leaves it that id. *)
Theorem extension_worker_ids_unique (r : WorkerRegistry) :
  workersReachable r →
  (∀ t id, extensionServiceWorkerMap r !! t = Some id →
     ∃ k, (1 ≤ k < nextExtensionServiceWorkerId r)%nat ∧ id = "sw-" +:+ pretty k)
  ∧ (∀ t1 t2 id, extensionServiceWorkerMap r !! t1 = Some id →
       extensionServiceWorkerMap r !! t2 = Some id → t1 = t2)
  ∧ (∀ w1 w2, w1 ∈ getExtensionServiceWorkers r → w2 ∈ getExtensionServiceWorkers r →
       esw_id w1 = esw_id w2 → esw_target w1 = esw_target w2)
  ∧ (∀ allTargets t id, extensionServiceWorkerMap r !! t = Some id →
       extensionServiceWorkerMap
         (createExtensionServiceWorkersSnapshot allTargets r).2 !! t = Some id).
Proof.
  intros (_ & Hform & Hinj & Hlist)%workersReachable_inv.
  split; [exact Hform|]. split; [exact Hinj|]. split.
  - intros w1 w2 [[id1 E1] M1]%Hlist [[id2 E2] M2]%Hlist Heq.
    apply (Hinj _ _ id1); congruence.
  - intros allTargets t id Ht.
    unfold createExtensionServiceWorkersSnapshot. cbn [snd extensionServiceWorkerMap].
    by apply assignWorkerIds_spec.
Qed.

Lemma extension_worker_ids_unique_witness :
  ∃ k, (1 ≤ k)%nat
       ∧ getExtensionServiceWorkerId
           (createExtensionServiceWorkersSnapshot sampleTargets emptyWorkerRegistry).2
           {| esw_url := EmptyString; esw_target := 7; esw_id := None |}
         = Some ("sw-" +:+ pretty k).
Proof.
  destruct (extension_worker_ids_unique
              (createExtensionServiceWorkersSnapshot sampleTargets emptyWorkerRegistry).2)
    as (H & _).
  - apply workersReachable_snapshot, workersReachable_init.
  - destruct (H 7 "sw-1") as (k & Hk & Hid); [evaluate|].
    exists k. split; [lia|]. rewrite <- Hid. evaluate.
Defined.

(** ** The timeout of [wait_for] *)

(** X24. The timeout of [wait_for]. The transform of [timeoutSchema]
    drops a negative timeout and passes every other one, never yields a
    negative one, and applying it twice is applying it once. Together
    with the test in [waitForTextOnPage], a timeout that is absent, zero
    or negative makes the locator wait with the timeout it has by
    default, and a positive timeout is used as it is. *)
Theorem wait_for_timeout (value : option Z) (locatorTimeout : Z) :
  waitForTextTimeout (timeoutTransform value) locatorTimeout
  = match value with
    | Some v => if (0 <? v)%Z then v else locatorTimeout
    | None => locatorTimeout
    end
  ∧ (∀ v, timeoutTransform value = Some v → (0 ≤ v)%Z ∧ value = Some v)
  ∧ (timeoutTransform value = None ↔ value = None ∨ ∃ v, value = Some v ∧ (v < 0)%Z)
  ∧ timeoutTransform (timeoutTransform value) = timeoutTransform value.
Proof.
  unfold timeoutTransform, waitForTextTimeout.
  destruct value as [v|]; [|by repeat split; eauto].
  destruct (Z.eqb_spec v 0) as [->|Hne]; cbn [negb andb].
  - cbn. split; [done|]. split; [by intros ? [= <-]|]. split; [|done].
    split; [done|]. intros [|(v & [= <-] & ?)]; [done|lia].
  - destruct (Z.leb_spec v 0) as [Hle|Hgt].
    + split; [by destruct (Z.ltb_spec 0 v); [lia|]|]. split; [done|].
      split; [|done]. split; [|done]. intros _. right. exists v. split; [done|lia].
    + destruct (Z.eqb_spec v 0) as [|_]; [done|].
      split; [by destruct (Z.ltb_spec 0 v); [|lia]|].
      split; [intros ? [= <-]; split; [lia|done]|].
      split.
      * split; [done|]. intros [|(v' & [= <-] & ?)]; [done|lia].
      * destruct (Z.eqb_spec v 0) as [|_]; [done|].
        by destruct (Z.leb_spec v 0); [lia|].
Qed.

(** ** Repeating the registry refresh *)

Lemma append_inj_l (p a b : string) : p +:+ a = p +:+ b → a = b.
Proof. induction p as [|c p IH]; cbn; [done|]. intros [= H]. by apply IH. Qed.

Lemma generatedName_inj (k1 k2 : nat) : generatedName k1 = generatedName k2 → k1 = k2.
Proof.
  unfold generatedName. intros H%append_inj_l.
  by apply (inj (pretty : nat → string)).
Qed.

Lemma omap_set_fresh {K V} `{EqDecision K} (k : K) (v : V) (l : list (K * V)) :
  k ∉ l.*1 → omap_set k v l = (l ++ [(k, v)])%list.
Proof.
  induction l as [|[k0 v0] l IH]; [done|].
  rewrite fmap_cons. intros [Hne Hk]%not_elem_of_cons. cbn [omap_set fst] in *.
  rewrite decide_False by congruence. by rewrite IH.
Qed.

(** Without a name clash the discovery loop appends [discovered]. *)
Lemma discoverContexts_fresh defaultCtx known ctxs named next c2n :
  (∀ k, (next ≤ k)%nat → generatedName k ∉ named.*1) →
  discoverContexts defaultCtx known ctxs named next c2n
  = ((named ++ discovered defaultCtx known ctxs next)%list,
     next + length (discovered defaultCtx known ctxs next),
     contextNames (discovered defaultCtx known ctxs next) c2n).
Proof.
  revert named next c2n.
  induction ctxs as [|[ctx closed] ctxs IH]; intros named next c2n Hfresh.
  { cbn. by rewrite app_nil_r, Nat.add_0_r. }
  cbn [discoverContexts discovered]. case_decide as Hc.
  - fold (generatedName next).
    rewrite omap_set_fresh by (apply Hfresh; lia).
    rewrite IH.
    + cbn [length contextNames foldl snd fst]. rewrite <- app_assoc. cbn.
      do 2 f_equal. lia.
    + intros k Hk. rewrite fmap_app, not_elem_of_app. split; [apply Hfresh; lia|].
      cbn. intros H%list_elem_of_singleton.
      assert (k = next) by (apply generatedName_inj; exact H). lia.
  - by apply IH.
Qed.

(** Every context the loop would name is among the discovered ones. *)
Lemma discovered_covers defaultCtx known ctxs next ctx closed :
  (ctx, closed) ∈ ctxs →
  ctx ≠ defaultCtx ∧ closed = false ∧ ctx ∉ known →
  ctx ∈ (discovered defaultCtx known ctxs next).*2.
Proof.
  revert next. induction ctxs as [|[c0 cl0] ctxs IH]; intros next;
    [by intros ?%elem_of_nil|].
  intros [[= <- <-]|Hin]%elem_of_cons Hc; cbn [discovered].
  - rewrite decide_True by done. rewrite fmap_cons. apply list_elem_of_here.
  - case_decide; [rewrite fmap_cons; right|]; by apply IH.
Qed.

Lemma discovered_names defaultCtx known ctxs next n ctx :
  (n, ctx) ∈ discovered defaultCtx known ctxs next →
  ∃ k, n = generatedName k ∧ (next ≤ k)%nat
       ∧ (k < next + length (discovered defaultCtx known ctxs next))%nat.
Proof.
  revert next. induction ctxs as [|[c0 cl0] ctxs IH]; intros next;
    [by intros ?%elem_of_nil|].
  cbn [discovered]. case_decide; [|apply IH].
  intros [Heq|Hin]%elem_of_cons.
  - exists next. cbn [length]. split; [|lia].
    exact (f_equal fst Heq).
  - apply IH in Hin as (k & Hk & Hlo & Hhi). exists k. cbn [length].
    split; [done|lia].
Qed.

Lemma discovered_nil defaultCtx known ctxs next :
  (∀ ctx closed, (ctx, closed) ∈ ctxs →
     ¬ (ctx ≠ defaultCtx ∧ closed = false ∧ ctx ∉ known)) →
  discovered defaultCtx known ctxs next = [].
Proof.
  induction ctxs as [|[c0 cl0] ctxs IH]; intros Hnone; [done|].
  cbn [discovered]. rewrite decide_False by (apply Hnone, list_elem_of_here).
  apply IH. intros ctx closed Hin. apply Hnone. by right.
Qed.

Lemma discoverContexts_none defaultCtx known ctxs named next c2n :
  (∀ ctx closed, (ctx, closed) ∈ ctxs →
     ¬ (ctx ≠ defaultCtx ∧ closed = false ∧ ctx ∉ known)) →
  discoverContexts defaultCtx known ctxs named next c2n = (named, next, c2n).
Proof.
  revert named next c2n. induction ctxs as [|[c0 cl0] ctxs IH];
    intros named next c2n Hnone; [done|].
  cbn [discoverContexts]. rewrite decide_False by (apply Hnone, list_elem_of_here).
  apply IH. intros ctx closed Hin. apply Hnone. by right.
Qed.

(** [#getAllPages] in a session whose contexts all have names. *)
Lemma getAllPages_settled (s : McpContext) :
  settled s →
  getAllPages s
  = (Ok (b_pages (browser s),
         pageLabels (contextNames (isolatedContexts s) ∅) (b_pages (browser s))), s).
Proof.
  intros Hs. unfold getAllPages.
  rewrite discoverContexts_none by exact Hs. by destruct s.
Qed.

(** [#getAllPages] when the stored names are clear of the names it will
    generate. *)
Lemma getAllPages_fresh (s : McpContext) :
  namesBelow s →
  let new := discovered (b_defaultContext (browser s)) (isolatedContexts s).*2
               (b_contexts (browser s)) (nextIsolatedContextId s) in
  getAllPages s
  = (Ok (b_pages (browser s),
         pageLabels (contextNames (isolatedContexts s ++ new) ∅) (b_pages (browser s))),
     set_isolatedContexts (isolatedContexts s ++ new)
       (nextIsolatedContextId s + length new) s).
Proof.
  intros Hbelow new. unfold getAllPages.
  rewrite discoverContexts_fresh.
  - fold new. unfold contextNames. by rewrite foldl_app.
  - intros k Hk (e & Hn & Hin)%list_elem_of_fmap. destruct e as [n ctx].
    cbn in Hn. subst n. specialize (Hbelow _ _ k Hin eq_refl). lia.
Qed.

Lemma getAllPages_settles (s : McpContext) :
  namesBelow s → settled (getAllPages s).2 ∧ namesBelow (getAllPages s).2.
Proof.
  intros Hbelow. rewrite (getAllPages_fresh s Hbelow). cbv zeta.
  cbn [snd]. split.
  - intros ctx closed Hin (Hd & Hc & Hk).
    cbn [browser isolatedContexts set_isolatedContexts] in *.
    apply Hk. rewrite fmap_app, elem_of_app.
    destruct (decide (ctx ∈ (isolatedContexts s).*2)) as [|Hknown]; [by left|].
    right. by eapply discovered_covers.
  - intros n ctx k. cbn [isolatedContexts nextIsolatedContextId set_isolatedContexts].
    intros [Hin|Hin]%elem_of_app ->.
    + specialize (Hbelow _ _ k Hin eq_refl). lia.
    + apply discovered_names in Hin as (k' & Hk & Hlo & Hhi).
      assert (k = k') by (apply generatedName_inj; exact Hk). lia.
Qed.

Lemma devtools_updatePage (b : Browser) (p q : Page) (f : PageState → PageState) :
  (∀ ps, ps_devtools (f ps) = ps_devtools ps) →
  ps_devtools (pageState (updatePage b p f) q) = ps_devtools (pageState b q).
Proof.
  intros Hf. unfold updatePage, with_state, pageState. cbn [b_state].
  destruct (decide (p = q)) as [->|Hne].
  - rewrite lookup_insert_eq. cbn [default]. apply Hf.
  - by rewrite lookup_insert_ne.
Qed.

Lemma devtools_emulateFocusedPage (b : Browser) (p q : Page) (v : bool) :
  ps_devtools (pageState (emulateFocusedPage b p v) q) = ps_devtools (pageState b q).
Proof.
  unfold emulateFocusedPage. destruct (isClosed b p); [done|].
  by apply devtools_updatePage.
Qed.

Lemma leaves_updateSelectedPageTimeouts_devtools (q : Page) :
  leaves (devtoolsFlag q) updateSelectedPageTimeouts.
Proof.
  assert (∀ p f, (∀ ps, ps_devtools (f ps) = ps_devtools ps) →
            leaves (devtoolsFlag q)
              (modify (λ s, set_browser (updatePage (browser s) p f) s))) as Hup.
  { intros p f Hf. apply leaves_modify. intros s. unfold devtoolsFlag.
    cbn [browser set_browser]. by apply devtools_updatePage. }
  unfold updateSelectedPageTimeouts.
  apply leaves_bind; [auto with leaves|]. intros page.
  apply leaves_bind; [auto with leaves|]. intros cpu.
  apply leaves_bind; [by apply Hup|]. intros [].
  apply leaves_bind; [auto with leaves|]. intros conditions.
  by apply Hup.
Qed.

(** [selectPage] never turns a page into a DevTools window or back. *)
Lemma leaves_selectPage_devtools (p q : Page) :
  leaves (devtoolsFlag q) (selectPage p).
Proof.
  assert (∀ r v, leaves (devtoolsFlag q)
                   (modify (λ s, set_browser (emulateFocusedPage (browser s) r v) s)))
    as Hem.
  { intros r v. apply leaves_modify. intros s. unfold devtoolsFlag.
    cbn [browser set_browser]. apply devtools_emulateFocusedPage. }
  unfold selectPage. apply leaves_bind; [apply leaves_get|]. intros s.
  apply leaves_bind.
  { destruct (focusedPagePerContext s !! browserContext p) as [old|];
      [|apply leaves_ret].
    destruct (decide (old ≠ p)); [|apply leaves_ret].
    destruct (isClosed (browser s) old); [apply leaves_ret|apply Hem]. }
  intros [].
  apply leaves_bind; [auto with leaves|]. intros [].
  apply leaves_bind; [auto with leaves|]. intros [].
  apply leaves_bind; [apply leaves_updateSelectedPageTimeouts_devtools|]. intros [].
  apply Hem.
Qed.

Lemma leaves_selectFallback_any {C} (f : McpContext → C) (s : McpContext) :
  (∀ p, leaves f (selectPage p)) → leaves f (selectFallback s).
Proof.
  intros Hsel.
  unfold selectFallback. destruct (pages s) as [|first ?]; [apply leaves_ret|].
  destruct (selectedPage s) as [sel|]; [|apply Hsel].
  destruct (decide (sel ∈ first :: l)); [apply leaves_ret|apply Hsel].
Qed.

Lemma leaves_selectFallback_shape (s : McpContext) :
  leaves (λ s, driverShape (browser s)) (selectFallback s).
Proof. apply leaves_selectFallback_any, leaves_selectPage_shape. Qed.

Lemma leaves_selectFallback_driver (s : McpContext) (q : Page) :
  leaves (devtoolsFlag q) (selectFallback s).
Proof. apply leaves_selectFallback_any. intros p. apply leaves_selectPage_devtools. Qed.

Lemma list_filter_all {A} (P : A → Prop) `{∀ a, Decision (P a)} (l : list A) :
  (∀ a, a ∈ l → P a) → filter P l = l.
Proof.
  induction l as [|a l IH]; intros Hall; [done|].
  rewrite filter_cons, decide_True by (apply Hall, list_elem_of_here).
  f_equal. apply IH. intros b Hb. apply Hall. by right.
Qed.

(** The registration loop changes nothing when every page already has its
    record, labelled as the loop would label it. *)
Lemma forEach_registerPage_fixed names (l : list Page) (s : McpContext) :
  (∀ p, p ∈ l → ∃ mp, omap_get p (mcpPages s) = Some mp
                      ∧ isolatedContextName mp = names !! p) →
  forEach (registerPage names) l s = (Ok tt, s).
Proof.
  induction l as [|a l IH]; intros Hrec; [done|].
  cbn [forEach]. unfold bind.
  assert (registerPage names a s = (Ok tt, s)) as ->.
  { destruct (Hrec a) as (mp & Hmp & Hname); [apply list_elem_of_here|].
    unfold registerPage. rewrite Hmp, <- Hname.
    rewrite omap_set_same; [by destruct s|].
    rewrite Hmp. by destruct mp. }
  apply IH. intros p Hp. apply Hrec. by right.
Qed.

(** A refreshed session is a fixed point of [createPagesSnapshot]. *)
Lemma refreshed_fixed (s : McpContext) :
  refreshed s → createPagesSnapshot s = (Ok (pages s), s).
Proof.
  intros (Hset & Hrec & Hkeys & Hfoc & Hpages & Hsel).
  cbv zeta in *.
  destruct (createPagesSnapshot_unfold s) as (names & Hn & ->). cbv zeta.
  rewrite (getAllPages_settled s Hset) in *. cbn [fst snd] in *.
  injection Hn as <-.
  rewrite (forEach_registerPage_fixed _ _ s Hrec). cbn [snd].
  assert (pruned s (b_pages (browser s)) = s) as ->.
  { unfold pruned. rewrite <- Hpages.
    rewrite (list_filter_all (λ e, e.1 ∈ b_pages (browser s))) by exact Hkeys.
    rewrite map_filter_id by (intros ctx p; apply Hfoc).
    by destruct s. }
  assert (selectFallback s s = (Ok tt, s)) as ->.
  { unfold selectFallback. destruct (pages s) as [|first rest] eqn:E; [done|].
    destruct Hsel as (sel & -> & Hin); [done|]. by rewrite decide_True. }
  by rewrite (getAllPages_settled s Hset).
Qed.

(** What a returning [createPagesSnapshot] establishes. *)
Lemma createPagesSnapshot_refreshes (s s' : McpContext) (l : list Page) :
  namesBelow s → createPagesSnapshot s = (Ok l, s') →
  refreshed s' ∧ namesBelow s' ∧ l = pages s'.
Proof.
  intros Hbelow E.
  destruct (createPagesSnapshot_unfold s) as (names & Hn & Hcps). cbv zeta in Hcps.
  destruct (getAllPages_settles s Hbelow) as [Hset0 Hbelow0].
  pose proof (getAllPages_fresh s Hbelow) as Hga. cbv zeta in Hga.
  pose proof (leaves_getAllPages s) as H0.
  set (s0 := (getAllPages s).2) in *.
  set (live := b_pages (browser s)) in *.
  pose proof (leaves_forEach exceptPageRecords (registerPage names) live
                (leaves_registerPage names) s0) as H1.
  destruct (registerAll_records names live s0) as [_ Hrec]. cbv zeta in Hrec.
  set (s1 := (forEach (registerPage names) live s0).2) in *.
  pose proof (leaves_selectFallback (pruned s1 live) (pruned s1 live)) as H3.
  pose proof (λ q, leaves_selectFallback_driver (pruned s1 live) q (pruned s1 live)) as Hd3.
  pose proof (leaves_selectFallback_shape (pruned s1 live) (pruned s1 live)) as Hs3.
  cbv beta in Hd3, Hs3.
  destruct (selectFallback (pruned s1 live) (pruned s1 live)) as [[[]|e] s3] eqn:E3;
    rewrite E in Hcps; [|discriminate].
  cbn [snd] in H3, Hd3, Hs3.
  unfold exceptContextNames in H0. unfold exceptPageRecords in H1.
  unfold registry in H3.
  injection H0 as Hb0 Ho0 Hp0 Hm0 Hsel0 Hf0 Hr0 Hn0 Hk0.
  injection H1 as Hb1 Ho1 Hi1 Hc1 Hp1 Hsel1 Hf1 Hr1 Hk1.
  injection H3 as Ho3 Hi3 Hc3 Hp3 Hm3 _ _ _.
  assert (driverShape (browser s3) = driverShape (browser s)) as Hshape.
  { rewrite Hs3. cbn [pruned browser set_pages set_focusedPagePerContext set_mcpPages].
    by rewrite Hb1, Hb0. }
  assert (∀ q, devtoolsFlag q s3 = devtoolsFlag q s) as Hdev.
  { intros q. rewrite (Hd3 q).
    unfold devtoolsFlag.
    cbn [pruned browser set_pages set_focusedPagePerContext set_mcpPages].
    by rewrite Hb1, Hb0. }
  unfold driverShape in Hshape. injection Hshape as Hbp Hbc Hbd _ _ _ _.
  cbn [pruned isolatedContexts nextIsolatedContextId pages mcpPages opts
       set_pages set_focusedPagePerContext set_mcpPages] in Hi3, Hc3, Hp3, Hm3, Ho3.
  assert (settled s3) as Hset3.
  { intros ctx closed. rewrite Hbc, Hbd, Hi3, Hi1.
    specialize (Hset0 ctx closed). by rewrite Hb0 in Hset0. }
  rewrite (getAllPages_settled s3 Hset3) in Hcps. cbn [snd] in Hcps.
  injection Hcps as -> ->.
  destruct (createPagesSnapshot_post s) as (_ & _ & Hfoc & Hvis & Hres).
  rewrite E in Hfoc, Hvis, Hres. cbn [fst snd] in Hfoc, Hvis, Hres.
  destruct (Hres _ eq_refl) as [_ Hsel].
  split; [|split; [|done]].
  - unfold refreshed. rewrite Hbp. fold live.
    split; [exact Hset3|]. split; [|split; [|split; [|split]]].
    + intros p Hp. rewrite Hm3, Hi3, Hi1.
      pose proof (omap_get_filter_key (λ q, q ∈ live) p (mcpPages s1)) as Hfk.
      cbv beta in Hfk. rewrite Hfk, decide_True by done.
      assert (names = pageLabels (contextNames (isolatedContexts s0) ∅) live) as <-.
      { subst s0. rewrite Hga in Hn |- *. cbn [fst snd isolatedContexts set_isolatedContexts] in *.
        by injection Hn. }
      specialize (Hrec p).
      destruct (omap_get p (mcpPages s0)) as [mp|]; rewrite decide_True in Hrec by done.
      * rewrite Hrec. eexists. split; reflexivity.
      * destruct Hrec as (id & _ & ->). eexists. split; reflexivity.
    + intros e. rewrite Hm3. by intros [? _]%list_elem_of_filter.
    + exact Hfoc.
    + rewrite Hvis. unfold visiblePages. rewrite Ho3, Ho1, Ho0.
      apply list_filter_iff. intros p. specialize (Hdev p).
      unfold devtoolsFlag in Hdev. by rewrite Hdev.
    + exact Hsel.
  - intros n ctx k. rewrite Hi3, Hi1, Hc3, Hc1. apply Hbelow0.
Qed.

(** X25. Context discovery in [#getAllPages], when no stored name is a
    generated name the counter has not reached: the stored names stay in
    place and the open, unnamed contexts other than the default one are
    appended under 'isolated-context-N', numbered from the counter in the
    driver's order; the counter advances by their number; afterwards every
    such context has a name, and a second call returns the same pages and
    labels and changes nothing. *)
Theorem getAllPages_discovery (s : McpContext) :
  namesBelow s →
  let s0 := (getAllPages s).2 in
  let new := discovered (b_defaultContext (browser s)) (isolatedContexts s).*2
               (b_contexts (browser s)) (nextIsolatedContextId s) in
  isolatedContexts s0 = (isolatedContexts s ++ new)%list
  ∧ nextIsolatedContextId s0 = (nextIsolatedContextId s + length new)%nat
  ∧ settled s0 ∧ namesBelow s0
  ∧ getAllPages s0 = getAllPages s.
Proof.
  intros Hbelow. cbv zeta.
  destruct (getAllPages_settles s Hbelow) as [Hset Hbelow0].
  rewrite (getAllPages_settled _ Hset).
  pose proof (getAllPages_fresh s Hbelow) as Hga. cbv zeta in Hga.
  revert Hset Hbelow0. rewrite Hga. cbn [snd]. intros Hset Hbelow0.
  split; [by destruct s|]. split; [by destruct s|]. split; [exact Hset|].
  split; [exact Hbelow0|]. by destruct s.
Qed.

Lemma getAllPages_discovery_witness :
  isolatedContexts (getAllPages sessionIncognito).2 = [(generatedName 1, 5)]
  ∧ getAllPages (getAllPages sessionIncognito).2 = getAllPages sessionIncognito.
Proof.
  destruct (getAllPages_discovery sessionIncognito) as (Hnames & _ & _ & _ & Hagain).
  - intros n ctx k Hin. by apply elem_of_nil in Hin.
  - split; [exact Hnames|exact Hagain].
Defined.

(** X26. [createPagesSnapshot] is idempotent: when it returns, in a
    session where no stored name is a generated name the counter has not
    reached, a second call right after it returns the same page list and
    leaves the session exactly as the first call left it: no record, name,
    counter, selection or focus entry changes and no page is selected
    again. (The [devToolsPage] pairing is not part of the session
    modelled here.) *)
Theorem createPagesSnapshot_idempotent (s s' : McpContext) (l : list Page) :
  namesBelow s → createPagesSnapshot s = (Ok l, s') →
  createPagesSnapshot s' = (Ok l, s').
Proof.
  intros Hbelow E.
  destruct (createPagesSnapshot_refreshes s s' l Hbelow E) as (Href & _ & ->).
  by apply refreshed_fixed.
Qed.

Lemma createPagesSnapshot_idempotent_witness :
  createPagesSnapshot (createPagesSnapshot sessionIncognito).2
  = (Ok [page0; mkPage 7 5], (createPagesSnapshot sessionIncognito).2).
Proof.
  apply (createPagesSnapshot_idempotent sessionIncognito).
  - intros n ctx k Hin. by apply elem_of_nil in Hin.
  - evaluate.
Defined.
